(** * RentalXpert: the request handlers of [app.py] and their properties

    A shallow embedding of the Flask application in [src/app.py].

    - The SQLAlchemy models are records with one optional field per
      nullable column; the SQLite store is a record of tables, each a list
      of rows in rowid order.  [db.session.add] queues an object and
      [db.session.commit] flushes the queue: defaults are filled in, the
      [NOT NULL] and [UNIQUE] constraints and the 64-bit range of integers
      are checked, and a refusal leaves the store as it was.  SQLite does
      not enforce foreign keys unless asked to, and the application does
      not ask.
    - The Flask session is a finite map from keys to the values the
      application and Flask-Login keep there.
    - A view function is a computation in a state-and-exception monad over
      (store, unit of work, session), parameterised by the request.  An
      exception no view catches ends the request; Flask then answers with
      its error page.
    - Text is held in UTF-8.  [int], [float] and
      [datetime.strptime(_, '%Y-%m-%d')] are parsers over the characters
      of a form field, with the decimal digits and the white space of
      Unicode 14 (the tables of CPython 3.11); [float] rounds to the
      nearest binary64 number.
    - Of Flask-Login the embedding has [login_user], [logout_user],
      [login_required] with the redirect of [unauthorized], session
      protection in its default mode, and the context processor that
      hands [current_user] to every template.

    Outside the embedding: the templates (a call of [render_template] is
    recorded with its template name, its context and the flag that
    [inject_theme] adds), cookies and their signatures, the password hash
    and the clock (both supplied with the request's environment). *)

From Stdlib Require Import ZArith List String Ascii Bool Lia Sorted DecimalString.
From Stdlib Require Import DecimalPos DecimalFacts DecimalN DecimalZ.
From Stdlib Require Import PrimFloat SpecFloat FloatOps.
From stdpp Require Import base option list gmap strings sorting.

Local Open Scope string_scope.
Local Open Scope Z_scope.

(** ** Exceptions and results *)

Inductive exn : Type :=
  | ValueError
  | TypeError
  | AttributeError
  | OverflowError
  | IntegrityError
  | BadRequest.

Inductive result (A : Type) : Type :=
  | Ok (a : A)
  | Raise (e : exn).
Arguments Ok {A} a.
Arguments Raise {A} e.

(** ** Text: UTF-8 and the Unicode tables the conversions consult *)

Module Unicode.

Definition byte (c : ascii) : Z := Z.of_N (N_of_ascii c).

Definition continuation (c : ascii) : bool :=
  (128 <=? byte c) && (byte c <=? 191).

Definition low6 (c : ascii) : Z := byte c - 128.

(** A well-formed sequence of two, three or four bytes: the lead byte,
    continuation bytes, the shortest encoding, no surrogate, at most
    U+10FFFF. *)
Definition cp2 (a b : ascii) : Z := (byte a - 192) * 64 + low6 b.
Definition cp3 (a b c : ascii) : Z := ((byte a - 224) * 64 + low6 b) * 64 + low6 c.
Definition cp4 (a b c d : ascii) : Z :=
  (((byte a - 240) * 64 + low6 b) * 64 + low6 c) * 64 + low6 d.

Definition two_bytes (a b : ascii) : bool :=
  (194 <=? byte a) && (byte a <=? 223) && continuation b.

Definition three_bytes (a b c : ascii) : bool :=
  (224 <=? byte a) && (byte a <=? 239) && continuation b && continuation c
  && (2048 <=? cp3 a b c)
  && negb ((55296 <=? cp3 a b c) && (cp3 a b c <=? 57343)).

Definition four_bytes (a b c d : ascii) : bool :=
  (240 <=? byte a) && (byte a <=? 244)
  && continuation b && continuation c && continuation d
  && (65536 <=? cp4 a b c d) && (cp4 a b c d <=? 1114111).

(** U+FFFD, which stands for bytes that are not well-formed. *)
Definition replacement : Z := 65533.

(** The code points of UTF-8 text, decoded as Werkzeug decodes a form
    (errors="replace").  Every byte that starts no well-formed sequence
    gives U+FFFD here; Python gives one U+FFFD for a longest ill-formed
    run, a difference in their number that no use below can see. *)
Fixpoint decode (l : list ascii) : list Z :=
  match l with
  | [] => []
  | a :: l1 =>
      if byte a <? 128 then byte a :: decode l1
      else
        match l1 with
        | b :: l2 =>
            if two_bytes a b then cp2 a b :: decode l2
            else
              match l2 with
              | c :: l3 =>
                  if three_bytes a b c then cp3 a b c :: decode l3
                  else
                    match l3 with
                    | d :: l4 =>
                        if four_bytes a b c d then cp4 a b c d :: decode l4
                        else replacement :: decode l1
                    | [] => replacement :: decode l1
                    end
              | [] => replacement :: decode l1
              end
        | [] => [replacement]
        end
  end.

(** The decimal digits beyond ASCII come in runs of ten, ZERO to NINE:
    the first code point of each run (Unicode 14.0, category Nd). *)
Definition decimal_runs : list Z :=
  [0x660; 0x6f0; 0x7c0; 0x966; 0x9e6; 0xa66; 0xae6; 0xb66; 0xbe6; 0xc66;
   0xce6; 0xd66; 0xde6; 0xe50; 0xed0; 0xf20; 0x1040; 0x1090; 0x17e0; 0x1810;
   0x1946; 0x19d0; 0x1a80; 0x1a90; 0x1b50; 0x1bb0; 0x1c40; 0x1c50; 0xa620;
   0xa8d0; 0xa900; 0xa9d0; 0xa9f0; 0xaa50; 0xabf0; 0xff10; 0x104a0; 0x10d30;
   0x11066; 0x110f0; 0x11136; 0x111d0; 0x112f0; 0x11450; 0x114d0; 0x11650;
   0x116c0; 0x11730; 0x118e0; 0x11950; 0x11c50; 0x11d50; 0x11da0; 0x16a60;
   0x16ac0; 0x16b50; 0x1d7ce; 0x1d7d8; 0x1d7e2; 0x1d7ec; 0x1d7f6; 0x1e140;
   0x1e2f0; 0x1e950; 0x1fbf0].

(** [Py_UNICODE_TODECIMAL]: the value of a decimal digit. *)
Definition decimal (ch : Z) : option Z :=
  if (48 <=? ch) && (ch <=? 57) then Some (ch - 48)
  else
    match List.find (fun s => (s <=? ch) && (ch <? s + 10)) decimal_runs with
    | Some s => Some (ch - s)
    | None => None
    end.

(** [Py_UNICODE_ISSPACE] *)
Definition is_space (ch : Z) : bool :=
  ((9 <=? ch) && (ch <=? 13)) || ((28 <=? ch) && (ch <=? 32))
  || (ch =? 0x85) || (ch =? 0xa0) || (ch =? 0x1680)
  || ((0x2000 <=? ch) && (ch <=? 0x200a))
  || (ch =? 0x2028) || (ch =? 0x2029) || (ch =? 0x202f) || (ch =? 0x205f)
  || (ch =? 0x3000).

End Unicode.

(** ** Python conversions used on form fields *)

Module Py.

(** What [request.form.get(key[, default])] can hand to a conversion:
    the submitted text, the integer default, or [None]. *)
Inductive value : Type :=
  | Str (s : string)
  | Int (z : Z)
  | None_.

Definition code (c : ascii) : Z := Z.of_N (N_of_ascii c).

Definition is_digit (c : ascii) : bool := (48 <=? code c) && (code c <=? 57).
Definition digit_val (c : ascii) : Z := code c - 48.

(** The white space [int] and [float] skip around ASCII text. *)
Definition is_space (c : ascii) : bool :=
  ((9 <=? code c) && (code c <=? 13)) || (code c =? 32).

Definition lower (c : ascii) : ascii :=
  if (65 <=? code c) && (code c <=? 90)
  then ascii_of_N (N_of_ascii c + 32) else c.

Fixpoint lstrip (l : list ascii) : list ascii :=
  match l with
  | c :: l' => if is_space c then lstrip l' else l
  | [] => []
  end.

Definition strip (l : list ascii) : list ascii :=
  rev (lstrip (rev (lstrip l))).

(** [digit (["_"] digit)*] continued: [acc] is the value read so far and
    [n] the number of digits read; returns them with the unread rest. *)
Fixpoint digits_more (acc n : Z) (l : list ascii) : Z * Z * list ascii :=
  match l with
  | c :: l' =>
      if is_digit c then digits_more (acc * 10 + digit_val c) (n + 1) l'
      else if Ascii.eqb c "_" then
        match l' with
        | d :: l'' =>
            if is_digit d
            then digits_more (acc * 10 + digit_val d) (n + 1) l''
            else (acc, n, l)
        | [] => (acc, n, l)
        end
      else (acc, n, l)
  | [] => (acc, n, [])
  end.

(** [digitpart ::= digit (["_"] digit)*], continuing from [acc], [n]. *)
Definition digitpart (acc n : Z) (l : list ascii) : option (Z * Z * list ascii) :=
  match l with
  | c :: l' =>
      if is_digit c then Some (digits_more (acc * 10 + digit_val c) (n + 1) l')
      else None
  | [] => None
  end.

(** An optional sign: [true] for "-". *)
Definition sign (l : list ascii) : bool * list ascii :=
  match l with
  | c :: l' =>
      if Ascii.eqb c "-" then (true, l')
      else if Ascii.eqb c "+" then (false, l')
      else (false, l)
  | [] => (false, [])
  end.

Definition chr (ch : Z) : ascii := ascii_of_N (Z.to_N ch).

(** What [int] and [float] make of text before they parse it
    ([_PyUnicode_TransformDecimalAndSpaceToASCII]): a decimal digit of any
    script becomes its ASCII digit and white space beyond ASCII becomes a
    blank.  At any other character beyond ASCII the interpreter puts "?"
    and drops the rest, and no numeral has a "?": that is [None] here. *)
Fixpoint transform (l : list Z) : option (list ascii) :=
  match l with
  | [] => Some []
  | ch :: l' =>
      if ch <? 127 then cons (chr ch) <$> transform l'
      else if Unicode.is_space ch then cons " "%char <$> transform l'
      else
        match Unicode.decimal ch with
        | Some d => cons (chr (48 + d)) <$> transform l'
        | None => None
        end
  end.

(** Text that is all ASCII is parsed as it is. *)
Definition to_ascii (l : list Z) : option (list ascii) :=
  if forallb (fun ch => ch <? 128) l then Some (map chr l) else transform l.

Definition ascii_of_string (s : string) : option (list ascii) :=
  to_ascii (Unicode.decode (list_ascii_of_string s)).

(** The interpreter's default [sys.get_int_max_str_digits()]. *)
Definition int_max_str_digits : Z := 4300.

(** [int] of ASCII text, base 10: text with more digits than the limit is
    refused like text that is no number. *)
Definition int_of_ascii (text : list ascii) : option Z :=
  let '(neg, l) := sign (strip text) in
  match digitpart 0 0 l with
  | Some (v, n, []) =>
      if n <=? int_max_str_digits then Some (if neg then - v else v) else None
  | _ => None
  end.

(** [int(s)] for a string. *)
Definition int_of_string (s : string) : option Z :=
  text ← ascii_of_string s; int_of_ascii text.

Definition int (v : value) : result Z :=
  match v with
  | Str s =>
      match int_of_string s with
      | Some z => Ok z
      | None => Raise ValueError
      end
  | Int z => Ok z
  | None_ => Raise TypeError
  end.

(** *** [float] *)

Definition prec : Z := 53.
Definition emax : Z := 1024.

(** The binary64 number nearest to [(-1)^neg * m * 10^e] (ties to even). *)
Definition float_of_decimal (neg : bool) (m e : Z) : float :=
  SF2Prim
    match m with
    | Zpos p =>
        match e with
        | Zneg k =>
            SFdiv prec emax (S754_finite neg p 0)
                  (S754_finite false (10 ^ k)%positive 0)
        | _ =>
            let n := Z.pos p * 10 ^ e in
            binary_normalize prec emax (if neg then - n else n) 0 neg
        end
    | _ => S754_zero neg
    end.

Definition signed_inf (neg : bool) : float :=
  if neg then neg_infinity else infinity.

(** [exponent ::= ("e" | "E") [sign] digitpart], when one follows. *)
Definition exponent (l : list ascii) : option (Z * list ascii) :=
  match l with
  | c :: l' =>
      if Ascii.eqb (lower c) "e" then
        let '(eneg, l1) := sign l' in
        match digitpart 0 0 l1 with
        | Some (v, _, rest) => Some (if eneg then - v else v, rest)
        | None => None
        end
      else Some (0, l)
  | [] => Some (0, [])
  end.

(** [number ::= [digitpart] "." digitpart | digitpart ["."]]: the digits
    as one integer, the number of digits after the point, the rest. *)
Definition number (l : list ascii) : option (Z * Z * list ascii) :=
  match digitpart 0 0 l with
  | Some (ip, _, rest) =>
      match rest with
      | c :: rest' =>
          if Ascii.eqb c "." then
            match digitpart ip 0 rest' with
            | Some r => Some r
            | None => Some (ip, 0, rest')
            end
          else Some (ip, 0, rest)
      | [] => Some (ip, 0, [])
      end
  | None =>
      match l with
      | c :: rest' => if Ascii.eqb c "." then digitpart 0 0 rest' else None
      | [] => None
      end
  end.

(** [float] of ASCII text. *)
Definition float_of_ascii (text : list ascii) : option float :=
  let '(neg, l) := sign (strip text) in
  let w := string_of_list_ascii (map lower l) in
  if String.eqb w "inf" || String.eqb w "infinity" then Some (signed_inf neg)
  else if String.eqb w "nan" then Some nan
  else
    match number l with
    | Some (m, fd, rest) =>
        match exponent rest with
        | Some (e, []) => Some (float_of_decimal neg m (e - fd))
        | _ => None
        end
    | None => None
    end.

(** [float(s)] for a string. *)
Definition float_of_string (s : string) : option float :=
  text ← ascii_of_string s; float_of_ascii text.

Definition is_finite (f : float) : bool :=
  negb (is_nan f) && negb (is_infinity f).

Definition float (v : value) : result float :=
  match v with
  | Str s =>
      match float_of_string s with
      | Some f => Ok f
      | None => Raise ValueError
      end
  | Int z =>
      let f := float_of_decimal (z <? 0) (Z.abs z) 0 in
      if is_finite f then Ok f else Raise OverflowError
  | None_ => Raise TypeError
  end.

End Py.

(** ** Dates: [datetime.strptime(s, '%Y-%m-%d').date()] *)

Record date : Type := mk_date { year : Z; month : Z; day : Z }.

(** A [datetime]: a date and the microseconds elapsed since midnight. *)
Record datetime : Type := mk_datetime { date_part : date; time_part : Z }.

Module Strptime.

(** The pattern is matched against the characters of the text; [\d] is a
    decimal digit of any script, a class such as [[0-2]] holds ASCII
    digits only, and [int] then reads what a group matched. *)
Definition in_range (lo hi : Z) (ch : Z) : bool := (lo <=? ch) && (ch <=? hi).

Definition is_digit (ch : Z) : bool :=
  match Unicode.decimal ch with Some _ => true | None => false end.

Definition digit_val (ch : Z) : Z := default 0 (Unicode.decimal ch).

(** [(?P<Y>\d\d\d\d)] *)
Definition re_Y (l : list Z) : list (Z * list Z) :=
  match l with
  | a :: b :: c :: d :: rest =>
      if is_digit a && is_digit b && is_digit c && is_digit d
      then [(((digit_val a * 10 + digit_val b) * 10 + digit_val c) * 10
             + digit_val d, rest)]
      else []
  | _ => []
  end.

(** One alternative made of two characters, and one made of one. *)
Definition two (p1 p2 : Z -> bool) (l : list Z) : list (Z * list Z) :=
  match l with
  | a :: b :: rest =>
      if p1 a && p2 b
      then [((if is_digit a then digit_val a * 10 else 0) + digit_val b, rest)]
      else []
  | _ => []
  end.

Definition one (p : Z -> bool) (l : list Z) : list (Z * list Z) :=
  match l with
  | a :: rest => if p a then [(digit_val a, rest)] else []
  | [] => []
  end.

Definition is_char (x : ascii) (ch : Z) : bool := ch =? Unicode.byte x.

(** [(?P<m>1[0-2]|0[1-9]|[1-9])], the alternatives in the order tried. *)
Definition re_m (l : list Z) : list (Z * list Z) :=
  two (is_char "1") (in_range 48 50) l
  ++ two (is_char "0") (in_range 49 57) l
  ++ one (in_range 49 57) l.

(** [(?P<d>3[01]|[12]\d|0[1-9]|[1-9]| [1-9])] *)
Definition re_d (l : list Z) : list (Z * list Z) :=
  two (is_char "3") (in_range 48 49) l
  ++ two (in_range 49 50) is_digit l
  ++ two (is_char "0") (in_range 49 57) l
  ++ one (in_range 49 57) l
  ++ two (is_char " ") (in_range 49 57) l.

Definition lit (x : ascii) (l : list Z) : list (list Z) :=
  match l with
  | ch :: rest => if is_char x ch then [rest] else []
  | [] => []
  end.

(** Every way the pattern of ['%Y-%m-%d'] matches a prefix of [l], in the
    order a backtracking matcher finds them; [re.match] takes the first. *)
Definition matches (l : list Z) : list (Z * Z * Z * list Z) :=
  flat_map (fun '(y, l1) =>
    flat_map (fun l2 =>
      flat_map (fun '(m, l3) =>
        flat_map (fun l4 =>
          map (fun '(d, l5) => (y, m, d, l5)) (re_d l4))
        (lit "-" l3))
      (re_m l2))
    (lit "-" l1))
  (re_Y l).

Definition is_leap (y : Z) : bool :=
  (y mod 4 =? 0) && (negb (y mod 100 =? 0) || (y mod 400 =? 0)).

Definition days_in_month (y m : Z) : Z :=
  if m =? 2 then (if is_leap y then 29 else 28)
  else if (m =? 4) || (m =? 6) || (m =? 9) || (m =? 11) then 30
  else 31.

(** [datetime.date(y, m, d)] accepts exactly these. *)
Definition valid_date (y m d : Z) : bool :=
  (1 <=? y) && (y <=? 9999) && (1 <=? m) && (m <=? 12)
  && (1 <=? d) && (d <=? days_in_month y m).

(** [datetime.strptime(v, '%Y-%m-%d').date()] *)
Definition date_of (v : Py.value) : result date :=
  match v with
  | Py.Str s =>
      match matches (Unicode.decode (list_ascii_of_string s)) with
      | (y, m, d, []) :: _ =>
          if valid_date y m d then Ok (mk_date y m d) else Raise ValueError
      | _ => Raise ValueError
      end
  | _ => Raise TypeError
  end.

End Strptime.

(** ** Database models *)

Module Owner.
Record t : Type := mk {
  id : Z;
  username : option string;
  email : option string;
  password_hash : option string;
  phone : option string;
  created_at : option datetime
}.
End Owner.

Module Property.
Record t : Type := mk {
  id : Z;
  name : option string;
  address : option string;
  property_type : option string;
  bedrooms : option Z;
  bathrooms : option Z;
  area_sqft : option float;
  monthly_rent : option float;
  owner_id : option Z;
  created_at : option datetime
}.
End Property.

Module Tenant.
Record t : Type := mk {
  id : Z;
  name : option string;
  email : option string;
  phone : option string;
  whatsapp_number : option string;
  lease_start : option date;
  lease_end : option date;
  security_deposit : option float;
  property_id : option Z;
  is_active : option bool;
  created_at : option datetime
}.
End Tenant.

Module Payment.
Record t : Type := mk {
  id : Z;
  property_id : option Z;
  tenant_id : option Z;
  amount : option float;
  payment_date : option date;
  payment_method : option string;
  payment_type : option string;
  status : option string;
  notes : option string
}.
End Payment.

Module Expense.
Record t : Type := mk {
  id : Z;
  property_id : option Z;
  category : option string;
  description : option string;
  amount : option float;
  expense_date : option date;
  vendor : option string;
  receipt_url : option string
}.
End Expense.

Module MaintenanceRequest.
Record t : Type := mk {
  id : Z;
  property_id : option Z;
  tenant_id : option Z;
  issue_type : option string;
  description : option string;
  priority : option string;
  status : option string;
  created_at : option datetime;
  resolved_at : option datetime
}.
End MaintenanceRequest.

(** The store: one list of rows per table, in rowid order.  The [Message]
    and [Document] tables are declared by the application but no view reads
    or writes them. *)
Record database : Type := mk_database {
  owner_table : list Owner.t;
  property_table : list Property.t;
  tenant_table : list Tenant.t;
  payment_table : list Payment.t;
  expense_table : list Expense.t;
  maintenance_request_table : list MaintenanceRequest.t
}.

(** ** The queries the views issue *)

Module Sql.

(** [column = value] with a non-NULL value: never true of a NULL column. *)
Definition eq_int (c : option Z) (v : Z) : bool :=
  match c with Some x => x =? v | None => false end.

Definition eq_str (c : option string) (v : string) : bool :=
  match c with Some x => String.eqb x v | None => false end.

(** [column != value]: not true of a NULL column either. *)
Definition ne_str (c : option string) (v : string) : bool :=
  match c with Some x => negb (String.eqb x v) | None => false end.

Definition eq_true (c : option bool) : bool :=
  match c with Some b => b | None => false end.

(** [filter_by(column=v)] with a Python value: [None] compares with
    [IS NULL]. *)
Definition filter_by_str (c : option string) (v : option string) : bool :=
  match v with
  | Some x => eq_str c x
  | None => match c with None => true | Some _ => false end
  end.

(** [query(X).join(Property)]: a pair for every row of [X] and every
    property its foreign key equals. *)
Definition join {A : Type} (fk : A -> option Z) (rows : list A)
    (props : list Property.t) : list (A * Property.t) :=
  flat_map (fun r =>
    map (pair r) (List.filter (fun p => eq_int (fk r) (Property.id p)) props))
  rows.

(** [query(X).join(Property).filter(Property.owner_id == uid, extra)] *)
Definition join_owned {A : Type} (fk : A -> option Z) (extra : A -> bool)
    (uid : Z) (rows : list A) (props : list Property.t) : list A :=
  map fst
    (List.filter (fun rp => eq_int (Property.owner_id (snd rp)) uid && extra (fst rp))
       (join fk rows props)).

(** [Property.query.filter_by(owner_id=uid)] *)
Definition properties_of (uid : Z) (props : list Property.t) : list Property.t :=
  List.filter (fun p => eq_int (Property.owner_id p) uid) props.

(** Dates as SQLite orders them (as the text YYYY-MM-DD); NULL sorts below
    every date. *)
Definition date_leb (a b : date) : bool :=
  (year a <? year b)
  || ((year a =? year b)
      && ((month a <? month b) || ((month a =? month b) && (day a <=? day b)))).

Definition null_date_leb (a b : option date) : bool :=
  match a, b with
  | None, _ => true
  | Some _, None => false
  | Some x, Some y => date_leb x y
  end.

(** [x] may precede [y] under [ORDER BY key DESC]. *)
Definition desc {A : Type} (key : A -> option date) (x y : A) : Prop :=
  Is_true (null_date_leb (key y) (key x)).

(** [x] goes before the first row it may precede. *)
Fixpoint insert_desc {A : Type} (key : A -> option date) (x : A) (rows : list A)
    : list A :=
  match rows with
  | [] => [x]
  | y :: rows' =>
      if null_date_leb (key y) (key x) then x :: rows
      else y :: insert_desc key x rows'
  end.

(** [order_by(key.desc())]: SQLite's sort keeps rows with equal keys in
    the order the scan found them, with a [LIMIT] and without. *)
Definition order_by_desc {A : Type} (key : A -> option date) (rows : list A) : list A :=
  fold_right (insert_desc key) [] rows.

Definition limit {A : Type} (n : nat) (rows : list A) : list A := take n rows.

(** [SUM(column)] over binary64 values, added to 0.0 in row order: NULLs
    are skipped, the sum of no value is NULL, and so is a sum that is NaN
    (SQLite hands NaN back as NULL). *)
Definition sum (vals : list (option float)) : option float :=
  match omap (fun v => v) vals with
  | [] => None
  | fs =>
      let total := fold_left PrimFloat.add fs 0%float in
      if is_nan total then None else Some total
  end.

(** *** Inserting a row *)

Definition in_int64 (z : Z) : bool :=
  (- 2 ^ 63 <=? z) && (z <? 2 ^ 63).

(** Binding an integer parameter: one outside 64 bits is refused. *)
Definition bind_int (v : option Z) : result (option Z) :=
  match v with
  | Some z => if in_int64 z then Ok v else Raise OverflowError
  | None => Ok None
  end.

(** What a [FLOAT] column gives back for a float that was bound to it:
    SQLite stores NaN as NULL, and a value that is a whole number as an
    integer, which loses the sign of -0.0 and nothing else. *)
Definition bind_real (v : option float) : option float :=
  match v with
  | Some f =>
      if is_nan f then None
      else if is_zero f then Some 0%float
      else Some f
  | None => None
  end.

(** The rowid given to a new row of an [INTEGER PRIMARY KEY] table: one
    more than the largest in use (a table that has used the last 64-bit
    rowid is not considered). *)
Definition next_rowid (ids : list Z) : Z :=
  match ids with
  | [] => 1
  | i :: rest => fold_right Z.max i rest + 1
  end.

Definition default {A : Type} (d : A) (v : option A) : option A :=
  match v with Some _ => v | None => Some d end.

Definition is_null {A : Type} (v : option A) : bool :=
  match v with Some _ => false | None => true end.

Definition taken (col : list (option string)) (v : option string) : bool :=
  match v with
  | Some x => existsb (fun c => eq_str c x) col
  | None => false
  end.

End Sql.

(** ** Requests, sessions and the application state *)

Inductive http_method : Type := GET | POST.

(** A decoded JSON document. *)
#[warnings="-register-all"]
Inductive json : Type :=
  | JNull
  | JBool (b : bool)
  | JInt (z : Z)
  | JFloat (f : float)
  | JStr (s : string)
  | JArr (items : list json)
  | JObj (members : list (string * json)).

Record request : Type := mk_request {
  method : http_method;
  form : gmap string string;
  (** the body decoded as JSON, when it is JSON *)
  json_body : option json;
  referrer : option string;
  url : string;
  (** whether a cookie named [remember_token] came with the request *)
  remember_cookie : bool;
  (** Flask-Login's identifier of the client (address and user agent) *)
  session_identifier : string
}.

(** What the world outside the application supplies to a request. *)
Record environ : Type := mk_environ {
  utcnow : datetime;
  generate_password_hash : string -> string;
  check_password_hash : string -> option string -> result bool
}.

(** Values kept in the Flask session. *)
Inductive sval : Type :=
  | SBool (b : bool)
  | SStr (s : string)
  | SInt (z : Z)
  | SFlashes (l : list (string * string)).

#[global] Instance sval_eq_dec : EqDecision sval.
Proof. solve_decision. Defined.

(** Objects handed to [db.session.add] and not yet committed. *)
Inductive entity : Type :=
  | NewOwner (o : Owner.t)
  | NewProperty (p : Property.t)
  | NewTenant (t : Tenant.t)
  | NewPayment (p : Payment.t).

Record state : Type := mk_state {
  db : database;
  pending : list entity;
  session : gmap string sval
}.

Definition set_db (d : database) (st : state) : state :=
  mk_state d (pending st) (session st).
Definition set_pending (l : list entity) (st : state) : state :=
  mk_state (db st) l (session st).
Definition set_session (s : gmap string sval) (st : state) : state :=
  mk_state (db st) (pending st) s.

(** ** The monad of view functions: state and exceptions *)

Definition M (A : Type) : Type := state -> result A * state.

Definition ret {A : Type} (a : A) : M A := fun st => (Ok a, st).

Definition bind {A B : Type} (m : M A) (k : A -> M B) : M B :=
  fun st =>
    match m st with
    | (Ok a, st') => k a st'
    | (Raise e, st') => (Raise e, st')
    end.

Definition raise {A : Type} (e : exn) : M A := fun st => (Raise e, st).

Definition lift {A : Type} (r : result A) : M A := fun st => (r, st).

Definition gets {A : Type} (f : state -> A) : M A := fun st => (Ok (f st), st).

Definition modify (f : state -> state) : M unit := fun st => (Ok tt, f st).

Notation "x <- m ;; k" := (bind m (fun x => k))
  (at level 100, m at next level, right associativity).
Notation "m ;;; k" := (bind m (fun _ => k))
  (at level 100, right associativity).

Definition rbind {A B : Type} (r : result A) (k : A -> result B) : result B :=
  match r with
  | Ok a => k a
  | Raise e => Raise e
  end.

Notation "x <-? r ;; k" := (rbind r (fun x => k))
  (at level 100, r at next level, right associativity).

(** ** Flushing new rows to the store *)

Module Store.

Definition insert_owner (now : datetime) (o : Owner.t) (d : database)
    : result database :=
  if Sql.is_null (Owner.username o) || Sql.is_null (Owner.email o)
     || Sql.taken (map Owner.username (owner_table d)) (Owner.username o)
     || Sql.taken (map Owner.email (owner_table d)) (Owner.email o)
  then Raise IntegrityError
  else
    Ok (mk_database
          (owner_table d ++
           [Owner.mk (Sql.next_rowid (map Owner.id (owner_table d)))
              (Owner.username o) (Owner.email o) (Owner.password_hash o)
              (Owner.phone o) (Sql.default now (Owner.created_at o))])
          (property_table d) (tenant_table d) (payment_table d) (expense_table d)
          (maintenance_request_table d)).

Definition insert_property (now : datetime) (p : Property.t) (d : database)
    : result database :=
  bedrooms <-? Sql.bind_int (Property.bedrooms p) ;;
  bathrooms <-? Sql.bind_int (Property.bathrooms p) ;;
  owner_id <-? Sql.bind_int (Property.owner_id p) ;;
  if Sql.is_null (Property.name p) then Raise IntegrityError
  else
    Ok (mk_database (owner_table d)
          (property_table d ++
           [Property.mk (Sql.next_rowid (map Property.id (property_table d)))
              (Property.name p) (Property.address p) (Property.property_type p)
              bedrooms bathrooms
              (Sql.bind_real (Property.area_sqft p))
              (Sql.bind_real (Property.monthly_rent p))
              owner_id (Sql.default now (Property.created_at p))])
          (tenant_table d) (payment_table d) (expense_table d) (maintenance_request_table d)).

Definition insert_tenant (now : datetime) (t : Tenant.t) (d : database)
    : result database :=
  property_id <-? Sql.bind_int (Tenant.property_id t) ;;
  if Sql.is_null (Tenant.name t) || Sql.is_null (Tenant.phone t)
  then Raise IntegrityError
  else
    Ok (mk_database (owner_table d) (property_table d)
          (tenant_table d ++
           [Tenant.mk (Sql.next_rowid (map Tenant.id (tenant_table d)))
              (Tenant.name t) (Tenant.email t) (Tenant.phone t)
              (Tenant.whatsapp_number t) (Tenant.lease_start t)
              (Tenant.lease_end t) (Sql.bind_real (Tenant.security_deposit t))
              property_id (Sql.default true (Tenant.is_active t))
              (Sql.default now (Tenant.created_at t))])
          (payment_table d) (expense_table d) (maintenance_request_table d)).

Definition insert_payment (now : datetime) (p : Payment.t) (d : database)
    : result database :=
  property_id <-? Sql.bind_int (Payment.property_id p) ;;
  tenant_id <-? Sql.bind_int (Payment.tenant_id p) ;;
  if Sql.is_null (Sql.bind_real (Payment.amount p)) then Raise IntegrityError
  else
    Ok (mk_database (owner_table d) (property_table d) (tenant_table d)
          (payment_table d ++
           [Payment.mk (Sql.next_rowid (map Payment.id (payment_table d)))
              property_id tenant_id (Sql.bind_real (Payment.amount p))
              (Sql.default (date_part now) (Payment.payment_date p))
              (Payment.payment_method p) (Payment.payment_type p)
              (Sql.default "completed" (Payment.status p))
              (Payment.notes p)])
          (expense_table d) (maintenance_request_table d)).

Definition insert (now : datetime) (e : entity) (d : database) : result database :=
  match e with
  | NewOwner o => insert_owner now o d
  | NewProperty p => insert_property now p d
  | NewTenant t => insert_tenant now t d
  | NewPayment p => insert_payment now p d
  end.

(** Flush the new objects in the order they were added; the first refusal
    abandons the whole transaction. *)
Fixpoint flush (now : datetime) (l : list entity) (d : database) : result database :=
  match l with
  | [] => Ok d
  | e :: l' => d' <-? insert now e d ;; flush now l' d'
  end.

End Store.

(** [db.session.add(obj)] *)
Definition db_session_add (e : entity) : M unit :=
  modify (fun st => set_pending (pending st ++ [e]) st).

(** [db.session.commit()] *)
Definition db_session_commit (env : environ) : M unit :=
  fun st =>
    match Store.flush (utcnow env) (pending st) (db st) with
    | Ok d => (Ok tt, set_pending [] (set_db d st))
    | Raise e => (Raise e, set_pending [] st)
    end.

(** ** Flask: session, flashes, responses *)

Inductive location : Type :=
  | UrlFor (endpoint : string)
  | LoginUrl (next_url : string)
  | Url (target : string).

(** A Python number: an [int] or a [float]. *)
Inductive number : Type :=
  | IntNum (z : Z)
  | FloatNum (f : float).

Record stats : Type := mk_stats {
  total_properties : nat;
  active_tenants : nat;
  monthly_income : number;
  recent_payments : list Payment.t;
  pending_maintenance : nat
}.

Inductive context : Type :=
  | NoContext
  | WithProperties (l : list Property.t)
  | WithTenants (l : list Tenant.t)
  | WithPayments (l : list Payment.t)
  | WithExpenses (l : list Expense.t)
  | WithStats (s : stats).

Inductive response : Type :=
  | Redirect (to : location)
  | RenderTemplate (name : string) (ctx : context) (dark_mode : sval)
  | Jsonify (body : list (string * string)).

(** Python's truth value of a session value. *)
Definition truthy (v : sval) : bool :=
  match v with
  | SBool b => b
  | SStr s => negb (String.eqb s "")
  | SInt z => negb (z =? 0)
  | SFlashes l => match l with [] => false | _ => true end
  end.

(** [session.get(key, default)] *)
Definition session_get (key : string) (dflt : sval) : M sval :=
  gets (fun st => default dflt (session st !! key)).

(** [session[key] = v] *)
Definition session_setitem (key : string) (v : sval) : M unit :=
  modify (fun st => set_session (<[key := v]> (session st)) st).

(** [if key in session: session.pop(key)] *)
Definition session_discard (key : string) : M unit :=
  modify (fun st => set_session (delete key (session st)) st).

(** [flash(message, category)] *)
Definition flash (message category : string) : M unit :=
  fun st =>
    match session st !! "_flashes" with
    | None => session_setitem "_flashes" (SFlashes [(category, message)]) st
    | Some (SFlashes l) =>
        session_setitem "_flashes" (SFlashes (l ++ [(category, message)])) st
    | Some _ => (Raise AttributeError, st)
    end.

(** The context processor [inject_theme]. *)
Definition inject_theme : M sval := session_get "dark_mode" (SBool false).

Definition redirect (to : location) : M response := ret (Redirect to).

(** [request.form.get(key)] and [request.form.get(key, 0)] *)
Definition form_get (req : request) (key : string) : Py.value :=
  match form req !! key with
  | Some s => Py.Str s
  | None => Py.None_
  end.

Definition form_get_or (req : request) (key : string) (dflt : Z) : Py.value :=
  match form req !! key with
  | Some s => Py.Str s
  | None => Py.Int dflt
  end.

(** A form field kept as text ([None] when absent). *)
Definition form_text (req : request) (key : string) : option string :=
  form req !! key.

(** ** Flask-Login *)

(** [str(n)] for an integer. *)
Definition str_of_int (z : Z) : string :=
  DecimalString.NilZero.string_of_int (Z.to_int z).

Definition value_of_sval (v : sval) : result Py.value :=
  match v with
  | SStr s => Ok (Py.Str s)
  | SInt z => Ok (Py.Int z)
  | SBool b => Ok (Py.Int (if b then 1 else 0))
  | SFlashes _ => Raise TypeError
  end.

(** [Owner.query.get(pk)] *)
Definition owner_get (pk : Z) (d : database) : result (option Owner.t) :=
  _ <-? Sql.bind_int (Some pk) ;;
  Ok (List.find (fun o => Owner.id o =? pk) (owner_table d)).

(** The user loader: [Owner.query.get(int(user_id))]. *)
Definition load_user (user_id : sval) : M (option Owner.t) :=
  v <- lift (value_of_sval user_id) ;;
  pk <- lift (Py.int v) ;;
  d <- gets db ;;
  lift (owner_get pk d).

(** Session protection in its default mode "basic": a session that is not
    empty and was not opened by this client (its [_id] is not the client's
    identifier) is marked as not fresh. *)
Definition protect (req : request) (sess : gmap string sval) : gmap string sval :=
  if bool_decide (sess <> ∅)
     && bool_decide (sess !! "_id" <> Some (SStr (session_identifier req)))
  then match sess !! "_fresh" with
       | Some (SBool false) => sess
       | _ => <["_fresh" := SBool false]> sess
       end
  else sess.

Definition session_protection (req : request) : M unit :=
  modify (fun st => set_session (protect req (session st)) st).

(** [current_user]: the owner named by the session, if any.  The
    application never logs a user in with [remember=True], so no remember
    cookie it receives carries a valid signature and none loads a user. *)
Definition current_user (req : request) : M (option Owner.t) :=
  session_protection req ;;;
  fun st =>
    match session st !! "_user_id" with
    | Some user_id => load_user user_id st
    | None => (Ok None, st)
    end.

(** Flask-Login's context processor hands [current_user] to every
    template.  The user is loaded once in a request and then kept (in
    [g._login_user]): [loaded] is the user the request has loaded so far,
    and a request that has loaded none loads it now. *)
Definition user_context_processor (req : request)
    (loaded : option (option Owner.t)) : M (option Owner.t) :=
  match loaded with
  | Some user => ret user
  | None => current_user req
  end.

(** [render_template(name, **ctx)]: the context processors run in the
    order they were registered, Flask-Login's and then [inject_theme].
    The response records the flag of the second; the user the first one
    adds is for the template alone. *)
Definition render_template (req : request) (loaded : option (option Owner.t))
    (name : string) (ctx : context) : M response :=
  user_context_processor req loaded ;;;
  dark <- inject_theme ;;
  ret (RenderTemplate name ctx dark).

(** [login_manager.unauthorized()] with [login_view = 'login']. *)
Definition unauthorized (req : request) : M response :=
  flash "Please log in to access this page." "message" ;;;
  redirect (LoginUrl (url req)).

(** The decorator [@login_required]; the view receives [current_user]. *)
Definition login_required (req : request) (view : Owner.t -> M response) : M response :=
  user <- current_user req ;;
  match user with
  | Some u => view u
  | None => unauthorized req
  end.

(** [login_user(owner)] *)
Definition login_user (req : request) (owner : Owner.t) : M unit :=
  session_setitem "_user_id" (SStr (str_of_int (Owner.id owner))) ;;;
  session_setitem "_fresh" (SBool true) ;;;
  session_setitem "_id" (SStr (session_identifier req)).

(** [logout_user()] *)
Definition logout_user (req : request) : M unit :=
  session_discard "_user_id" ;;;
  session_discard "_fresh" ;;;
  session_discard "_id" ;;;
  if remember_cookie req then
    session_setitem "_remember" (SStr "clear") ;;;
    session_discard "_remember_seconds"
  else ret tt.

(** ** The views of [app.py] *)

Section Views.

Variable env : environ.
Variable req : request.

(** [/toggle_dark_mode] *)
Definition toggle_dark_mode : M response :=
  cur <- session_get "dark_mode" (SBool false) ;;
  session_setitem "dark_mode" (SBool (negb (truthy cur))) ;;;
  redirect (match referrer req with
            | Some r => if String.eqb r "" then UrlFor "dashboard" else Url r
            | None => UrlFor "dashboard"
            end).

(** [/] *)
Definition index : M response :=
  user <- current_user req ;;
  match user with
  | Some _ => redirect (UrlFor "dashboard")
  | None => render_template req (Some user) "index.html" NoContext
  end.

(** [/register] *)
Definition register : M response :=
  match method req with
  | POST =>
      let username := form_text req "username" in
      let email := form_text req "email" in
      let password := form_text req "password" in
      let phone := form_text req "phone" in
      d <- gets db ;;
      match List.find (fun o => Sql.filter_by_str (Owner.email o) email) (owner_table d) with
      | Some _ =>
          flash "Email already registered" "danger" ;;;
          redirect (UrlFor "register")
      | None =>
          hashed_password <-
            match password with
            | Some pw => ret (generate_password_hash env pw)
            | None => raise AttributeError
            end ;;
          db_session_add
            (NewOwner (Owner.mk 0 username email (Some hashed_password) phone None)) ;;;
          db_session_commit env ;;;
          flash "Registration successful! Please login." "success" ;;;
          redirect (UrlFor "login")
      end
  | GET => render_template req None "register.html" NoContext
  end.

(** [/login] *)
Definition login : M response :=
  match method req with
  | POST =>
      let email := form_text req "email" in
      let password := form_text req "password" in
      d <- gets db ;;
      ok <-
        match List.find (fun o => Sql.filter_by_str (Owner.email o) email) (owner_table d) with
        | Some owner =>
            match Owner.password_hash owner with
            | Some h =>
                good <- lift (check_password_hash env h password) ;;
                ret (if good then Some owner else None)
            | None => raise AttributeError
            end
        | None => ret None
        end ;;
      match ok with
      | Some owner =>
          login_user req owner ;;;
          flash ("Welcome back, " ++ default "None" (Owner.username owner) ++ "!")
                "success" ;;;
          redirect (UrlFor "dashboard")
      | None =>
          flash "Invalid email or password" "danger" ;;;
          render_template req None "login.html" NoContext
      end
  | GET => render_template req None "login.html" NoContext
  end.

(** [/logout] *)
Definition logout : M response :=
  login_required req (fun _ =>
    logout_user req ;;;
    redirect (UrlFor "index")).

(** [func.sum(Property.monthly_rent) ... .scalar() or 0] *)
Definition scalar_or_0 (v : option float) : number :=
  match v with
  | Some f => if PrimFloat.eqb f 0 then IntNum 0 else FloatNum f
  | None => IntNum 0
  end.

(** [/dashboard] *)
Definition dashboard : M response :=
  login_required req (fun current_user =>
    let uid := Owner.id current_user in
    d <- gets db ;;
    let total_properties := length (Sql.properties_of uid (property_table d)) in
    let active_tenants :=
      length (Sql.join_owned Tenant.property_id
                (fun t => Sql.eq_true (Tenant.is_active t))
                uid (tenant_table d) (property_table d)) in
    let monthly_income :=
      scalar_or_0
        (Sql.sum (map Property.monthly_rent (Sql.properties_of uid (property_table d)))) in
    let recent_payments :=
      Sql.limit 5
        (Sql.order_by_desc Payment.payment_date
           (Sql.join_owned Payment.property_id (fun _ => true)
              uid (payment_table d) (property_table d))) in
    let pending_maintenance :=
      length (Sql.join_owned MaintenanceRequest.property_id
                (fun m => Sql.ne_str (MaintenanceRequest.status m) "completed")
                uid (maintenance_request_table d) (property_table d)) in
    render_template req (Some (Some current_user)) "dashboard.html"
      (WithStats (mk_stats total_properties active_tenants monthly_income
                    recent_payments pending_maintenance))).

(** [/properties] *)
Definition properties : M response :=
  login_required req (fun current_user =>
    d <- gets db ;;
    render_template req (Some (Some current_user)) "properties.html"
      (WithProperties (Sql.properties_of (Owner.id current_user) (property_table d)))).

(** [/add_property] *)
Definition add_property : M response :=
  login_required req (fun current_user =>
    match method req with
    | POST =>
        let name := form_text req "name" in
        let address := form_text req "address" in
        let property_type := form_text req "property_type" in
        bedrooms <- lift (Py.int (form_get_or req "bedrooms" 0)) ;;
        bathrooms <- lift (Py.int (form_get_or req "bathrooms" 0)) ;;
        area_sqft <- lift (Py.float (form_get_or req "area_sqft" 0)) ;;
        monthly_rent <- lift (Py.float (form_get_or req "monthly_rent" 0)) ;;
        db_session_add
          (NewProperty
             (Property.mk 0 name address property_type (Some bedrooms)
                (Some bathrooms) (Some area_sqft) (Some monthly_rent)
                (Some (Owner.id current_user)) None)) ;;;
        db_session_commit env ;;;
        flash "Property added successfully!" "success" ;;;
        redirect (UrlFor "properties")
    | GET => render_template req (Some (Some current_user)) "add_property.html" NoContext
    end).

(** [/tenants] *)
Definition tenants : M response :=
  login_required req (fun current_user =>
    d <- gets db ;;
    render_template req (Some (Some current_user)) "tenants.html"
      (WithTenants
         (Sql.join_owned Tenant.property_id (fun _ => true)
            (Owner.id current_user) (tenant_table d) (property_table d)))).

(** [/add_tenant] *)
Definition add_tenant : M response :=
  login_required req (fun current_user =>
    match method req with
    | POST =>
        let name := form_text req "name" in
        let email := form_text req "email" in
        let phone := form_text req "phone" in
        let whatsapp_number := form_text req "whatsapp_number" in
        lease_start <- lift (Strptime.date_of (form_get req "lease_start")) ;;
        lease_end <- lift (Strptime.date_of (form_get req "lease_end")) ;;
        security_deposit <- lift (Py.float (form_get_or req "security_deposit" 0)) ;;
        property_id <- lift (Py.int (form_get req "property_id")) ;;
        db_session_add
          (NewTenant
             (Tenant.mk 0 name email phone whatsapp_number (Some lease_start)
                (Some lease_end) (Some security_deposit) (Some property_id)
                None None)) ;;;
        db_session_commit env ;;;
        flash "Tenant added successfully!" "success" ;;;
        redirect (UrlFor "tenants")
    | GET =>
        d <- gets db ;;
        render_template req (Some (Some current_user)) "add_tenant.html"
          (WithProperties (Sql.properties_of (Owner.id current_user) (property_table d)))
    end).

(** [/payments] *)
Definition payments : M response :=
  login_required req (fun current_user =>
    d <- gets db ;;
    render_template req (Some (Some current_user)) "payments.html"
      (WithPayments
         (Sql.order_by_desc Payment.payment_date
            (Sql.join_owned Payment.property_id (fun _ => true)
               (Owner.id current_user) (payment_table d) (property_table d))))).

(** [/add_payment] *)
Definition add_payment : M response :=
  login_required req (fun current_user =>
    match method req with
    | POST =>
        property_id <- lift (Py.int (form_get req "property_id")) ;;
        tenant_id <- lift (Py.int (form_get req "tenant_id")) ;;
        amount <- lift (Py.float (form_get req "amount")) ;;
        payment_date <- lift (Strptime.date_of (form_get req "payment_date")) ;;
        let payment_method := form_text req "payment_method" in
        let payment_type := form_text req "payment_type" in
        let notes := form_text req "notes" in
        db_session_add
          (NewPayment
             (Payment.mk 0 (Some property_id) (Some tenant_id) (Some amount)
                (Some payment_date) payment_method payment_type None notes)) ;;;
        db_session_commit env ;;;
        flash "Payment recorded successfully!" "success" ;;;
        redirect (UrlFor "payments")
    | GET =>
        d <- gets db ;;
        render_template req (Some (Some current_user)) "add_payment.html"
          (WithProperties (Sql.properties_of (Owner.id current_user) (property_table d)))
    end).

(** [/expenses] *)
Definition expenses : M response :=
  login_required req (fun current_user =>
    d <- gets db ;;
    render_template req (Some (Some current_user)) "expenses.html"
      (WithExpenses
         (Sql.order_by_desc Expense.expense_date
            (Sql.join_owned Expense.property_id (fun _ => true)
               (Owner.id current_user) (expense_table d) (property_table d))))).

(** [/reports] *)
Definition reports : M response :=
  login_required req (fun current_user =>
    render_template req (Some (Some current_user)) "reports.html" NoContext).

(** [obj.get(key)] on the decoded body: a [dict] has it, other values
    have no such attribute.  A repeated member keeps its last value. *)
Definition json_get (body : json) (key : string) : result (option json) :=
  match body with
  | JObj members =>
      Ok (fold_left (fun acc kv => if String.eqb (fst kv) key then Some (snd kv) else acc)
            members None)
  | _ => Raise AttributeError
  end.

(** [request.json]: a body that is not JSON is refused by Flask. *)
Definition request_json : M json :=
  match json_body req with
  | Some j => ret j
  | None => raise BadRequest
  end.

(** [/api/send_whatsapp_reminder] *)
Definition send_whatsapp_reminder : M response :=
  login_required req (fun _ =>
    body <- request_json ;;
    tenant_id <- lift (json_get body "tenant_id") ;;
    body' <- request_json ;;
    message <- lift (json_get body' "message") ;;
    ret (Jsonify [("status", "success"); ("message", "WhatsApp reminder sent")])).

End Views.

(** One request from start to end: the view runs on an empty unit of work,
    and what it left uncommitted is dropped when the request is torn
    down.  The store and the session are what the next request sees. *)
Definition serve (view : M response) (d : database) (s : gmap string sval)
    : result response * database * gmap string sval :=
  let '(r, st) := view (mk_state d [] s) in (r, db st, session st).

(** ** Vocabulary of the statements *)

(** The session [s] names the owner [A] of the store [d]: on the request
    [req], [current_user] evaluates to [A] (and leaves the session as
    session protection makes it). *)
Definition authenticated (req : request) (A : Owner.t) (d : database)
    (s : gmap string sval) : Prop :=
  current_user req (mk_state d [] s) = (Ok (Some A), mk_state d [] (protect req s)).

(** No user is logged in. *)
Definition anonymous (req : request) (d : database) (s : gmap string sval) : Prop :=
  current_user req (mk_state d [] s) = (Ok None, mk_state d [] (protect req s)).

(** The flashed messages waiting in a session. *)
Definition flashed (s : gmap string sval) : list (string * string) :=
  match s !! "_flashes" with
  | Some (SFlashes l) => l
  | _ => []
  end.

(** The entry [_flashes], when present, is the list [flash] keeps there. *)
Definition flashes_ok (s : gmap string sval) : Prop :=
  match s !! "_flashes" with
  | Some (SFlashes _) | None => True
  | Some _ => False
  end.

(** The session [s] after [flash(message, category)]. *)
Definition with_flash (category message : string) (s : gmap string sval)
    : gmap string sval :=
  <["_flashes" := SFlashes (flashed s ++ [(category, message)])]> s.

(** The session [s] once [logout_user] has run on it. *)
Definition logged_out (req : request) (s : gmap string sval) : gmap string sval :=
  let s' := delete "_id" (delete "_fresh" (delete "_user_id" s)) in
  if remember_cookie req
  then delete "_remember_seconds" (<["_remember" := SStr "clear"]> s')
  else s'.

(** The dark-mode flag as [inject_theme] hands it to a template, read as a
    truth value. *)
Definition dark_flag (s : gmap string sval) : bool :=
  truthy (default (SBool false) (s !! "dark_mode")).

(** The row's foreign key names a property of [d] that belongs to the owner
    with id [uid]. *)
Definition owned_by (d : database) (fk : option Z) (uid : Z) : Prop :=
  exists p, In p (property_table d) /\ fk = Some (Property.id p)
            /\ Property.owner_id p = Some uid.

(** A numeric form field read with [request.form.get(key, 0)]: absent, and
    then the value is the default 0, or present with text that converts. *)
Definition int_field (req : request) (key : string) (z : Z) : Prop :=
  match form req !! key with
  | None => z = 0
  | Some txt => Py.int_of_string txt = Some z
  end.

Definition float_field (req : request) (key : string) (f : float) : Prop :=
  match form req !! key with
  | None => f = 0%float
  | Some txt => Py.float_of_string txt = Some f
  end.

(** The primary key of [property] is unique. *)
Definition property_pk (d : database) : Prop :=
  NoDup (map Property.id (property_table d)).

(** The [UNIQUE] constraint on [owner.email]. *)
Definition owner_email_unique (d : database) : Prop :=
  NoDup (map Owner.email (owner_table d)).

(** The constraints of the schema that the statements rely on. *)
Definition constraints (d : database) : Prop :=
  property_pk d /\ owner_email_unique d.

(** A computation that, whatever it answers, leaves a store satisfying the
    constraints if it started from one. *)
Definition keeps {A : Type} (m : M A) : Prop :=
  forall st r st', m st = (r, st') -> constraints (db st) -> constraints (db st').

(** The acknowledgement of the reminder stub. *)
Definition reminder_ack : response :=
  Jsonify [("status", "success"); ("message", "WhatsApp reminder sent")].

(** ** Vocabulary of the further properties *)

(** The primary key of [owner]. *)
Definition owner_pk (d : database) : Prop :=
  NoDup (map Owner.id (owner_table d)).

(** The session [login_user] leaves for [o]. *)
Definition logged_in (req : request) (o : Owner.t) (s : gmap string sval)
    : gmap string sval :=
  <["_id" := SStr (session_identifier req)]>
    (<["_fresh" := SBool true]>
       (<["_user_id" := SStr (str_of_int (Owner.id o))]> s)).

(** The owner row a registration stores. *)
Definition registered (env : environ) (req : request) (d : database)
    (u e pw : string) : Owner.t :=
  Owner.mk (Sql.next_rowid (map Owner.id (owner_table d))) (Some u) (Some e)
    (Some (generate_password_hash env pw)) (form req !! "phone")
    (Some (utcnow env)).

(** The store with the owner row [o] appended. *)
Definition with_owner (o : Owner.t) (d : database) : database :=
  mk_database (owner_table d ++ [o]) (property_table d) (tenant_table d)
    (payment_table d) (expense_table d) (maintenance_request_table d).

(** The views that never commit. *)
Definition read_views (env : environ) (req : request) : list (M response) :=
  [index req; login env req; logout req; dashboard req; properties req;
   tenants req; payments req; expenses req; reports req;
   send_whatsapp_reminder req; toggle_dark_mode req].

(** The views that commit. *)
Definition write_views (env : environ) (req : request) : list (M response) :=
  [register env req; add_property env req; add_tenant env req;
   add_payment env req].

(** The views under [@login_required]. *)
Definition guarded_views (env : environ) (req : request) : list (M response) :=
  [logout req; dashboard req; properties req; add_property env req; tenants req;
   add_tenant env req; payments req; add_payment env req; expenses req;
   reports req; send_whatsapp_reminder req].

(** Every table of [d'] starts with the rows of [d], unchanged. *)
Definition extends (d d' : database) : Prop :=
  owner_table d `prefix_of` owner_table d'
  /\ property_table d `prefix_of` property_table d'
  /\ tenant_table d `prefix_of` tenant_table d'
  /\ payment_table d `prefix_of` payment_table d'
  /\ expense_table d `prefix_of` expense_table d'
  /\ maintenance_request_table d `prefix_of` maintenance_request_table d'.

(** The keys of the schema: primary keys of the tables the views write,
    and the unique columns of [owner]. *)
Definition keys_ok (d : database) : Prop :=
  owner_pk d /\ property_pk d
  /\ NoDup (map Tenant.id (tenant_table d))
  /\ NoDup (map Payment.id (payment_table d))
  /\ owner_email_unique d
  /\ NoDup (map Owner.username (owner_table d)).

(** [P] holds of the store after [m] whenever it held before. *)
Definition invariant {A : Type} (P : database -> Prop) (m : M A) : Prop :=
  forall st r st', m st = (r, st') -> P (db st) -> P (db st').

(** Whether the foreign key [fk] names a property of the owner [uid]. *)
Definition owned_byb (d : database) (fk : option Z) (uid : Z) : bool :=
  existsb (fun p => Sql.eq_int fk (Property.id p) && Sql.eq_int (Property.owner_id p) uid)
    (property_table d).

(** ** A small store used to run the views *)

Module Sample.

Definition asha : Owner.t :=
  Owner.mk 1 (Some "asha") (Some "asha@example.com") (Some "h$1") (Some "555-0101") None.
Definition bram : Owner.t :=
  Owner.mk 2 (Some "bram") (Some "bram@example.com") (Some "h$2") None None.

Definition flat : Property.t :=
  Property.mk 3 (Some "Flat 3") None (Some "apartment") (Some 2) (Some 1)
    (Some 640%float) (Some 1200%float) (Some 1) None.
Definition villa : Property.t :=
  Property.mk 7 (Some "Villa") None (Some "house") (Some 4) (Some 3)
    (Some 2100%float) (Some 3500%float) (Some 2) None.

Definition tenant_of (i pid : Z) : Tenant.t :=
  Tenant.mk i (Some "T") None (Some "555") None None None None (Some pid)
    (Some true) None.

Definition paid (i pid : Z) (y m d : Z) : Payment.t :=
  Payment.mk i (Some pid) (Some 1) (Some 1200%float) (Some (mk_date y m d))
    (Some "cash") (Some "rent") (Some "completed") None.

Definition spent (i pid : Z) (y m d : Z) : Expense.t :=
  Expense.mk i (Some pid) (Some "utilities") None (Some 80%float)
    (Some (mk_date y m d)) None None.

Definition store : database :=
  mk_database [asha; bram] [flat; villa]
    [tenant_of 1 3; tenant_of 2 7]
    [paid 1 3 2024 1 5; paid 2 7 2024 1 9; paid 3 3 2024 3 5; paid 4 3 2024 2 5;
     paid 5 3 2023 12 5; paid 6 3 2024 4 5; paid 7 3 2024 5 5]
    [spent 1 3 2024 1 20; spent 2 7 2024 2 20]
    [MaintenanceRequest.mk 1 (Some 3) (Some 1) (Some "plumbing") None
       (Some "high") (Some "open") None None].

(** A store in which [asha] has registered and owns nothing yet. *)
Definition fresh_store : database :=
  mk_database [asha; bram] [villa] [tenant_of 2 7] [paid 2 7 2024 1 9]
    [spent 2 7 2024 2 20] [].

(** The session [login_user] leaves for the owner with id [uid]. *)
Definition session_of (uid : string) : gmap string sval :=
  <["_id" := SStr "c0ffee"]>
    (<["_fresh" := SBool true]> (<["_user_id" := SStr uid]> ∅)).

(** The session of [asha]. *)
Definition session : gmap string sval := session_of "1".

Definition clock : environ :=
  mk_environ (mk_datetime (mk_date 2024 6 1) 0)
    (fun pw => "h$" ++ pw)
    (fun h pw => match pw with
                 | Some p => Ok (String.eqb h ("h$" ++ p))
                 | None => Raise AttributeError
                 end).

Definition post (fields : list (string * string)) : request :=
  mk_request POST (list_to_map fields) None None "/" false "c0ffee".

Definition get_ (path : string) : request :=
  mk_request GET ∅ None None path false "c0ffee".

Definition post_json (body : json) : request :=
  mk_request POST ∅ (Some body) None "/api/send_whatsapp_reminder" false "c0ffee".

End Sample.

(** ** Properties *)

(** *** Conversions and queries on examples *)

(** [float] keeps the sign, reads the decimal digits of any script and
    skips white space beyond ASCII; [int] likewise. *)
Example float_of_string_examples :
  Py.float_of_string "-50" = Some (-50)%float
  /\ Py.float_of_string "-1.5e1" = Some (-15)%float
  /\ Py.float_of_string "-1e400" = Some neg_infinity
  /\ Py.float_of_string "１.５" = Some 1.5%float
  /\ Py.float_of_string " 2.5 " = Some 2.5%float
  /\ Py.float_of_string "1,5" = None
  /\ Py.float_of_string "abc" = None.
Proof. repeat split; vm_compute; reflexivity. Qed.

Example int_of_string_examples :
  Py.int_of_string "-12" = Some (-12)
  /\ Py.int_of_string "٣" = Some 3
  /\ Py.int_of_string "１_０" = Some 10
  /\ Py.int_of_string "1.0" = None
  /\ Py.int_of_string "asha" = None.
Proof. repeat split; vm_compute; reflexivity. Qed.

Example date_of_examples :
  Strptime.date_of (Py.Str "2024-02-29") = Ok (mk_date 2024 2 29)
  /\ Strptime.date_of (Py.Str "2024-1-5") = Ok (mk_date 2024 1 5)
  /\ Strptime.date_of (Py.Str "２０２４-01-1５") = Ok (mk_date 2024 1 15)
  /\ Strptime.date_of (Py.Str "2024-０1-15") = Raise ValueError
  /\ Strptime.date_of (Py.Str "2023-02-29") = Raise ValueError
  /\ Strptime.date_of Py.None_ = Raise TypeError.
Proof. repeat split; vm_compute; reflexivity. Qed.

(** A [FLOAT] column gives -0.0 back as 0.0 and keeps every other number;
    a sum that is NaN comes back as NULL. *)
Example bind_real_examples :
  Sql.bind_real (Some (-0)%float) = Some 0%float
  /\ Sql.bind_real (Some (-50)%float) = Some (-50)%float
  /\ Sql.bind_real (Some nan) = None
  /\ Sql.sum [Some infinity; None; Some neg_infinity] = None
  /\ Sql.sum [Some 1.5%float; None; Some 2%float] = Some 3.5%float
  /\ Sql.sum [None] = None.
Proof. repeat split; vm_compute; reflexivity. Qed.

(** Rows with equal keys stay in the order of the scan. *)
Example order_by_desc_example :
  Sql.order_by_desc snd
    [(1, Some (mk_date 2024 5 1)); (2, Some (mk_date 2024 6 1)); (3, None);
     (4, Some (mk_date 2024 5 1)); (5, Some (mk_date 2024 6 1)); (6, None)]
  = [(2, Some (mk_date 2024 6 1)); (5, Some (mk_date 2024 6 1));
     (1, Some (mk_date 2024 5 1)); (4, Some (mk_date 2024 5 1));
     (3, None); (6, None)].
Proof. reflexivity. Qed.

(** *** Dark mode *)

Lemma toggle_dark_mode_run req d s :
  serve (toggle_dark_mode req) d s =
  (Ok (Redirect (match referrer req with
                 | Some r => if String.eqb r "" then UrlFor "dashboard" else Url r
                 | None => UrlFor "dashboard"
                 end)),
   d, <["dark_mode" := SBool (negb (dark_flag s))]> s).
Proof. reflexivity. Qed.

Lemma dark_flag_insert b (s : gmap string sval) :
  dark_flag (<["dark_mode" := SBool b]> s) = b.
Proof. unfold dark_flag. by rewrite lookup_insert_eq. Qed.

(** C10: toggling dark mode twice restores the flag. For every request,
    store and session, [toggle_dark_mode] answers with a redirect, leaves
    the store and every other session key alone, and negates the flag read
    with [session.get('dark_mode', False)]; an absent flag reads as false
    (so one toggle stores [True]); after two toggles the session holds the
    truth value it started with. *)
Theorem toggle_dark_mode_involution (req : request) (d : database)
    (s : gmap string sval) :
  exists r1 r2 s1 s2,
    serve (toggle_dark_mode req) d s = (Ok (Redirect r1), d, s1)
    /\ serve (toggle_dark_mode req) d s1 = (Ok (Redirect r2), d, s2)
    /\ dark_flag s1 = negb (dark_flag s)
    /\ dark_flag s2 = dark_flag s
    /\ s2 !! "dark_mode" = Some (SBool (dark_flag s))
    /\ (forall b, s !! "dark_mode" = Some (SBool b) -> s2 = s)
    /\ (s !! "dark_mode" = None ->
        dark_flag s = false /\ s1 !! "dark_mode" = Some (SBool true))
    /\ (forall k, k <> "dark_mode" -> s1 !! k = s !! k /\ s2 !! k = s !! k).
Proof.
  do 2 eexists. exists (<["dark_mode" := SBool (negb (dark_flag s))]> s).
  eexists. split; [apply toggle_dark_mode_run|].
  split; [apply toggle_dark_mode_run|].
  rewrite !dark_flag_insert, negb_involutive, insert_insert_eq.
  repeat split.
  - by rewrite lookup_insert_eq.
  - intros b Hb. apply insert_id. unfold dark_flag. by rewrite Hb.
  - unfold dark_flag. by rewrite H.
  - rewrite lookup_insert_eq. unfold dark_flag. by rewrite H.
  - by rewrite lookup_insert_ne.
  - by rewrite lookup_insert_ne.
Qed.

(** *** Session protection and [login_required] *)

Lemma protect_lookup_ne req (s : gmap string sval) k :
  k <> "_fresh" -> protect req s !! k = s !! k.
Proof.
  intros Hk. unfold protect.
  destruct (_ && _); [|done].
  destruct (s !! "_fresh") as [[[]| | |]|]; by rewrite ?lookup_insert_ne.
Qed.

(** A session opened by the same client is left as it is. *)
Lemma protect_same_client req (s : gmap string sval) :
  s !! "_id" = Some (SStr (session_identifier req)) -> protect req s = s.
Proof.
  intros H. unfold protect. rewrite (bool_decide_eq_false_2 (_ !! _ <> _)).
  - by rewrite andb_false_r.
  - by intros Hne.
Qed.

Lemma protect_flashes_ok req s : flashes_ok s -> flashes_ok (protect req s).
Proof. unfold flashes_ok. by rewrite protect_lookup_ne. Qed.

Lemma current_user_run req d l s :
  current_user req (mk_state d l s)
  = match s !! "_user_id" with
    | Some user_id => load_user user_id (mk_state d l (protect req s))
    | None => (Ok None, mk_state d l (protect req s))
    end.
Proof.
  unfold current_user, bind, session_protection, modify, set_session.
  cbn [session db pending]. by rewrite protect_lookup_ne.
Qed.

Lemma login_required_authenticated req view A d s :
  authenticated req A d s ->
  login_required req view (mk_state d [] s) = view A (mk_state d [] (protect req s)).
Proof. intros H. unfold login_required, bind. by rewrite H. Qed.

Lemma flash_ok message category d l s :
  flashes_ok s ->
  flash message category (mk_state d l s)
  = (Ok tt, mk_state d l (with_flash category message s)).
Proof.
  unfold flashes_ok, flash, with_flash, flashed. simpl.
  destruct (s !! "_flashes") as [[]|]; done.
Qed.

Lemma login_required_anonymous req view d s :
  anonymous req d s -> flashes_ok s ->
  login_required req view (mk_state d [] s)
  = (Ok (Redirect (LoginUrl (url req))),
     mk_state d []
       (with_flash "message" "Please log in to access this page." (protect req s))).
Proof.
  intros H Hf. unfold login_required, bind. rewrite H.
  unfold unauthorized, bind. by rewrite flash_ok by by apply protect_flashes_ok.
Qed.

Lemma sample_authenticated req :
  authenticated req Sample.asha Sample.store Sample.session.
Proof. unfold authenticated. rewrite current_user_run. reflexivity. Qed.

Lemma sample_flashes_ok : flashes_ok Sample.session.
Proof. vm_compute. exact I. Qed.

(** *** The reminder stub *)

(** C7 (as amended): for every authenticated request whose JSON body is an
    object, whatever its members and whether or not [tenant_id] names a
    tenant of the caller, [send_whatsapp_reminder] answers with the success
    acknowledgement and leaves the store as it is; the session keeps every
    entry except, possibly, the mark [_fresh] that session protection puts
    on a session another client opened. *)
Theorem send_whatsapp_reminder_noop (req : request) (d : database)
    (s : gmap string sval) (A : Owner.t) (members : list (string * json)) :
  authenticated req A d s ->
  json_body req = Some (JObj members) ->
  exists s',
    serve (send_whatsapp_reminder req) d s = (Ok reminder_ack, d, s')
    /\ (forall k, k <> "_fresh" -> s' !! k = s !! k)
    /\ (s !! "_id" = Some (SStr (session_identifier req)) -> s' = s).
Proof.
  intros Hauth Hbody. exists (protect req s).
  split; [|split; [by apply protect_lookup_ne|by apply protect_same_client]].
  unfold serve, send_whatsapp_reminder.
  rewrite (login_required_authenticated _ _ _ _ _ Hauth).
  unfold bind, request_json. rewrite Hbody. reflexivity.
Qed.

Lemma send_whatsapp_reminder_noop_witness :
  let req := Sample.post_json
               (JObj [("tenant_id", JInt 2); ("message", JStr "rent due")]) in
  exists s',
    serve (send_whatsapp_reminder req) Sample.store Sample.session
    = (Ok reminder_ack, Sample.store, s')
    /\ (forall k, k <> "_fresh" -> s' !! k = Sample.session !! k)
    /\ (Sample.session !! "_id" = Some (SStr (session_identifier req)) ->
        s' = Sample.session).
Proof.
  cbv zeta.
  apply (send_whatsapp_reminder_noop _ _ _ Sample.asha
           [("tenant_id", JInt 2); ("message", JStr "rent due")]).
  - vm_compute. reflexivity.
  - reflexivity.
Defined.

(** C7 as stated fails on a JSON body that is not an object: the empty
    array is a JSON body, the caller is authenticated, and the view raises
    [AttributeError] instead of acknowledging. *)
Lemma send_whatsapp_reminder_array_body :
  authenticated (Sample.post_json (JArr [])) Sample.asha Sample.store Sample.session
  /\ json_body (Sample.post_json (JArr [])) = Some (JArr [])
  /\ serve (send_whatsapp_reminder (Sample.post_json (JArr [])))
           Sample.store Sample.session
     = (Raise AttributeError, Sample.store, Sample.session)
  /\ serve (send_whatsapp_reminder (Sample.post_json (JArr [])))
           Sample.store Sample.session
     <> (Ok reminder_ack, Sample.store, Sample.session).
Proof.
  split; [apply sample_authenticated|]. split; [reflexivity|].
  assert (E : serve (send_whatsapp_reminder (Sample.post_json (JArr [])))
                Sample.store Sample.session
              = (Raise AttributeError, Sample.store, Sample.session))
    by (vm_compute; reflexivity).
  split; [exact E|]. rewrite E. discriminate.
Qed.

(** *** Logout *)

Lemma logout_user_run req d l s :
  logout_user req (mk_state d l s) = (Ok tt, mk_state d l (logged_out req s)).
Proof.
  unfold logout_user, logged_out, bind, session_discard, session_setitem, modify.
  simpl. destruct (remember_cookie req); reflexivity.
Qed.

Lemma logged_out_lookup req (s : gmap string sval) k :
  logged_out req s !! k =
  if decide (k = "_user_id" \/ k = "_fresh" \/ k = "_id") then None
  else if remember_cookie req then
         if decide (k = "_remember_seconds") then None
         else if decide (k = "_remember") then Some (SStr "clear")
         else s !! k
       else s !! k.
Proof.
  unfold logged_out. destruct (remember_cookie req);
    repeat first [ rewrite lookup_delete | rewrite lookup_insert ];
    repeat case_decide; first [ done | exfalso; tauto | intuition congruence ].
Qed.

Lemma logged_out_idempotent req (s : gmap string sval) :
  logged_out req (logged_out req s) = logged_out req s.
Proof.
  apply map_eq. intros k. rewrite !logged_out_lookup.
  destruct (remember_cookie req); repeat case_decide; done.
Qed.

Lemma no_user_id_anonymous req d (s : gmap string sval) :
  s !! "_user_id" = None -> anonymous req d s.
Proof. intros H. unfold anonymous. rewrite current_user_run. by rewrite H. Qed.

Lemma logged_out_flashes_ok req s : flashes_ok s -> flashes_ok (logged_out req s).
Proof.
  unfold flashes_ok. rewrite logged_out_lookup.
  destruct (remember_cookie req); repeat case_decide; done.
Qed.

(** C8: logout invalidates the session and is idempotent. For a session
    that authenticates an owner, the [/logout] view answers with the
    redirect to the index and leaves a session in which no user is logged
    in; running [logout_user] again on that session succeeds and leaves it
    as it is; and asking for [/logout] again raises nothing, answers with a
    redirect, and the session is still one in which no user is logged in. *)
Theorem logout_invalidates_idempotent (req : request) (d : database)
    (s : gmap string sval) (A : Owner.t) :
  authenticated req A d s ->
  flashes_ok s ->
  exists s1 s2 to,
    serve (logout req) d s = (Ok (Redirect (UrlFor "index")), d, s1)
    /\ s1 !! "_user_id" = None
    /\ anonymous req d s1
    /\ logout_user req (mk_state d [] s1) = (Ok tt, mk_state d [] s1)
    /\ serve (logout req) d s1 = (Ok (Redirect to), d, s2)
    /\ s2 !! "_user_id" = None
    /\ anonymous req d s2.
Proof.
  intros Hauth Hf.
  assert (Hnone : logged_out req (protect req s) !! "_user_id" = None).
  { rewrite logged_out_lookup. case_decide; naive_solver. }
  assert (Hanon : anonymous req d (logged_out req (protect req s)))
    by by apply no_user_id_anonymous.
  assert (Hnone2 :
    with_flash "message" "Please log in to access this page."
      (protect req (logged_out req (protect req s))) !! "_user_id" = None).
  { unfold with_flash. rewrite lookup_insert_ne by done.
    by rewrite protect_lookup_ne. }
  exists (logged_out req (protect req s)),
    (with_flash "message" "Please log in to access this page."
       (protect req (logged_out req (protect req s)))),
    (LoginUrl (url req)).
  split.
  { unfold serve, logout. rewrite (login_required_authenticated _ _ _ _ _ Hauth).
    unfold bind. by rewrite logout_user_run. }
  split; [exact Hnone|]. split; [exact Hanon|]. split.
  { by rewrite logout_user_run, logged_out_idempotent. }
  split.
  { unfold serve, logout.
    by rewrite (login_required_anonymous _ _ _ _ Hanon
                  (logged_out_flashes_ok _ _ (protect_flashes_ok _ _ Hf))). }
  split; [exact Hnone2|]. by apply no_user_id_anonymous.
Qed.

Lemma logout_invalidates_idempotent_witness :
  exists s1 s2 to,
    serve (logout (Sample.get_ "/logout")) Sample.store Sample.session
    = (Ok (Redirect (UrlFor "index")), Sample.store, s1)
    /\ s1 !! "_user_id" = None
    /\ anonymous (Sample.get_ "/logout") Sample.store s1
    /\ logout_user (Sample.get_ "/logout") (mk_state Sample.store [] s1)
       = (Ok tt, mk_state Sample.store [] s1)
    /\ serve (logout (Sample.get_ "/logout")) Sample.store s1
       = (Ok (Redirect to), Sample.store, s2)
    /\ s2 !! "_user_id" = None
    /\ anonymous (Sample.get_ "/logout") Sample.store s2.
Proof.
  apply (logout_invalidates_idempotent (Sample.get_ "/logout") Sample.store
           Sample.session Sample.asha).
  - vm_compute. reflexivity.
  - vm_compute. exact I.
Defined.

(** *** Queries scoped to an owner *)

Lemma eq_int_true c v : Sql.eq_int c v = true <-> c = Some v.
Proof.
  destruct c as [x|]; simpl; [|split; discriminate].
  rewrite Z.eqb_eq. split; congruence.
Qed.

Lemma in_properties_of uid props p :
  In p (Sql.properties_of uid props)
  <-> In p props /\ Property.owner_id p = Some uid.
Proof. unfold Sql.properties_of. by rewrite filter_In, eq_int_true. Qed.

Lemma in_join {A : Type} (fk : A -> option Z) rows props r p :
  In (r, p) (Sql.join fk rows props)
  <-> In r rows /\ In p props /\ fk r = Some (Property.id p).
Proof.
  unfold Sql.join. rewrite in_flat_map. split.
  - intros (r' & Hr & Hin). apply in_map_iff in Hin as (p' & Heq & Hp).
    inversion Heq; subst. apply filter_In in Hp as [Hp Hfk].
    by apply eq_int_true in Hfk.
  - intros (Hr & Hp & Hfk). exists r. split; [done|].
    apply in_map_iff. exists p. split; [done|].
    apply filter_In. split; [done|]. by apply eq_int_true.
Qed.

Lemma in_join_owned {A : Type} (fk : A -> option Z) extra uid rows props r :
  In r (Sql.join_owned fk extra uid rows props)
  <-> In r rows /\ extra r = true
      /\ exists p, In p props /\ fk r = Some (Property.id p)
                   /\ Property.owner_id p = Some uid.
Proof.
  unfold Sql.join_owned. rewrite in_map_iff. split.
  - intros ([r' p] & Heq & Hin). simpl in Heq. subst r'.
    apply filter_In in Hin as [Hin Hw]. simpl in Hw.
    apply andb_true_iff in Hw as [Ho He]. apply in_join in Hin as (Hr & Hp & Hfk).
    apply eq_int_true in Ho. eauto 10.
  - intros (Hr & He & p & Hp & Hfk & Ho). exists (r, p). split; [done|].
    apply filter_In. split; [by apply in_join|]. simpl.
    apply andb_true_iff. split; [by apply eq_int_true|done].
Qed.

Lemma insert_desc_Permutation {A : Type} (key : A -> option date) x rows :
  Sql.insert_desc key x rows ≡ₚ x :: rows.
Proof.
  induction rows as [|y rows IH]; cbn [Sql.insert_desc]; [done|].
  destruct (Sql.null_date_leb (key y) (key x)); [done|].
  rewrite IH. apply Permutation_swap.
Qed.

Lemma order_by_desc_Permutation {A : Type} (key : A -> option date) rows :
  Sql.order_by_desc key rows ≡ₚ rows.
Proof.
  unfold Sql.order_by_desc.
  induction rows as [|x rows IH]; cbn [fold_right]; [done|].
  by rewrite insert_desc_Permutation, IH.
Qed.

Lemma in_order_by_desc {A : Type} (key : A -> option date) rows r :
  In r (Sql.order_by_desc key rows) <-> In r rows.
Proof.
  rewrite <- !list_elem_of_In. by rewrite order_by_desc_Permutation.
Qed.

(** Under the primary key, a foreign key names at most one owner. *)
Lemma owned_by_functional d fk uid1 uid2 :
  property_pk d -> owned_by d fk uid1 -> owned_by d fk uid2 -> uid1 = uid2.
Proof.
  unfold property_pk, owned_by.
  intros Hpk (p & Hp & Hfk & Ho) (q & Hq & Hfk' & Ho').
  assert (Hid : Property.id p = Property.id q) by congruence.
  assert (p = q); [|congruence].
  revert Hpk Hp Hq Hid. generalize (property_table d). intros l.
  induction l as [|x l IH]; simpl; [done|].
  intros Hnd. apply NoDup_cons in Hnd as [Hx Hnd].
  intros [->|Hp] [->|Hq] Hid; auto.
  - exfalso. apply Hx. rewrite Hid. apply list_elem_of_In. by apply in_map.
  - exfalso. apply Hx. rewrite <- Hid. apply list_elem_of_In. by apply in_map.
Qed.

(** *** The order of [ORDER BY ... DESC] *)

Lemma date_leb_spec a b :
  Sql.date_leb a b = true
  <-> year a < year b
      \/ (year a = year b
          /\ (month a < month b \/ (month a = month b /\ day a <= day b))).
Proof.
  unfold Sql.date_leb.
  rewrite !orb_true_iff, !andb_true_iff, !orb_true_iff, !andb_true_iff.
  rewrite !Z.ltb_lt, !Z.eqb_eq, Z.leb_le. tauto.
Qed.

Lemma null_date_leb_total a b :
  Sql.null_date_leb a b = true \/ Sql.null_date_leb b a = true.
Proof.
  destruct a as [x|], b as [y|]; simpl; auto.
  rewrite !date_leb_spec. lia.
Qed.

Lemma null_date_leb_trans a b c :
  Sql.null_date_leb a b = true -> Sql.null_date_leb b c = true ->
  Sql.null_date_leb a c = true.
Proof.
  destruct a as [x|], b as [y|], c as [z|]; simpl; try done.
  rewrite !date_leb_spec. lia.
Qed.

#[local] Instance desc_total {A : Type} (key : A -> option date) : Total (Sql.desc key).
Proof.
  intros x y. unfold Sql.desc. rewrite !Is_true_true.
  destruct (null_date_leb_total (key x) (key y)); auto.
Qed.

#[local] Instance desc_trans {A : Type} (key : A -> option date) :
  Transitive (Sql.desc key).
Proof.
  intros x y z. unfold Sql.desc. rewrite !Is_true_true.
  intros H1 H2. by apply (null_date_leb_trans _ (key y)).
Qed.

Lemma insert_desc_sorted {A : Type} (key : A -> option date) x rows :
  StronglySorted (Sql.desc key) rows ->
  StronglySorted (Sql.desc key) (Sql.insert_desc key x rows).
Proof.
  induction rows as [|y rows IH]; cbn [Sql.insert_desc]; intros Hs.
  - by repeat constructor.
  - apply StronglySorted_inv in Hs as [Hs Hy].
    destruct (Sql.null_date_leb (key y) (key x)) eqn:E.
    + constructor; [by constructor|]. constructor.
      * unfold Sql.desc. by rewrite E.
      * eapply List.Forall_impl; [|exact Hy]. intros z Hz.
        apply (desc_trans key x y z); [|done]. unfold Sql.desc. by rewrite E.
    + constructor; [by apply IH|].
      rewrite insert_desc_Permutation. constructor; [|done].
      destruct (desc_total key y x) as [H|H]; [done|].
      unfold Sql.desc in H. by rewrite E in H.
Qed.

Lemma order_by_desc_sorted {A : Type} (key : A -> option date) rows :
  StronglySorted (Sql.desc key) (Sql.order_by_desc key rows).
Proof.
  unfold Sql.order_by_desc.
  induction rows as [|x rows IH]; cbn [fold_right]; [constructor|].
  by apply insert_desc_sorted.
Qed.

Lemma limit_sorted {A : Type} (R : relation A) n rows :
  StronglySorted R rows -> StronglySorted R (Sql.limit n rows).
Proof.
  intros H. unfold Sql.limit. rewrite <- (take_drop n rows) in H.
  by apply StronglySorted_app_1_l in H.
Qed.

Lemma in_limit {A : Type} n (rows : list A) r : In r (Sql.limit n rows) -> In r rows.
Proof.
  unfold Sql.limit. rewrite <- (take_drop n rows) at 2.
  intros H. apply in_or_app. by left.
Qed.

(** *** The list views *)

(** C1: owner isolation of the list views. With [A] the authenticated
    owner (and property ids unique, as the primary key makes them), the
    views [/properties], [/tenants], [/payments] and [/expenses] render
    exactly the rows of their table whose property belongs to [A]; for any
    owner [B] with another id, no rendered row is a property of [B] or
    refers to a property of [B].  The store is not written. *)
Theorem list_views_owner_scoped (req : request) (d : database)
    (s : gmap string sval) (A : Owner.t) :
  authenticated req A d s ->
  property_pk d ->
  exists ps ts pays exps dark,
    serve (properties req) d s
    = (Ok (RenderTemplate "properties.html" (WithProperties ps) dark), d, protect req s)
    /\ serve (tenants req) d s
       = (Ok (RenderTemplate "tenants.html" (WithTenants ts) dark), d, protect req s)
    /\ serve (payments req) d s
       = (Ok (RenderTemplate "payments.html" (WithPayments pays) dark), d, protect req s)
    /\ serve (expenses req) d s
       = (Ok (RenderTemplate "expenses.html" (WithExpenses exps) dark), d, protect req s)
    /\ (forall p, In p ps <->
          In p (property_table d) /\ Property.owner_id p = Some (Owner.id A))
    /\ (forall t, In t ts <->
          In t (tenant_table d) /\ owned_by d (Tenant.property_id t) (Owner.id A))
    /\ (forall p, In p pays <->
          In p (payment_table d) /\ owned_by d (Payment.property_id p) (Owner.id A))
    /\ (forall e, In e exps <->
          In e (expense_table d) /\ owned_by d (Expense.property_id e) (Owner.id A))
    /\ (forall B : Owner.t, Owner.id B <> Owner.id A ->
          (forall p, In p ps -> Property.owner_id p <> Some (Owner.id B))
          /\ (forall t, In t ts -> ~ owned_by d (Tenant.property_id t) (Owner.id B))
          /\ (forall p, In p pays -> ~ owned_by d (Payment.property_id p) (Owner.id B))
          /\ (forall e, In e exps -> ~ owned_by d (Expense.property_id e) (Owner.id B))).
Proof.
  intros Hauth Hpk.
  exists (Sql.properties_of (Owner.id A) (property_table d)),
    (Sql.join_owned Tenant.property_id (fun _ => true) (Owner.id A)
       (tenant_table d) (property_table d)),
    (Sql.order_by_desc Payment.payment_date
       (Sql.join_owned Payment.property_id (fun _ => true) (Owner.id A)
          (payment_table d) (property_table d))),
    (Sql.order_by_desc Expense.expense_date
       (Sql.join_owned Expense.property_id (fun _ => true) (Owner.id A)
          (expense_table d) (property_table d))),
    (default (SBool false) (s !! "dark_mode")).
  assert (Hp : forall p,
    In p (Sql.properties_of (Owner.id A) (property_table d)) <->
    In p (property_table d) /\ Property.owner_id p = Some (Owner.id A))
    by (intros; apply in_properties_of).
  assert (Hj : forall (X : Type) (fk : X -> option Z) rows r,
    In r (Sql.join_owned fk (fun _ => true) (Owner.id A) rows (property_table d)) <->
    In r rows /\ owned_by d (fk r) (Owner.id A)).
  { intros X fk rows r. rewrite in_join_owned. unfold owned_by. tauto. }
  assert (Hrun : forall view ctx,
    view = login_required req (fun current_user =>
             d0 <- gets db ;; render_template req (Some (Some current_user)) (fst ctx)
                         (snd ctx current_user d0)) ->
    serve view d s
    = (Ok (RenderTemplate (fst ctx) (snd ctx A d) (default (SBool false) (s !! "dark_mode"))),
       d, protect req s)).
  { intros view ctx ->. unfold serve.
    rewrite (login_required_authenticated _ _ _ _ _ Hauth).
    unfold bind, gets, render_template, user_context_processor, inject_theme,
      session_get, bind, gets, ret.
    cbn [session db]. by rewrite protect_lookup_ne. }
  split.
  { apply (Hrun _ ("properties.html", fun u d0 =>
             WithProperties (Sql.properties_of (Owner.id u) (property_table d0)))).
    reflexivity. }
  split.
  { apply (Hrun _ ("tenants.html", fun u d0 =>
             WithTenants (Sql.join_owned Tenant.property_id (fun _ => true)
                            (Owner.id u) (tenant_table d0) (property_table d0)))).
    reflexivity. }
  split.
  { apply (Hrun _ ("payments.html", fun u d0 =>
             WithPayments (Sql.order_by_desc Payment.payment_date
               (Sql.join_owned Payment.property_id (fun _ => true)
                  (Owner.id u) (payment_table d0) (property_table d0))))).
    reflexivity. }
  split.
  { apply (Hrun _ ("expenses.html", fun u d0 =>
             WithExpenses (Sql.order_by_desc Expense.expense_date
               (Sql.join_owned Expense.property_id (fun _ => true)
                  (Owner.id u) (expense_table d0) (property_table d0))))).
    reflexivity. }
  split; [exact Hp|].
  split; [intros t; apply Hj|].
  split; [intros q; rewrite in_order_by_desc; apply Hj|].
  split; [intros e; rewrite in_order_by_desc; apply Hj|].
  intros B HB.
  assert (Hex : forall fk, owned_by d fk (Owner.id A) -> ~ owned_by d fk (Owner.id B)).
  { intros fk HA HB'. apply HB. eapply owned_by_functional; eauto. }
  split.
  { intros q Hin Ho. apply Hp in Hin as [_ Ho']. congruence. }
  split.
  { intros t Hin. apply Hj in Hin as [_ Ho]. by apply Hex. }
  split.
  { intros q Hin. rewrite in_order_by_desc in Hin. apply Hj in Hin as [_ Ho].
    by apply Hex. }
  intros e Hin. rewrite in_order_by_desc in Hin. apply Hj in Hin as [_ Ho].
  by apply Hex.
Qed.

Lemma sample_property_pk : property_pk Sample.store.
Proof. unfold property_pk. apply (bool_decide_unpack _). vm_compute. exact I. Qed.

Lemma list_views_owner_scoped_witness :
  exists ps ts pays exps dark,
    serve (properties (Sample.get_ "/properties")) Sample.store Sample.session
    = (Ok (RenderTemplate "properties.html" (WithProperties ps) dark),
       Sample.store, Sample.session)
    /\ serve (tenants (Sample.get_ "/properties")) Sample.store Sample.session
       = (Ok (RenderTemplate "tenants.html" (WithTenants ts) dark),
          Sample.store, Sample.session)
    /\ serve (payments (Sample.get_ "/properties")) Sample.store Sample.session
       = (Ok (RenderTemplate "payments.html" (WithPayments pays) dark),
          Sample.store, Sample.session)
    /\ serve (expenses (Sample.get_ "/properties")) Sample.store Sample.session
       = (Ok (RenderTemplate "expenses.html" (WithExpenses exps) dark),
          Sample.store, Sample.session)
    /\ (forall p, In p ps <->
          In p (property_table Sample.store)
          /\ Property.owner_id p = Some (Owner.id Sample.asha))
    /\ (forall t, In t ts <->
          In t (tenant_table Sample.store)
          /\ owned_by Sample.store (Tenant.property_id t) (Owner.id Sample.asha))
    /\ (forall p, In p pays <->
          In p (payment_table Sample.store)
          /\ owned_by Sample.store (Payment.property_id p) (Owner.id Sample.asha))
    /\ (forall e, In e exps <->
          In e (expense_table Sample.store)
          /\ owned_by Sample.store (Expense.property_id e) (Owner.id Sample.asha))
    /\ (forall B : Owner.t, Owner.id B <> Owner.id Sample.asha ->
          (forall p, In p ps -> Property.owner_id p <> Some (Owner.id B))
          /\ (forall t, In t ts ->
                ~ owned_by Sample.store (Tenant.property_id t) (Owner.id B))
          /\ (forall p, In p pays ->
                ~ owned_by Sample.store (Payment.property_id p) (Owner.id B))
          /\ (forall e, In e exps ->
                ~ owned_by Sample.store (Expense.property_id e) (Owner.id B))).
Proof.
  apply (list_views_owner_scoped (Sample.get_ "/properties") Sample.store
           Sample.session Sample.asha).
  - apply sample_authenticated.
  - unfold property_pk. apply (bool_decide_unpack _). vm_compute. exact I.
Defined.

(** What the sample store shows to [asha]: her tenant, not [bram]'s. *)
Example sample_tenants :
  serve (tenants (Sample.get_ "/tenants")) Sample.store Sample.session
  = (Ok (RenderTemplate "tenants.html" (WithTenants [Sample.tenant_of 1 3]) (SBool false)),
     Sample.store, Sample.session).
Proof. vm_compute. reflexivity. Qed.

(** *** The dashboard *)

Lemma dashboard_run req d s A :
  authenticated req A d s ->
  serve (dashboard req) d s
  = (Ok (RenderTemplate "dashboard.html"
           (WithStats
              (mk_stats
                 (length (Sql.properties_of (Owner.id A) (property_table d)))
                 (length (Sql.join_owned Tenant.property_id
                            (fun t => Sql.eq_true (Tenant.is_active t))
                            (Owner.id A) (tenant_table d) (property_table d)))
                 (scalar_or_0
                    (Sql.sum (map Property.monthly_rent
                                (Sql.properties_of (Owner.id A) (property_table d)))))
                 (Sql.limit 5
                    (Sql.order_by_desc Payment.payment_date
                       (Sql.join_owned Payment.property_id (fun _ => true)
                          (Owner.id A) (payment_table d) (property_table d))))
                 (length (Sql.join_owned MaintenanceRequest.property_id
                            (fun m => Sql.ne_str (MaintenanceRequest.status m) "completed")
                            (Owner.id A) (maintenance_request_table d) (property_table d)))))
           (default (SBool false) (s !! "dark_mode"))),
     d, protect req s).
Proof.
  intros Hauth. unfold serve, dashboard.
  rewrite (login_required_authenticated _ _ _ _ _ Hauth).
  unfold bind, gets, render_template, user_context_processor, inject_theme,
      session_get, bind, gets, ret.
  cbn [session db]. by rewrite protect_lookup_ne.
Qed.

(** C5: the dashboard's recent payments. For every authenticated owner and
    every store, the dashboard renders at most five recent payments, each a
    payment of the store whose property belongs to the owner, in descending
    order of [payment_date] (every row's date is no earlier than the date
    of any row after it; a missing date counts as earliest). *)
Theorem dashboard_recent_payments (req : request) (d : database)
    (s : gmap string sval) (A : Owner.t) :
  authenticated req A d s ->
  exists st dark,
    serve (dashboard req) d s
    = (Ok (RenderTemplate "dashboard.html" (WithStats st) dark), d, protect req s)
    /\ (length (recent_payments st) <= 5)%nat
    /\ (forall p, In p (recent_payments st) ->
          In p (payment_table d) /\ owned_by d (Payment.property_id p) (Owner.id A))
    /\ StronglySorted
         (fun p q => Sql.null_date_leb (Payment.payment_date q) (Payment.payment_date p) = true)
         (recent_payments st).
Proof.
  intros Hauth. do 2 eexists. split; [by apply dashboard_run|].
  cbn [recent_payments]. split; [|split].
  - unfold Sql.limit. rewrite length_take. lia.
  - intros p Hin. apply in_limit, in_order_by_desc, in_join_owned in Hin.
    unfold owned_by. tauto.
  - pose proof (limit_sorted _ 5 _
        (order_by_desc_sorted Payment.payment_date
           (Sql.join_owned Payment.property_id (fun _ => true) (Owner.id A)
              (payment_table d) (property_table d)))) as Hs.
    revert Hs. generalize (Sql.limit 5
        (Sql.order_by_desc Payment.payment_date
           (Sql.join_owned Payment.property_id (fun _ => true) (Owner.id A)
              (payment_table d) (property_table d)))).
    intros l Hs. induction Hs as [|x l Hs IH Hx]; constructor; [done|].
    eapply Forall_impl; [exact Hx|]. intros y Hy. by apply Is_true_true.
Qed.

Lemma dashboard_recent_payments_witness :
  exists st dark,
    serve (dashboard (Sample.get_ "/dashboard")) Sample.store Sample.session
    = (Ok (RenderTemplate "dashboard.html" (WithStats st) dark),
       Sample.store, Sample.session)
    /\ (length (recent_payments st) <= 5)%nat
    /\ (forall p, In p (recent_payments st) ->
          In p (payment_table Sample.store)
          /\ owned_by Sample.store (Payment.property_id p) (Owner.id Sample.asha))
    /\ StronglySorted
         (fun p q => Sql.null_date_leb (Payment.payment_date q) (Payment.payment_date p) = true)
         (recent_payments st).
Proof.
  apply (dashboard_recent_payments (Sample.get_ "/dashboard") Sample.store
           Sample.session Sample.asha).
  apply sample_authenticated.
Defined.

(** The sample dashboard: six of the seven payments are [asha]'s, and the
    five latest of them are shown, latest first. *)
Example sample_dashboard :
  serve (dashboard (Sample.get_ "/dashboard")) Sample.store Sample.session
  = (Ok (RenderTemplate "dashboard.html"
           (WithStats
              (mk_stats 1 1 (FloatNum 1200%float)
                 [Sample.paid 7 3 2024 5 5; Sample.paid 6 3 2024 4 5;
                  Sample.paid 3 3 2024 3 5; Sample.paid 4 3 2024 2 5;
                  Sample.paid 1 3 2024 1 5]
                 1))
           (SBool false)),
     Sample.store, Sample.session).
Proof. vm_compute. reflexivity. Qed.

Lemma nil_of_no_member {X : Type} (l : list X) : (forall x, ~ In x l) -> l = [].
Proof. destruct l as [|x l]; [done|]. intros H. destruct (H x). by left. Qed.

Lemma join_owned_nothing {X : Type} (fk : X -> option Z) extra uid rows props :
  (forall p, In p props -> Property.owner_id p <> Some uid) ->
  Sql.join_owned fk extra uid rows props = [].
Proof.
  intros H. apply nil_of_no_member. intros r Hin.
  apply in_join_owned in Hin as (_ & _ & p & Hp & _ & Ho). by apply (H p).
Qed.

(** C6: the dashboard of an owner without properties. For every
    authenticated owner none of whose properties is in the store, the
    dashboard renders normally with [total_properties = 0], the integer
    [monthly_income = 0], no active tenant, no pending maintenance request
    (and no recent payment). *)
Theorem dashboard_no_properties (req : request) (d : database)
    (s : gmap string sval) (A : Owner.t) :
  authenticated req A d s ->
  (forall p, In p (property_table d) -> Property.owner_id p <> Some (Owner.id A)) ->
  exists dark,
    serve (dashboard req) d s
    = (Ok (RenderTemplate "dashboard.html"
             (WithStats (mk_stats 0 0 (IntNum 0) [] 0)) dark),
       d, protect req s).
Proof.
  intros Hauth Hnone. eexists. rewrite (dashboard_run _ _ _ _ Hauth).
  rewrite !join_owned_nothing by done.
  replace (Sql.properties_of (Owner.id A) (property_table d)) with (@nil Property.t).
  - reflexivity.
  - symmetry. apply nil_of_no_member. intros p Hin.
    apply in_properties_of in Hin as [Hin Ho]. by apply (Hnone p).
Qed.

Lemma dashboard_no_properties_witness :
  exists dark,
    serve (dashboard (Sample.get_ "/dashboard")) Sample.fresh_store Sample.session
    = (Ok (RenderTemplate "dashboard.html"
             (WithStats (mk_stats 0 0 (IntNum 0) [] 0)) dark),
       Sample.fresh_store, Sample.session).
Proof.
  apply (dashboard_no_properties (Sample.get_ "/dashboard") Sample.fresh_store
           Sample.session Sample.asha).
  - unfold authenticated. rewrite current_user_run. reflexivity.
  - intros p [<-|[]]. discriminate.
Defined.

(** *** Registration *)

Lemma eq_str_true c v : Sql.eq_str c v = true <-> c = Some v.
Proof.
  destruct c as [x|]; simpl; [|split; discriminate].
  rewrite String.eqb_eq. split; congruence.
Qed.

Lemma find_member {X : Type} (f : X -> bool) l x :
  In x l -> f x = true -> exists y, List.find f l = Some y.
Proof.
  intros Hin Hf. destruct (List.find f l) as [y|] eqn:E; [eauto|].
  by rewrite (find_none _ _ E x Hin) in Hf.
Qed.

Lemma unique_email_count (l : list Owner.t) o E :
  NoDup (map Owner.email l) -> In o l -> Owner.email o = Some E ->
  length (List.filter (fun o' => Sql.eq_str (Owner.email o') E) l) = 1%nat.
Proof.
  intros Hnd Hin HE. induction l as [|x l IH]; [done|].
  simpl in Hnd. apply NoDup_cons in Hnd as [Hx Hnd]. simpl.
  destruct Hin as [->|Hin].
  - rewrite (proj2 (eq_str_true _ _) HE). simpl. f_equal.
    replace (List.filter _ l) with (@nil Owner.t); [done|].
    symmetry. apply nil_of_no_member. intros y Hy.
    apply filter_In in Hy as [Hy Hey]. apply eq_str_true in Hey.
    apply Hx. rewrite HE, <- Hey. apply list_elem_of_In. by apply in_map.
  - destruct (Sql.eq_str (Owner.email x) E) eqn:Ex; [|by apply IH].
    apply eq_str_true in Ex. exfalso. apply Hx. rewrite Ex, <- HE.
    apply list_elem_of_In. by apply in_map.
Qed.

(** C2: registering an email that is taken. In every store that holds an
    owner with email [E] (emails being unique, as the column requires), a
    POST to [/register] with email [E] is refused: the view flashes "Email
    already registered" in the category "danger" and redirects back to the
    registration form; the store is unchanged, so no owner row was added
    and exactly one owner has the email [E] afterwards. *)
Theorem register_duplicate_email (env : environ) (req : request) (d : database)
    (s : gmap string sval) (o : Owner.t) (E : string) :
  method req = POST ->
  form req !! "email" = Some E ->
  In o (owner_table d) ->
  Owner.email o = Some E ->
  owner_email_unique d ->
  flashes_ok s ->
  exists d',
    serve (register env req) d s
    = (Ok (Redirect (UrlFor "register")), d',
       with_flash "danger" "Email already registered" s)
    /\ d' = d
    /\ length (owner_table d') = length (owner_table d)
    /\ length (List.filter (fun o' => Sql.eq_str (Owner.email o') E) (owner_table d')) = 1%nat.
Proof.
  intros Hpost Hemail Hin HE Huniq Hf. exists d.
  split; [|split; [done|split; [done|by eapply unique_email_count]]].
  unfold serve, register. rewrite Hpost. unfold bind, gets, form_text.
  rewrite Hemail.
  destruct (find_member (fun o0 => Sql.filter_by_str (Owner.email o0) (Some E))
              (owner_table d) o Hin) as [y Hy].
  { simpl. by apply eq_str_true. }
  cbn [db]. rewrite Hy. by rewrite flash_ok.
Qed.

Lemma register_duplicate_email_witness :
  exists d',
    serve (register Sample.clock
             (Sample.post [("username", "asha2"); ("email", "asha@example.com");
                           ("password", "s3cret"); ("phone", "555-0199")]))
          Sample.store ∅
    = (Ok (Redirect (UrlFor "register")), d',
       with_flash "danger" "Email already registered" ∅)
    /\ d' = Sample.store
    /\ length (owner_table d') = length (owner_table Sample.store)
    /\ length (List.filter (fun o' => Sql.eq_str (Owner.email o') "asha@example.com")
                 (owner_table d')) = 1%nat.
Proof.
  apply (register_duplicate_email Sample.clock _ Sample.store ∅ Sample.asha
           "asha@example.com").
  - reflexivity.
  - vm_compute. reflexivity.
  - left. reflexivity.
  - reflexivity.
  - unfold owner_email_unique. apply (bool_decide_unpack _). vm_compute. exact I.
  - vm_compute. exact I.
Defined.

(** *** Creating a property *)

Lemma bind_lift_ok {X Y : Type} (r : result X) (k : X -> M Y) x st :
  r = Ok x -> bind (lift r) k st = k x st.
Proof. by intros ->. Qed.

Lemma bind_lift_raise {X Y : Type} (r : result X) (k : X -> M Y) e st :
  r = Raise e -> bind (lift r) k st = (Raise e, st).
Proof. by intros ->. Qed.

Lemma int_field_run req key z :
  int_field req key z -> Py.int (form_get_or req key 0) = Ok z.
Proof.
  unfold int_field, form_get_or. destruct (form req !! key) as [txt|]; simpl.
  - by intros ->.
  - by intros ->.
Qed.

Lemma float_field_run req key f :
  float_field req key f -> Py.float (form_get_or req key 0) = Ok f.
Proof.
  unfold float_field, form_get_or. destruct (form req !! key) as [txt|]; simpl.
  - by intros ->.
  - by intros ->.
Qed.

(** [int] and [float] of a field read with a default raise nothing but
    [ValueError]. *)
Lemma int_or_value_error req key :
  (exists z, Py.int (form_get_or req key 0) = Ok z)
  \/ Py.int (form_get_or req key 0) = Raise ValueError.
Proof.
  unfold form_get_or. destruct (form req !! key) as [txt|]; simpl; [|eauto].
  destruct (Py.int_of_string txt); eauto.
Qed.

Lemma float_or_value_error req key :
  (exists f, Py.float (form_get_or req key 0) = Ok f)
  \/ Py.float (form_get_or req key 0) = Raise ValueError.
Proof.
  unfold form_get_or. destruct (form req !! key) as [txt|]; simpl; [|eauto].
  destruct (Py.float_of_string txt); eauto.
Qed.

(** C3 (as amended): a non-numeric [monthly_rent]. For every authenticated
    owner, a POST to [/add_property] whose [monthly_rent] field is text
    that [float] does not accept ends in an unhandled [ValueError]: the
    view renders nothing and flashes nothing (the session is as session
    protection left it, with the same flashed messages) and no Property
    row is created (the store is unchanged). *)
Theorem add_property_bad_rent (env : environ) (req : request) (d : database)
    (s : gmap string sval) (A : Owner.t) (rent : string) :
  authenticated req A d s ->
  method req = POST ->
  form req !! "monthly_rent" = Some rent ->
  Py.float_of_string rent = None ->
  serve (add_property env req) d s = (Raise ValueError, d, protect req s)
  /\ flashed (protect req s) = flashed s.
Proof.
  intros Hauth Hpost Hrent Hbad.
  split; [|unfold flashed; by rewrite protect_lookup_ne].
  unfold serve, add_property.
  rewrite (login_required_authenticated _ _ _ _ _ Hauth), Hpost.
  destruct (int_or_value_error req "bedrooms") as [[b Hb]|Hb];
    [rewrite (bind_lift_ok _ _ _ _ Hb)|by rewrite (bind_lift_raise _ _ _ _ Hb)].
  destruct (int_or_value_error req "bathrooms") as [[ba Hba]|Hba];
    [rewrite (bind_lift_ok _ _ _ _ Hba)|by rewrite (bind_lift_raise _ _ _ _ Hba)].
  destruct (float_or_value_error req "area_sqft") as [[ar Har]|Har];
    [rewrite (bind_lift_ok _ _ _ _ Har)|by rewrite (bind_lift_raise _ _ _ _ Har)].
  rewrite (bind_lift_raise _ _ ValueError); [done|].
  unfold form_get_or. rewrite Hrent. simpl. by rewrite Hbad.
Qed.

Lemma add_property_bad_rent_witness :
  serve (add_property Sample.clock
           (Sample.post [("name", "Loft"); ("bedrooms", "2"); ("bathrooms", "1");
                         ("area_sqft", "500"); ("monthly_rent", "twelve hundred")]))
        Sample.store Sample.session
  = (Raise ValueError, Sample.store, Sample.session)
  /\ flashed Sample.session = flashed Sample.session.
Proof.
  apply (add_property_bad_rent Sample.clock
           (Sample.post [("name", "Loft"); ("bedrooms", "2"); ("bathrooms", "1");
                         ("area_sqft", "500"); ("monthly_rent", "twelve hundred")])
           Sample.store Sample.session Sample.asha "twelve hundred").
  - apply sample_authenticated.
  - reflexivity.
  - vm_compute. reflexivity.
  - vm_compute. reflexivity.
Defined.

(** C3 as stated fails: with [monthly_rent = "abc"] and every other field
    in order, [float("abc")] is refused (the field is not numeric), yet
    the view does not render [add_property.html] again, whatever the
    context, and no message is flashed; the [ValueError] leaves the view
    unhandled. *)
Lemma add_property_abc_not_recovered :
  let req := Sample.post [("name", "Loft"); ("bedrooms", "2"); ("bathrooms", "1");
                          ("area_sqft", "500"); ("monthly_rent", "abc")] in
  authenticated req Sample.asha Sample.store Sample.session
  /\ Py.float_of_string "abc" = None
  /\ serve (add_property Sample.clock req) Sample.store Sample.session
     = (Raise ValueError, Sample.store, Sample.session)
  /\ (forall ctx dark d' s',
        serve (add_property Sample.clock req) Sample.store Sample.session
        <> (Ok (RenderTemplate "add_property.html" ctx dark), d', s'))
  /\ flashed Sample.session = [].
Proof.
  assert (E : serve (add_property Sample.clock
                (Sample.post [("name", "Loft"); ("bedrooms", "2"); ("bathrooms", "1");
                              ("area_sqft", "500"); ("monthly_rent", "abc")]))
                Sample.store Sample.session
              = (Raise ValueError, Sample.store, Sample.session))
    by (vm_compute; reflexivity).
  cbv zeta. split; [apply sample_authenticated|].
  split; [vm_compute; reflexivity|]. split; [exact E|].
  split; [|vm_compute; reflexivity].
  intros ctx dark d' s'. rewrite E. discriminate.
Qed.

Lemma authenticated_int64 req A d s :
  authenticated req A d s -> Sql.in_int64 (Owner.id A) = true.
Proof.
  unfold authenticated. rewrite current_user_run.
  destruct (s !! "_user_id") as [v|]; [|discriminate].
  unfold load_user, bind, lift, gets, owner_get. cbn [db].
  destruct (value_of_sval v) as [pv|]; [|discriminate].
  destruct (Py.int pv) as [pk|]; [|discriminate].
  simpl. destruct (Sql.in_int64 pk) eqn:Hpk; [|discriminate]. simpl.
  intros H. injection H as H.
  apply find_some in H as [_ H]. apply Z.eqb_eq in H. by rewrite H.
Qed.

Lemma bind_int_ok z : Sql.in_int64 z = true -> Sql.bind_int (Some z) = Ok (Some z).
Proof. unfold Sql.bind_int. by intros ->. Qed.

(** The row [add_property] stores for the owner [A]. *)
Lemma add_property_run env req d s A n b ba ar mr :
  authenticated req A d s ->
  method req = POST ->
  flashes_ok s ->
  form req !! "name" = Some n ->
  Py.int (form_get_or req "bedrooms" 0) = Ok b -> Sql.in_int64 b = true ->
  Py.int (form_get_or req "bathrooms" 0) = Ok ba -> Sql.in_int64 ba = true ->
  Py.float (form_get_or req "area_sqft" 0) = Ok ar ->
  Py.float (form_get_or req "monthly_rent" 0) = Ok mr ->
  serve (add_property env req) d s
  = (Ok (Redirect (UrlFor "properties")),
     mk_database (owner_table d)
       (property_table d ++
        [Property.mk (Sql.next_rowid (map Property.id (property_table d)))
           (Some n) (form req !! "address") (form req !! "property_type")
           (Some b) (Some ba) (Sql.bind_real (Some ar)) (Sql.bind_real (Some mr))
           (Some (Owner.id A)) (Some (utcnow env))])
       (tenant_table d) (payment_table d) (expense_table d) (maintenance_request_table d),
     with_flash "success" "Property added successfully!" (protect req s)).
Proof.
  intros Hauth Hpost Hf Hn Hb Hbr Hba Hbar Har Hmr. unfold serve, add_property.
  rewrite (login_required_authenticated _ _ _ _ _ Hauth), Hpost.
  rewrite (bind_lift_ok _ _ _ _ Hb), (bind_lift_ok _ _ _ _ Hba),
    (bind_lift_ok _ _ _ _ Har), (bind_lift_ok _ _ _ _ Hmr).
  unfold bind, db_session_add, db_session_commit, modify, form_text.
  cbn [pending db session set_pending set_db app Store.flush Store.insert].
  unfold Store.insert_property. cbn [Property.bedrooms Property.bathrooms
    Property.owner_id Property.name Property.address Property.property_type
    Property.area_sqft Property.monthly_rent Property.created_at].
  rewrite (bind_int_ok _ Hbr), (bind_int_ok _ Hbar),
    (bind_int_ok _ (authenticated_int64 _ _ _ _ Hauth)), Hn.
  cbn [rbind Sql.is_null Sql.default]. unfold set_pending, set_db.
  cbn [pending db session]. by rewrite flash_ok by by apply protect_flashes_ok.
Qed.

(** C9: numeric fields left out of [/add_property]. For every
    authenticated owner, a POST that names the property and in which each
    of [bedrooms], [bathrooms], [area_sqft], [monthly_rent] is either
    absent or converts (the integers within 64 bits) does not fail: the
    view redirects to the property list with the success flash and appends
    exactly one Property row; every absent field is stored as 0 in that
    row. *)
Theorem add_property_missing_defaults (env : environ) (req : request)
    (d : database) (s : gmap string sval) (A : Owner.t) (n : string)
    (b ba : Z) (ar mr : float) :
  authenticated req A d s ->
  method req = POST ->
  flashes_ok s ->
  form req !! "name" = Some n ->
  int_field req "bedrooms" b -> Sql.in_int64 b = true ->
  int_field req "bathrooms" ba -> Sql.in_int64 ba = true ->
  float_field req "area_sqft" ar ->
  float_field req "monthly_rent" mr ->
  exists d' row,
    serve (add_property env req) d s
    = (Ok (Redirect (UrlFor "properties")), d',
       with_flash "success" "Property added successfully!" (protect req s))
    /\ property_table d' = (property_table d ++ [row])%list
    /\ Property.owner_id row = Some (Owner.id A)
    /\ Property.bedrooms row = Some b
    /\ Property.bathrooms row = Some ba
    /\ Property.area_sqft row = Sql.bind_real (Some ar)
    /\ Property.monthly_rent row = Sql.bind_real (Some mr)
    /\ (form req !! "bedrooms" = None -> Property.bedrooms row = Some 0)
    /\ (form req !! "bathrooms" = None -> Property.bathrooms row = Some 0)
    /\ (form req !! "area_sqft" = None -> Property.area_sqft row = Some 0%float)
    /\ (form req !! "monthly_rent" = None -> Property.monthly_rent row = Some 0%float).
Proof.
  intros Hauth Hpost Hf Hn Hb Hbr Hba Hbar Har Hmr.
  do 2 eexists. split.
  { apply (add_property_run env req d s A n b ba ar mr); auto using
      int_field_run, float_field_run. }
  cbn [property_table Property.owner_id Property.bedrooms Property.bathrooms
       Property.area_sqft Property.monthly_rent].
  repeat (split; [reflexivity|]).
  unfold int_field, float_field in *.
  split; [|split; [|split]]; intros H0; rewrite H0 in *; by subst.
Qed.

Lemma add_property_missing_defaults_witness :
  exists d' row,
    serve (add_property Sample.clock (Sample.post [("name", "Loft")]))
          Sample.store Sample.session
    = (Ok (Redirect (UrlFor "properties")), d',
       with_flash "success" "Property added successfully!" Sample.session)
    /\ property_table d' = (property_table Sample.store ++ [row])%list
    /\ Property.owner_id row = Some (Owner.id Sample.asha)
    /\ Property.bedrooms row = Some 0
    /\ Property.bathrooms row = Some 0
    /\ Property.area_sqft row = Sql.bind_real (Some 0%float)
    /\ Property.monthly_rent row = Sql.bind_real (Some 0%float)
    /\ (form (Sample.post [("name", "Loft")]) !! "bedrooms" = None ->
        Property.bedrooms row = Some 0)
    /\ (form (Sample.post [("name", "Loft")]) !! "bathrooms" = None ->
        Property.bathrooms row = Some 0)
    /\ (form (Sample.post [("name", "Loft")]) !! "area_sqft" = None ->
        Property.area_sqft row = Some 0%float)
    /\ (form (Sample.post [("name", "Loft")]) !! "monthly_rent" = None ->
        Property.monthly_rent row = Some 0%float).
Proof.
  apply (add_property_missing_defaults Sample.clock (Sample.post [("name", "Loft")])
           Sample.store Sample.session Sample.asha "Loft" 0 0 0%float 0%float).
  - apply sample_authenticated.
  - reflexivity.
  - vm_compute. exact I.
  - vm_compute. reflexivity.
  - vm_compute. reflexivity.
  - reflexivity.
  - vm_compute. reflexivity.
  - reflexivity.
  - vm_compute. reflexivity.
  - vm_compute. reflexivity.
Defined.

(** The row stored for a form that gives only the name. *)
Example sample_add_property :
  serve (add_property Sample.clock (Sample.post [("name", "Loft")]))
        Sample.store Sample.session
  = (Ok (Redirect (UrlFor "properties")),
     mk_database (owner_table Sample.store)
       [Sample.flat; Sample.villa;
        Property.mk 8 (Some "Loft") None None (Some 0) (Some 0) (Some 0%float)
          (Some 0%float) (Some 1) (Some (utcnow Sample.clock))]
       (tenant_table Sample.store) (payment_table Sample.store) (expense_table Sample.store)
       (maintenance_request_table Sample.store),
     with_flash "success" "Property added successfully!" Sample.session).
Proof. vm_compute. reflexivity. Qed.

(** Without a name the insert is refused by [NOT NULL], whatever the
    numeric fields. *)
Example sample_add_property_nameless :
  serve (add_property Sample.clock (Sample.post [("bedrooms", "2")]))
        Sample.store Sample.session
  = (Raise IntegrityError, Sample.store, Sample.session).
Proof. vm_compute. reflexivity. Qed.

(** *** Creating a tenant *)

(** C4: [add_tenant] trusts the submitted [property_id]. For every
    authenticated owner [O], every store and every property id [P] (the
    text of the field converts to [P], within 64 bits), a POST to
    [/add_tenant] whose other fields are in order (name and phone given,
    lease dates in the form YYYY-MM-DD, a deposit that converts or is
    absent) appends a Tenant row with [property_id = P] and answers with
    the redirect to the tenant list. Nothing relates [P] to [O]: the
    statement holds whether [P] is a property of [O], of another owner, or
    of nobody, and no other table changes. *)
Theorem add_tenant_unchecked_property (env : environ) (req : request)
    (d : database) (s : gmap string sval) (O : Owner.t)
    (n ph ptxt : string) (ls le : date) (dep : float) (P : Z) :
  authenticated req O d s ->
  method req = POST ->
  flashes_ok s ->
  form req !! "name" = Some n ->
  form req !! "phone" = Some ph ->
  Strptime.date_of (form_get req "lease_start") = Ok ls ->
  Strptime.date_of (form_get req "lease_end") = Ok le ->
  float_field req "security_deposit" dep ->
  form req !! "property_id" = Some ptxt ->
  Py.int_of_string ptxt = Some P ->
  Sql.in_int64 P = true ->
  exists d' row,
    serve (add_tenant env req) d s
    = (Ok (Redirect (UrlFor "tenants")), d',
       with_flash "success" "Tenant added successfully!" (protect req s))
    /\ tenant_table d' = (tenant_table d ++ [row])%list
    /\ Tenant.property_id row = Some P
    /\ Tenant.id row = Sql.next_rowid (map Tenant.id (tenant_table d))
    /\ Tenant.name row = Some n
    /\ Tenant.phone row = Some ph
    /\ Tenant.lease_start row = Some ls
    /\ Tenant.lease_end row = Some le
    /\ Tenant.is_active row = Some true
    /\ owner_table d' = owner_table d
    /\ property_table d' = property_table d
    /\ payment_table d' = payment_table d
    /\ expense_table d' = expense_table d
    /\ maintenance_request_table d' = maintenance_request_table d.
Proof.
  intros Hauth Hpost Hf Hn Hph Hls Hle Hdep Hp HP H64.
  exists (mk_database (owner_table d) (property_table d)
            (tenant_table d ++
             [Tenant.mk (Sql.next_rowid (map Tenant.id (tenant_table d)))
                (Some n) (form req !! "email") (Some ph)
                (form req !! "whatsapp_number") (Some ls) (Some le)
                (Sql.bind_real (Some dep)) (Some P) (Some true)
                (Some (utcnow env))])
            (payment_table d) (expense_table d) (maintenance_request_table d)).
  eexists. split; [|cbn; repeat split; reflexivity].
  unfold serve, add_tenant.
  rewrite (login_required_authenticated _ _ _ _ _ Hauth), Hpost.
  rewrite (bind_lift_ok _ _ _ _ Hls), (bind_lift_ok _ _ _ _ Hle),
    (bind_lift_ok _ _ _ _ (float_field_run _ _ _ Hdep)).
  rewrite (bind_lift_ok _ _ P).
  2:{ unfold form_get. rewrite Hp. simpl. by rewrite HP. }
  unfold bind, db_session_add, db_session_commit, modify, form_text.
  cbn [pending db session set_pending set_db app Store.flush Store.insert].
  unfold Store.insert_tenant. cbn [Tenant.property_id Tenant.name Tenant.phone
    Tenant.email Tenant.whatsapp_number Tenant.lease_start Tenant.lease_end
    Tenant.security_deposit Tenant.is_active Tenant.created_at].
  rewrite (bind_int_ok _ H64), Hn, Hph.
  cbn [rbind Sql.is_null Sql.default orb]. unfold set_pending, set_db.
  cbn [pending db session]. by rewrite flash_ok by by apply protect_flashes_ok.
Qed.

(** [asha] submits the id of [bram]'s villa. *)
Lemma add_tenant_unchecked_property_witness :
  let req := Sample.post [("name", "Nil"); ("phone", "555-0142");
                          ("lease_start", "2024-07-01"); ("lease_end", "2025-06-30");
                          ("security_deposit", "2400"); ("property_id", "7")] in
  Property.owner_id Sample.villa = Some (Owner.id Sample.bram)
  /\ exists d' row,
    serve (add_tenant Sample.clock req) Sample.store Sample.session
    = (Ok (Redirect (UrlFor "tenants")), d',
       with_flash "success" "Tenant added successfully!" Sample.session)
    /\ tenant_table d' = (tenant_table Sample.store ++ [row])%list
    /\ Tenant.property_id row = Some (Property.id Sample.villa)
    /\ Tenant.id row = Sql.next_rowid (map Tenant.id (tenant_table Sample.store))
    /\ Tenant.name row = Some "Nil"
    /\ Tenant.phone row = Some "555-0142"
    /\ Tenant.lease_start row = Some (mk_date 2024 7 1)
    /\ Tenant.lease_end row = Some (mk_date 2025 6 30)
    /\ Tenant.is_active row = Some true
    /\ owner_table d' = owner_table Sample.store
    /\ property_table d' = property_table Sample.store
    /\ payment_table d' = payment_table Sample.store
    /\ expense_table d' = expense_table Sample.store
    /\ maintenance_request_table d' = maintenance_request_table Sample.store.
Proof.
  cbv zeta. split; [reflexivity|].
  apply (add_tenant_unchecked_property Sample.clock
           (Sample.post [("name", "Nil"); ("phone", "555-0142");
                         ("lease_start", "2024-07-01"); ("lease_end", "2025-06-30");
                         ("security_deposit", "2400"); ("property_id", "7")])
           Sample.store Sample.session
           Sample.asha "Nil" "555-0142" "7" (mk_date 2024 7 1) (mk_date 2025 6 30)
           2400%float 7).
  - apply sample_authenticated.
  - reflexivity.
  - vm_compute. exact I.
  - vm_compute. reflexivity.
  - vm_compute. reflexivity.
  - vm_compute. reflexivity.
  - vm_compute. reflexivity.
  - vm_compute. reflexivity.
  - vm_compute. reflexivity.
  - vm_compute. reflexivity.
  - reflexivity.
Defined.

(** After that request the tenant list of [bram] shows the tenant [asha]
    attached to his villa. *)
Example sample_foreign_tenant_listed :
  let req := Sample.post [("name", "Nil"); ("phone", "555-0142");
                          ("lease_start", "2024-07-01"); ("lease_end", "2025-06-30");
                          ("security_deposit", "2400"); ("property_id", "7")] in
  let '(_, d', _) := serve (add_tenant Sample.clock req) Sample.store Sample.session in
  exists row,
    serve (tenants (Sample.get_ "/tenants")) d' (Sample.session_of "2")
    = (Ok (RenderTemplate "tenants.html"
             (WithTenants [Sample.tenant_of 2 7; row]) (SBool false)),
       d', Sample.session_of "2")
    /\ Tenant.name row = Some "Nil".
Proof. vm_compute. eexists. split; reflexivity. Qed.

(** *** The constraints assumed above are kept by every flush *)

Lemma next_rowid_fresh ids : ~ In (Sql.next_rowid ids) ids.
Proof.
  destruct ids as [|i rest]; [by intros []|].
  assert (Hmax : forall x, In x (i :: rest) -> x <= fold_right Z.max i rest).
  { intros x [<-|Hx].
    - induction rest as [|y rest IH]; simpl; lia.
    - induction rest as [|y rest IH]; [done|]. simpl.
      destruct Hx as [<-|Hx]; [lia|]. specialize (IH Hx). lia. }
  intros Hin. apply Hmax in Hin. unfold Sql.next_rowid in Hin. lia.
Qed.

Lemma NoDup_snoc {X : Type} (l : list X) x : NoDup l -> ~ In x l -> NoDup (l ++ [x]).
Proof.
  intros Hnd Hx. apply NoDup_app. split; [done|]. split.
  - intros y Hy Hy'. apply list_elem_of_In in Hy.
    apply list_elem_of_singleton in Hy'. by subst.
  - apply NoDup_singleton.
Qed.

Lemma taken_false col v :
  Sql.taken col (Some v) = false -> ~ In (Some v) col.
Proof.
  simpl. intros H Hin.
  assert (existsb (fun c => Sql.eq_str c v) col = true); [|congruence].
  apply existsb_exists. exists (Some v). split; [done|]. by apply eq_str_true.
Qed.

Lemma insert_keeps_constraints now e d d' :
  Store.insert now e d = Ok d' ->
  property_pk d -> owner_email_unique d ->
  property_pk d' /\ owner_email_unique d'.
Proof.
  unfold property_pk, owner_email_unique.
  destruct e as [o|p|t|p]; simpl.
  - unfold Store.insert_owner.
    destruct (Owner.username o) as [u|]; [|discriminate].
    destruct (Owner.email o) as [m|] eqn:Hm; [|discriminate]. cbn [Sql.is_null orb].
    destruct (Sql.taken (map Owner.username (owner_table d)) (Some u)); [discriminate|].
    destruct (Sql.taken (map Owner.email (owner_table d)) (Some m)) eqn:Ht; [discriminate|].
    intros [= <-] Hpk Hem. split; [done|]. cbn [owner_table].
    rewrite map_app. apply NoDup_snoc; [done|]. by apply taken_false.
  - unfold Store.insert_property.
    destruct (Sql.bind_int (Property.bedrooms p)); [|discriminate].
    destruct (Sql.bind_int (Property.bathrooms p)); [|discriminate].
    destruct (Sql.bind_int (Property.owner_id p)); [|discriminate]. cbn [rbind].
    destruct (Sql.is_null (Property.name p)); [discriminate|].
    intros [= <-] Hpk Hem. split; [|done]. cbn [property_table].
    rewrite map_app. apply NoDup_snoc; [done|]. apply next_rowid_fresh.
  - unfold Store.insert_tenant.
    destruct (Sql.bind_int (Tenant.property_id t)); [|discriminate]. cbn [rbind].
    destruct (Sql.is_null (Tenant.name t) || Sql.is_null (Tenant.phone t));
      [discriminate|].
    by intros [= <-] Hpk Hem.
  - unfold Store.insert_payment.
    destruct (Sql.bind_int (Payment.property_id p)); [|discriminate].
    destruct (Sql.bind_int (Payment.tenant_id p)); [|discriminate]. cbn [rbind].
    destruct (Sql.is_null (Sql.bind_real (Payment.amount p))); [discriminate|].
    by intros [= <-] Hpk Hem.
Qed.

Lemma flush_keeps_constraints now l d d' :
  Store.flush now l d = Ok d' ->
  property_pk d -> owner_email_unique d ->
  property_pk d' /\ owner_email_unique d'.
Proof.
  revert d. induction l as [|e l IH]; intros d; simpl.
  - by intros [= <-].
  - destruct (Store.insert now e d) as [d1|] eqn:E; [|discriminate]. simpl.
    intros Hfl Hpk Hem.
    destruct (insert_keeps_constraints _ _ _ _ E Hpk Hem) as [Hpk1 Hem1].
    by apply (IH d1).
Qed.

(** *** Every view keeps the constraints *)

Lemma keeps_ret {X : Type} (x : X) : keeps (ret x).
Proof. by intros st r st' [= <- <-]. Qed.

Lemma keeps_raise {X : Type} e : keeps (@raise X e).
Proof. by intros st r st' [= <- <-]. Qed.

Lemma keeps_lift {X : Type} (r : result X) : keeps (lift r).
Proof. by intros st r' st' [= <- <-]. Qed.

Lemma keeps_gets {X : Type} (f : state -> X) : keeps (gets f).
Proof. by intros st r st' [= <- <-]. Qed.

Lemma keeps_modify f : (forall st, db (f st) = db st) -> keeps (modify f).
Proof. intros Hf st r st' [= <- <-]. by rewrite Hf. Qed.

Lemma keeps_bind {X Y : Type} (m : M X) (k : X -> M Y) :
  keeps m -> (forall x, keeps (k x)) -> keeps (bind m k).
Proof.
  intros Hm Hk st r st'. unfold bind.
  destruct (m st) as [[x|e] st1] eqn:E.
  - intros Hrun Hc. eapply Hk; [exact Hrun|]. by eapply Hm.
  - intros [= <- <-] Hc. by eapply Hm.
Qed.

Lemma keeps_db_session_commit env : keeps (db_session_commit env).
Proof.
  intros st r st'. unfold db_session_commit.
  destruct (Store.flush _ _ _) as [d|e] eqn:E.
  - intros [= <- <-] [Hpk Hem]. simpl. by eapply flush_keeps_constraints.
  - by intros [= <- <-].
Qed.

Lemma keeps_flash message category : keeps (flash message category).
Proof.
  intros st r st'. unfold flash.
  destruct (session st !! "_flashes") as [[]|]; by intros [= <- <-].
Qed.

Lemma keeps_load_user v : keeps (load_user v).
Proof.
  unfold load_user. repeat (apply keeps_bind; [|intros]);
    auto using keeps_lift, keeps_gets.
Qed.

Lemma keeps_current_user req : keeps (current_user req).
Proof.
  unfold current_user. apply keeps_bind; [by apply keeps_modify|]. intros _.
  intros st r st'. destruct (session st !! "_user_id") as [v|].
  - apply keeps_load_user.
  - by intros [= <- <-].
Qed.

Lemma keeps_user_context_processor req loaded :
  keeps (user_context_processor req loaded).
Proof. destruct loaded; [apply keeps_ret|apply keeps_current_user]. Qed.

Create HintDb keeps.

#[local] Hint Resolve keeps_ret keeps_raise keeps_lift keeps_gets
  keeps_db_session_commit keeps_flash keeps_current_user
  keeps_user_context_processor : keeps.

#[local] Hint Extern 1 (keeps (modify _)) => (apply keeps_modify; reflexivity) : keeps.

(** Takes a view apart along its binds and case distinctions. *)
Ltac keeps_step :=
  first
    [ solve [auto with keeps]
    | apply keeps_bind; [|intros]
    | match goal with
      | |- keeps (match ?x with _ => _ end) => destruct x
      | |- keeps (if ?b then _ else _) => destruct b
      end
    | progress unfold login_required, unauthorized, render_template, redirect,
        inject_theme, session_get, session_setitem, session_discard,
        db_session_add, login_user, logout_user, request_json ].

(** Whatever the request and the session, and whether a view answers or
    raises, it leaves the primary key of [property] and the uniqueness of
    owner emails intact. *)
Lemma views_keep_constraints env req :
  keeps (index req) /\ keeps (register env req) /\ keeps (login env req)
  /\ keeps (logout req) /\ keeps (dashboard req) /\ keeps (properties req)
  /\ keeps (add_property env req) /\ keeps (tenants req)
  /\ keeps (add_tenant env req) /\ keeps (payments req)
  /\ keeps (add_payment env req) /\ keeps (expenses req) /\ keeps (reports req)
  /\ keeps (send_whatsapp_reminder req) /\ keeps (toggle_dark_mode req).
Proof.
  unfold index, register, login, logout, dashboard, properties, add_property,
    tenants, add_tenant, payments, add_payment, expenses, reports,
    send_whatsapp_reminder, toggle_dark_mode.
  repeat match goal with |- _ /\ _ => split end; repeat keeps_step.
Qed.

(** *** Registration and login on the sample store *)

(** A new email registers an owner with the next id and the hashed
    password. *)
Example sample_register :
  serve (register Sample.clock
           (Sample.post [("username", "cleo"); ("email", "cleo@example.com");
                         ("password", "pw"); ("phone", "555-0103")]))
        Sample.store ∅
  = (Ok (Redirect (UrlFor "login")),
     mk_database
       [Sample.asha; Sample.bram;
        Owner.mk 3 (Some "cleo") (Some "cleo@example.com") (Some "h$pw")
          (Some "555-0103") (Some (utcnow Sample.clock))]
       (property_table Sample.store) (tenant_table Sample.store) (payment_table Sample.store)
       (expense_table Sample.store) (maintenance_request_table Sample.store),
     with_flash "success" "Registration successful! Please login." ∅).
Proof. vm_compute. reflexivity. Qed.

(** Logging in with the right password leaves a session that
    authenticates the owner. *)
Example sample_login :
  let s := with_flash "success" "Welcome back, asha!" Sample.session in
  serve (login Sample.clock
           (Sample.post [("email", "asha@example.com"); ("password", "1")]))
        Sample.store ∅
  = (Ok (Redirect (UrlFor "dashboard")), Sample.store, s)
  /\ authenticated (Sample.get_ "/dashboard") Sample.asha Sample.store s.
Proof. split; vm_compute; reflexivity. Qed.

(** The same at the level of whole requests. *)
Lemma serve_keeps_constraints view d s r d' s' :
  keeps view -> serve view d s = (r, d', s') -> constraints d -> constraints d'.
Proof.
  intros Hk. unfold serve.
  destruct (view (mk_state d [] s)) as [r0 st] eqn:E.
  intros [= <- <- <-]. by apply (Hk _ _ _ E).
Qed.

(** ** Further properties of the views *)

(** ASCII text is parsed as it is. *)
Lemma decode_ascii l :
  Forall (fun c => Unicode.byte c < 128) l ->
  Unicode.decode l = map Unicode.byte l.
Proof.
  induction 1 as [|c l Hc _ IH]; [done|]. cbn [Unicode.decode map].
  by rewrite (proj2 (Z.ltb_lt _ _) Hc), IH.
Qed.

Lemma chr_byte c : Py.chr (Unicode.byte c) = c.
Proof. unfold Py.chr, Unicode.byte. by rewrite N2Z.id, ascii_N_embedding. Qed.

Lemma ascii_of_string_ascii s :
  Forall (fun c => Unicode.byte c < 128) (list_ascii_of_string s) ->
  Py.ascii_of_string s = Some (list_ascii_of_string s).
Proof.
  intros H. unfold Py.ascii_of_string, Py.to_ascii. rewrite (decode_ascii _ H).
  assert (Hall : forallb (fun ch => ch <? 128)
                   (map Unicode.byte (list_ascii_of_string s)) = true).
  { induction H as [|c l Hc _ IH]; [done|]. cbn [forallb map].
    by rewrite (proj2 (Z.ltb_lt _ _) Hc), IH. }
  rewrite Hall. f_equal. clear.
  induction (list_ascii_of_string s) as [|c l IH]; [done|].
  cbn [map]. by rewrite chr_byte, IH.
Qed.

Lemma uint_chars_ascii d :
  Forall (fun c => Unicode.byte c < 128)
    (list_ascii_of_string (NilEmpty.string_of_uint d)).
Proof. induction d; simpl; constructor; auto; reflexivity. Qed.

Lemma str_of_int_ascii z :
  Forall (fun c => Unicode.byte c < 128) (list_ascii_of_string (str_of_int z)).
Proof.
  assert (H : forall d, Forall (fun c => Unicode.byte c < 128)
                (list_ascii_of_string (NilZero.string_of_uint d))).
  { intros [| | | | | | | | | |]; try apply (uint_chars_ascii (_ _)).
    by repeat constructor. }
  unfold str_of_int. destruct (Z.to_int z); cbn [NilZero.string_of_int]; [apply H|].
  cbn [list_ascii_of_string]. constructor; [reflexivity|apply H].
Qed.

(** The characters of a decimal numeral. *)
Lemma uint_chars_digits d acc n a :
  acc = Z.of_N (DecimalPos.Unsigned.of_lu a) ->
  Py.digits_more acc n (list_ascii_of_string (NilEmpty.string_of_uint d))
  = (Z.of_N (DecimalPos.Unsigned.of_lu (Decimal.revapp d a)),
     n + Z.of_N (DecimalPos.Unsigned.usize d), []).
Proof.
  revert acc n a.
  induction d; intros acc n a Hacc;
    [ simpl; subst; f_equal; f_equal; lia | .. ];
    cbn [NilEmpty.string_of_uint list_ascii_of_string Py.digits_more];
    (match goal with |- context [Py.is_digit ?c] =>
       change (Py.is_digit c) with true; cbv iota end);
    (erewrite IHd;
     [ cbn [Decimal.revapp DecimalPos.Unsigned.usize]; f_equal; f_equal; lia
     | subst acc; cbn [DecimalPos.Unsigned.of_lu];
       match goal with |- context [Py.digit_val ?c] =>
         let v := eval vm_compute in (Py.digit_val c) in
         change (Py.digit_val c) with v end; lia ]).
Qed.

Lemma uint_chars_nonspace d :
  Forall (fun c => Py.is_space c = false)
    (list_ascii_of_string (NilEmpty.string_of_uint d)).
Proof. induction d; simpl; constructor; auto. Qed.

Lemma lstrip_nonspace l :
  Forall (fun c => Py.is_space c = false) l -> Py.lstrip l = l.
Proof. destruct 1 as [|c l Hc _]; simpl; [done|by rewrite Hc]. Qed.

Lemma strip_nonspace l :
  Forall (fun c => Py.is_space c = false) l -> Py.strip l = l.
Proof.
  intros H. unfold Py.strip. rewrite (lstrip_nonspace l H).
  rewrite lstrip_nonspace; [apply rev_involutive|]. by apply List.Forall_rev.
Qed.

Lemma uint_chars_digitpart d :
  d <> Decimal.Nil ->
  let l := list_ascii_of_string (NilEmpty.string_of_uint d) in
  Py.sign l = (false, l) /\ Py.digitpart 0 0 l = Some (Py.digits_more 0 0 l).
Proof. destruct d; [done|..]; intros _; split; reflexivity. Qed.

(** A numeral without leading zero has a value of at least
    [10 ^ (digits - 1)]. *)
Lemma usize_bound d :
  d <> Decimal.Nil -> Decimal.nzhead d = d ->
  (10 ^ (DecimalPos.Unsigned.usize d - 1) <= Pos.of_uint d)%N.
Proof.
  intros Hnil Hnz. rewrite DecimalPos.Unsigned.of_uint_alt.
  destruct d; [done| |..];
    try (unfold Decimal.rev; cbn [Decimal.revapp];
         rewrite DecimalPos.Unsigned.of_lu_revapp;
         cbn [DecimalPos.Unsigned.usize DecimalPos.Unsigned.of_lu];
         rewrite N.sub_1_r, N.pred_succ; nia).
  exfalso. by apply (DecimalFacts.nzhead_nonzero (Decimal.D0 d) d).
Qed.

Lemma to_uint_canonical p :
  Pos.to_uint p <> Decimal.Nil /\ Decimal.nzhead (Pos.to_uint p) = Pos.to_uint p.
Proof.
  split; [apply DecimalPos.Unsigned.to_uint_nonnil|].
  pose proof (DecimalPos.Unsigned.to_of (Pos.to_uint p)) as H.
  rewrite DecimalPos.Unsigned.of_to in H. cbn [N.to_uint] in H.
  unfold Decimal.unorm in H.
  destruct (Decimal.nzhead (Pos.to_uint p)) eqn:E; try done.
  exfalso. by apply (DecimalPos.Unsigned.to_uint_nonzero p).
Qed.

Lemma usize_le p K :
  Z.pos p < 10 ^ K ->
  Z.of_N (DecimalPos.Unsigned.usize (Pos.to_uint p)) <= K.
Proof.
  intros Hp. destruct (to_uint_canonical p) as [Hnil Hnz].
  pose proof (usize_bound _ Hnil Hnz) as Hb.
  rewrite DecimalPos.Unsigned.of_to in Hb.
  apply N2Z.inj_le in Hb. rewrite N2Z.inj_pow in Hb. simpl Z.of_N in Hb at 1 3.
  set (u := DecimalPos.Unsigned.usize (Pos.to_uint p)) in *.
  destruct (Z_le_gt_dec (Z.of_N u) K) as [|Hgt]; [done|exfalso].
  assert (10 ^ K <= 10 ^ Z.of_N (u - 1)) by (apply Z.pow_le_mono_r; lia).
  lia.
Qed.

Lemma int_of_string_pos p :
  Z.pos p < 10 ^ Py.int_max_str_digits ->
  let l := list_ascii_of_string (NilEmpty.string_of_uint (Pos.to_uint p)) in
  Py.digitpart 0 0 l = Some (Z.pos p, Z.of_N (DecimalPos.Unsigned.usize (Pos.to_uint p)), [])
  /\ Z.of_N (DecimalPos.Unsigned.usize (Pos.to_uint p)) <= Py.int_max_str_digits.
Proof.
  intros Hp l. destruct (to_uint_canonical p) as [Hnil Hnz].
  destruct (uint_chars_digitpart _ Hnil) as [_ Hd]. fold l in Hd.
  split; [|by apply usize_le].
  rewrite Hd. unfold l.
  rewrite (uint_chars_digits _ 0 0 Decimal.Nil) by done.
  change (Decimal.revapp (Pos.to_uint p) Decimal.Nil) with (Decimal.rev (Pos.to_uint p)).
  rewrite <- DecimalPos.Unsigned.of_uint_alt, DecimalPos.Unsigned.of_to.
  reflexivity.
Qed.

Lemma nilzero_string_of_uint d :
  d <> Decimal.Nil -> NilZero.string_of_uint d = NilEmpty.string_of_uint d.
Proof. by destruct d. Qed.

(** [int(str(n)) = n] *)
Lemma int_of_str_of_int z :
  Z.abs z < 10 ^ Py.int_max_str_digits -> Py.int_of_string (str_of_int z) = Some z.
Proof.
  intros Hz. unfold Py.int_of_string.
  rewrite ascii_of_string_ascii by apply str_of_int_ascii.
  cbn [mbind option_bind]. unfold str_of_int, Py.int_of_ascii.
  destruct z as [|p|p]; [reflexivity| |].
  - destruct (to_uint_canonical p) as [Hnil _].
    destruct (int_of_string_pos p Hz) as [Hd Hn].
    cbn [Z.to_int NilZero.string_of_int]. rewrite nilzero_string_of_uint by done.
    rewrite strip_nonspace by apply uint_chars_nonspace.
    rewrite (proj1 (uint_chars_digitpart _ Hnil)). cbv zeta in Hd. rewrite Hd.
    by rewrite (proj2 (Z.leb_le _ _) Hn).
  - destruct (to_uint_canonical p) as [Hnil _].
    destruct (int_of_string_pos p Hz) as [Hd Hn].
    cbn [Z.to_int NilZero.string_of_int]. rewrite nilzero_string_of_uint by done.
    cbn [list_ascii_of_string].
    rewrite strip_nonspace
      by (constructor; [reflexivity|apply uint_chars_nonspace]).
    cbn [Py.sign]. change (Ascii.eqb "-" "-") with true. cbv iota.
    cbv zeta in Hd. rewrite Hd.
    by rewrite (proj2 (Z.leb_le _ _) Hn).
Qed.

Lemma in_int64_small z :
  Sql.in_int64 z = true -> Z.abs z < 10 ^ Py.int_max_str_digits.
Proof.
  unfold Sql.in_int64. rewrite andb_true_iff, Z.leb_le, Z.ltb_lt.
  intros [H1 H2]. apply Z.le_lt_trans with (2 ^ 63); [lia|].
  apply Z.lt_le_trans with (10 ^ 19); [reflexivity|].
  apply Z.pow_le_mono_r; [lia|]. unfold Py.int_max_str_digits. lia.
Qed.

Lemma load_user_run z d l s :
  Sql.in_int64 z = true ->
  load_user (SStr (str_of_int z)) (mk_state d l s)
  = (Ok (List.find (fun o => Owner.id o =? z) (owner_table d)), mk_state d l s).
Proof.
  intros Hz. unfold load_user, bind, lift, gets, owner_get.
  cbn [value_of_sval Py.int db].
  rewrite (int_of_str_of_int z (in_int64_small z Hz)).
  by rewrite (bind_int_ok z Hz).
Qed.

(** A template rendered before the request has loaded its user: the
    context processor loads it, which applies session protection. *)
Lemma render_template_loads req d l (s : gmap string sval) uid name ctx :
  s !! "_user_id" = option_map (fun z => SStr (str_of_int z)) uid ->
  (forall z, uid = Some z -> Sql.in_int64 z = true) ->
  render_template req None name ctx (mk_state d l s)
  = (Ok (RenderTemplate name ctx (default (SBool false) (s !! "dark_mode"))),
     mk_state d l (protect req s)).
Proof.
  intros Hs Hz. unfold render_template, user_context_processor.
  unfold bind at 1. rewrite current_user_run, Hs.
  assert (Hdark :
    (dark <- inject_theme ;; ret (RenderTemplate name ctx dark))
      (mk_state d l (protect req s))
    = (Ok (RenderTemplate name ctx (default (SBool false) (s !! "dark_mode"))),
       mk_state d l (protect req s))).
  { unfold inject_theme, session_get, bind, gets, ret. cbn [session].
    by rewrite protect_lookup_ne. }
  destruct uid as [z|]; cbn [option_map]; [|exact Hdark].
  by rewrite (load_user_run z d l (protect req s) (Hz z eq_refl)).
Qed.

(** One whose session names a user by text that is no number raises. *)
Lemma render_template_raises req d l (s : gmap string sval) txt name ctx :
  s !! "_user_id" = Some (SStr txt) ->
  Py.int_of_string txt = None ->
  render_template req None name ctx (mk_state d l s)
  = (Raise ValueError, mk_state d l (protect req s)).
Proof.
  intros Hs Hbad. unfold render_template, user_context_processor.
  unfold bind at 1. rewrite current_user_run, Hs.
  unfold load_user, bind, lift. cbn [value_of_sval Py.int]. by rewrite Hbad.
Qed.

Lemma protect_fresh req (s : gmap string sval) :
  protect req s !! "_fresh" = s !! "_fresh"
  \/ protect req s !! "_fresh" = Some (SBool false).
Proof.
  unfold protect. destruct (_ && _); [|by left].
  destruct (s !! "_fresh") as [[[]| | |]|] eqn:E;
    rewrite ?lookup_insert_eq, ?E; auto.
Qed.

Lemma find_by_pk (l : list Owner.t) o :
  NoDup (map Owner.id l) -> In o l ->
  List.find (fun o' => Owner.id o' =? Owner.id o) l = Some o.
Proof.
  induction l as [|x l IH]; [done|]. simpl.
  intros Hnd Hin. apply NoDup_cons in Hnd as [Hx Hnd].
  destruct (Z.eqb_spec (Owner.id x) (Owner.id o)) as [E|E].
  - destruct Hin as [->|Hin]; [done|]. exfalso. apply Hx. rewrite E.
    apply list_elem_of_In. by apply in_map.
  - destruct Hin as [->|Hin]; [done|]. by apply IH.
Qed.

Lemma find_by_email (l : list Owner.t) o e :
  NoDup (map Owner.email l) -> In o l -> Owner.email o = Some e ->
  List.find (fun o' => Sql.filter_by_str (Owner.email o') (Some e)) l = Some o.
Proof.
  induction l as [|x l IH]; [done|]. simpl.
  intros Hnd Hin He. apply NoDup_cons in Hnd as [Hx Hnd].
  destruct (Sql.eq_str (Owner.email x) e) eqn:E.
  - destruct Hin as [->|Hin]; [done|]. exfalso. apply Hx.
    apply eq_str_true in E. rewrite E, <- He.
    apply list_elem_of_In. by apply in_map.
  - destruct Hin as [->|Hin]; [|by apply IH].
    apply eq_str_true in He. congruence.
Qed.

Lemma user_id_authenticated req o d (s : gmap string sval) :
  s !! "_user_id" = Some (SStr (str_of_int (Owner.id o))) ->
  owner_pk d -> In o (owner_table d) -> Sql.in_int64 (Owner.id o) = true ->
  authenticated req o d s.
Proof.
  intros Hs Hpk Hin H64. unfold authenticated. rewrite current_user_run, Hs.
  rewrite load_user_run by done. by rewrite find_by_pk.
Qed.

Lemma logged_in_lookup_ne req o (s : gmap string sval) k :
  k <> "_user_id" -> k <> "_fresh" -> k <> "_id" ->
  logged_in req o s !! k = s !! k.
Proof. intros. unfold logged_in. by rewrite !lookup_insert_ne. Qed.

Lemma login_user_run req o d l s :
  login_user req o (mk_state d l s) = (Ok tt, mk_state d l (logged_in req o s)).
Proof. reflexivity. Qed.

Lemma with_flash_lookup_ne c m (s : gmap string sval) k :
  k <> "_flashes" -> with_flash c m s !! k = s !! k.
Proof. intros. unfold with_flash. by rewrite lookup_insert_ne. Qed.

Lemma flashed_with_flash c m s :
  flashes_ok s -> flashed (with_flash c m s) = (flashed s ++ [(c, m)])%list.
Proof. intros _. unfold flashed at 1, with_flash. by rewrite lookup_insert_eq. Qed.

(** What [login] does once the owner is found and the password checks. *)
Lemma login_run env req d s o e h :
  method req = POST ->
  form req !! "email" = Some e ->
  In o (owner_table d) -> Owner.email o = Some e -> owner_email_unique d ->
  Owner.password_hash o = Some h ->
  check_password_hash env h (form req !! "password") = Ok true ->
  flashes_ok s ->
  serve (login env req) d s
  = (Ok (Redirect (UrlFor "dashboard")), d,
     with_flash "success"
       ("Welcome back, " ++ default "None" (Owner.username o) ++ "!")
       (logged_in req o s)).
Proof.
  intros Hpost He Hin Hoe Huniq Hh Hck Hf. unfold serve, login.
  rewrite Hpost. unfold bind at 1. unfold gets at 1. unfold form_text. rewrite He.
  cbn [db]. rewrite (find_by_email _ o e Huniq Hin Hoe), Hh.
  unfold bind at 1. unfold bind at 1. unfold lift. rewrite Hck. cbn [ret].
  unfold bind. rewrite login_user_run, flash_ok; [done|].
  unfold flashes_ok. by rewrite logged_in_lookup_ne.
Qed.

Lemma find_none_of {X : Type} (f : X -> bool) l :
  (forall x, In x l -> f x = false) -> List.find f l = None.
Proof.
  intros H. destruct (List.find f l) as [y|] eqn:E; [|done].
  apply find_some in E as [Hin Hf]. by rewrite (H y Hin) in Hf.
Qed.

Lemma taken_false_of col v :
  ~ In (Some v) col -> Sql.taken col (Some v) = false.
Proof.
  intros H. simpl. destruct (existsb _ col) eqn:E; [|done].
  apply existsb_exists in E as (c & Hc & Heq). apply eq_str_true in Heq.
  by subst.
Qed.

Lemma taken_true_of col v :
  In (Some v) col -> Sql.taken col (Some v) = true.
Proof.
  intros H. simpl. apply existsb_exists. exists (Some v).
  split; [done|]. by apply eq_str_true.
Qed.

Lemma email_unknown (l : list Owner.t) e :
  (forall o, In o l -> Owner.email o <> Some e) ->
  List.find (fun o => Sql.filter_by_str (Owner.email o) (Some e)) l = None
  /\ ~ In (Some e) (map Owner.email l).
Proof.
  intros H. split.
  - apply find_none_of. intros o Ho. simpl.
    destruct (Sql.eq_str (Owner.email o) e) eqn:E; [|done].
    apply eq_str_true in E. by destruct (H o Ho).
  - intros Hin. apply in_map_iff in Hin as (o & Ho & Hin). by apply (H o Hin).
Qed.

Lemma register_run env req d s u e pw :
  method req = POST ->
  form req !! "username" = Some u ->
  form req !! "email" = Some e ->
  form req !! "password" = Some pw ->
  (forall o, In o (owner_table d) -> Owner.email o <> Some e) ->
  (forall o, In o (owner_table d) -> Owner.username o <> Some u) ->
  flashes_ok s ->
  serve (register env req) d s
  = (Ok (Redirect (UrlFor "login")),
     with_owner (registered env req d u e pw) d,
     with_flash "success" "Registration successful! Please login." s).
Proof.
  intros Hpost Hu He Hpw Hfresh Hufresh Hf. unfold serve, register.
  rewrite Hpost. unfold bind at 1. unfold gets at 1. unfold form_text.
  rewrite Hu, He, Hpw. cbn [db].
  destruct (email_unknown _ _ Hfresh) as [Hfind Hnot]. rewrite Hfind.
  unfold bind, ret, db_session_add, db_session_commit, modify.
  cbn [pending db session set_pending set_db app Store.flush Store.insert].
  unfold Store.insert_owner.
  cbn [Owner.username Owner.email Owner.password_hash Owner.phone
       Owner.created_at Sql.is_null orb].
  rewrite (taken_false_of _ e Hnot), taken_false_of.
  2:{ intros Hin. apply in_map_iff in Hin as (o & Ho & Hin). by apply (Hufresh o Hin). }
  cbn [orb rbind Sql.default]. unfold set_pending, set_db. cbn [pending db session].
  by rewrite flash_ok.
Qed.

Lemma register_username_taken env req d s u e pw o :
  method req = POST ->
  form req !! "username" = Some u ->
  form req !! "email" = Some e ->
  form req !! "password" = Some pw ->
  (forall o, In o (owner_table d) -> Owner.email o <> Some e) ->
  In o (owner_table d) -> Owner.username o = Some u ->
  serve (register env req) d s = (Raise IntegrityError, d, s)
  /\ flashed s = flashed s.
Proof.
  intros Hpost Hu He Hpw Hfresh Hin Hou. split; [|done]. unfold serve, register.
  rewrite Hpost. unfold bind at 1. unfold gets at 1. unfold form_text.
  rewrite Hu, He, Hpw. cbn [db].
  destruct (email_unknown _ _ Hfresh) as [Hfind Hnot]. rewrite Hfind.
  unfold bind, ret, db_session_add, db_session_commit, modify.
  cbn [pending db session set_pending set_db app Store.flush Store.insert].
  unfold Store.insert_owner.
  cbn [Owner.username Owner.email Owner.password_hash Owner.phone
       Owner.created_at Sql.is_null orb].
  rewrite taken_true_of; [done|]. rewrite <- Hou.
  by apply (in_map Owner.username).
Qed.

Section Invariant.

Variable P : database -> Prop.

Lemma invariant_ret {X : Type} (x : X) : invariant P (ret x).
Proof. by intros st r st' [= <- <-]. Qed.

Lemma invariant_raise {X : Type} e : invariant P (@raise X e).
Proof. by intros st r st' [= <- <-]. Qed.

Lemma invariant_lift {X : Type} (r : result X) : invariant P (lift r).
Proof. by intros st r' st' [= <- <-]. Qed.

Lemma invariant_gets {X : Type} (f : state -> X) : invariant P (gets f).
Proof. by intros st r st' [= <- <-]. Qed.

Lemma invariant_modify f : (forall st, db (f st) = db st) -> invariant P (modify f).
Proof. intros Hf st r st' [= <- <-]. by rewrite Hf. Qed.

Lemma invariant_bind {X Y : Type} (m : M X) (k : X -> M Y) :
  invariant P m -> (forall x, invariant P (k x)) -> invariant P (bind m k).
Proof.
  intros Hm Hk st r st'. unfold bind.
  destruct (m st) as [[x|e] st1] eqn:E.
  - intros Hrun Hc. eapply Hk; [exact Hrun|]. by eapply Hm.
  - intros [= <- <-] Hc. by eapply Hm.
Qed.

Lemma invariant_flash message category : invariant P (flash message category).
Proof.
  intros st r st'. unfold flash.
  destruct (session st !! "_flashes") as [[]|]; by intros [= <- <-].
Qed.

Lemma invariant_current_user req : invariant P (current_user req).
Proof.
  unfold current_user. apply invariant_bind; [by apply invariant_modify|]. intros _.
  intros st r st'. destruct (session st !! "_user_id") as [v|].
  - unfold load_user. repeat (apply invariant_bind; [|intros]);
      auto using invariant_lift, invariant_gets.
  - by intros [= <- <-].
Qed.

Lemma invariant_user_context_processor req loaded :
  invariant P (user_context_processor req loaded).
Proof. destruct loaded; [apply invariant_ret|apply invariant_current_user]. Qed.

(** A flush keeps what every insert keeps. *)
Lemma invariant_commit env :
  (forall now e d d', Store.insert now e d = Ok d' -> P d -> P d') ->
  invariant P (db_session_commit env).
Proof.
  intros Hins st r st'. unfold db_session_commit.
  destruct (Store.flush _ _ _) as [d|e] eqn:E.
  - intros [= <- <-] HP. cbn [db set_pending set_db].
    revert E HP. generalize (db st). generalize (pending st).
    induction l as [|x l IH]; intros d0; simpl.
    + by intros [= <-].
    + destruct (Store.insert (utcnow env) x d0) as [d1|] eqn:E1; [|discriminate].
      simpl. intros Hfl HP. apply (IH d1 Hfl). by eapply Hins.
  - by intros [= <- <-].
Qed.

End Invariant.

Create HintDb inv.

#[local] Hint Resolve invariant_ret invariant_raise invariant_lift invariant_gets
  invariant_flash invariant_current_user invariant_user_context_processor : inv.

#[local] Hint Extern 1 (invariant _ (modify _)) =>
  (apply invariant_modify; reflexivity) : inv.

(** Takes a view apart along its binds and case distinctions; [commit]
    settles [db.session.commit()]. *)
Ltac invariant_step commit :=
  first
    [ solve [auto with inv]
    | commit
    | apply invariant_bind; [|intros]
    | match goal with
      | |- invariant _ (match ?x with _ => _ end) => destruct x
      | |- invariant _ (if ?b then _ else _) => destruct b
      end
    | progress unfold login_required, unauthorized, render_template, redirect,
        inject_theme, session_get, session_setitem, session_discard,
        db_session_add, login_user, logout_user, request_json ].

Ltac invariant_views commit :=
  repeat (apply Forall_cons; split); try apply Forall_nil;
  unfold index, register, login, logout, dashboard, properties, add_property,
    tenants, add_tenant, payments, add_payment, expenses, reports,
    send_whatsapp_reminder, toggle_dark_mode;
  repeat invariant_step commit.

Lemma read_views_invariant P env req : Forall (invariant P) (read_views env req).
Proof. unfold read_views. invariant_views fail. Qed.

Lemma write_views_invariant P env req :
  (forall now e d d', Store.insert now e d = Ok d' -> P d -> P d') ->
  Forall (invariant P) (write_views env req).
Proof.
  intros Hins. unfold write_views.
  invariant_views ltac:(apply invariant_commit; exact Hins).
Qed.

Lemma serve_invariant P view d s r d' s' :
  invariant P view -> serve view d s = (r, d', s') -> P d -> P d'.
Proof.
  intros Hk. unfold serve.
  destruct (view (mk_state d [] s)) as [r0 st] eqn:E.
  intros [= <- <- <-]. by apply (Hk _ _ _ E).
Qed.

(** *** Access without a login *)

(** X1: the guarded views turn an anonymous request away. For a session in
    which no user is logged in, every view behind [login_required],
    whatever the method and the form, answers with the redirect to the
    login page (carrying the requested URL), flashes "Please log in to
    access this page." and leaves the store as it is: no owner's data is
    rendered and nothing is written. *)
Theorem guarded_views_require_login (env : environ) (req : request)
    (d : database) (s : gmap string sval) :
  anonymous req d s ->
  flashes_ok s ->
  Forall (fun view =>
            serve view d s
            = (Ok (Redirect (LoginUrl (url req))), d,
               with_flash "message" "Please log in to access this page."
                 (protect req s)))
         (guarded_views env req).
Proof.
  intros Hanon Hf. unfold guarded_views.
  repeat (apply Forall_cons; split); try (by apply Forall_nil); cbv beta;
    unfold serve, logout, dashboard, properties, add_property, tenants,
      add_tenant, payments, add_payment, expenses, reports,
      send_whatsapp_reminder;
    by rewrite (login_required_anonymous _ _ _ _ Hanon Hf).
Qed.

Lemma guarded_views_require_login_witness :
  let req := Sample.post [("name", "Loft"); ("property_id", "7")] in
  Forall (fun view =>
            serve view Sample.store ∅
            = (Ok (Redirect (LoginUrl (url req))), Sample.store,
               with_flash "message" "Please log in to access this page."
                 (protect req ∅)))
         (guarded_views Sample.clock req).
Proof.
  cbv zeta.
  apply (guarded_views_require_login Sample.clock
           (Sample.post [("name", "Loft"); ("property_id", "7")]) Sample.store ∅).
  - vm_compute. reflexivity.
  - vm_compute. exact I.
Defined.

(** *** The user loader *)

(** X2: [load_user] finds the owner by the id [login_user] wrote. For an
    id within 64 bits and a store with unique owner ids, [load_user] of
    the text [str(id)] raises nothing, changes nothing, and returns an
    owner exactly when the owner table has a row with that id, and then
    that row. *)
Theorem load_user_by_id (d : database) (l : list entity)
    (s : gmap string sval) (z : Z) :
  Sql.in_int64 z = true ->
  owner_pk d ->
  exists u,
    load_user (SStr (str_of_int z)) (mk_state d l s) = (Ok u, mk_state d l s)
    /\ (forall o, u = Some o <-> In o (owner_table d) /\ Owner.id o = z).
Proof.
  intros Hz Hpk. eexists. split; [by apply load_user_run|].
  intros o. split.
  - intros H. apply find_some in H as [Hin H]. by apply Z.eqb_eq in H.
  - intros [Hin <-]. by apply find_by_pk.
Qed.

Lemma load_user_by_id_witness :
  exists u,
    load_user (SStr (str_of_int 2)) (mk_state Sample.store [] ∅)
    = (Ok u, mk_state Sample.store [] ∅)
    /\ (forall o, u = Some o <-> In o (owner_table Sample.store) /\ Owner.id o = 2).
Proof.
  apply (load_user_by_id Sample.store [] ∅ 2).
  - reflexivity.
  - unfold owner_pk. apply (bool_decide_unpack _). vm_compute. exact I.
Defined.

(** X3: a session whose [_user_id] is not a number. When the session's
    [_user_id] is text that [int] refuses, [load_user] raises [ValueError];
    every view behind [login_required] then ends in that [ValueError] and
    writes nothing. *)
Theorem guarded_views_malformed_user_id (env : environ) (req : request)
    (d : database) (s : gmap string sval) (txt : string) :
  s !! "_user_id" = Some (SStr txt) ->
  Py.int_of_string txt = None ->
  load_user (SStr txt) (mk_state d [] s) = (Raise ValueError, mk_state d [] s)
  /\ Forall (fun view => serve view d s = (Raise ValueError, d, protect req s))
            (guarded_views env req).
Proof.
  intros Hs Hbad.
  assert (Hload : forall st, load_user (SStr txt) st = (Raise ValueError, st)).
  { intros st. unfold load_user, bind, lift. cbn [value_of_sval Py.int].
    by rewrite Hbad. }
  split; [apply Hload|].
  assert (Hcur : current_user req (mk_state d [] s)
                 = (Raise ValueError, mk_state d [] (protect req s))).
  { by rewrite current_user_run, Hs, Hload. }
  unfold guarded_views.
  repeat (apply Forall_cons; split); try (by apply Forall_nil); cbv beta;
    unfold serve, logout, dashboard, properties, add_property, tenants,
      add_tenant, payments, add_payment, expenses, reports,
      send_whatsapp_reminder, login_required, bind;
    by rewrite Hcur.
Qed.

Lemma guarded_views_malformed_user_id_witness :
  load_user (SStr "asha") (mk_state Sample.store [] (Sample.session_of "asha"))
  = (Raise ValueError, mk_state Sample.store [] (Sample.session_of "asha"))
  /\ Forall (fun view =>
               serve view Sample.store (Sample.session_of "asha")
               = (Raise ValueError, Sample.store,
                  protect (Sample.get_ "/dashboard") (Sample.session_of "asha")))
            (guarded_views Sample.clock (Sample.get_ "/dashboard")).
Proof.
  apply (guarded_views_malformed_user_id Sample.clock (Sample.get_ "/dashboard")
           Sample.store (Sample.session_of "asha") "asha").
  - vm_compute. reflexivity.
  - vm_compute. reflexivity.
Defined.

(** *** Registration *)

(** X4: a registration that succeeds. A POST to [/register] with a user
    name, an email no owner has, and a password, the user name being free
    as well, appends exactly one owner row: it carries the next id (used
    by no other owner), the submitted name and email, and the hash
    [generate_password_hash] returned for the password; the other tables
    are untouched, the view flashes the success message and redirects to
    the login page. *)
Theorem register_creates_owner (env : environ) (req : request) (d : database)
    (s : gmap string sval) (u e pw : string) :
  method req = POST ->
  form req !! "username" = Some u ->
  form req !! "email" = Some e ->
  form req !! "password" = Some pw ->
  (forall o, In o (owner_table d) -> Owner.email o <> Some e) ->
  (forall o, In o (owner_table d) -> Owner.username o <> Some u) ->
  flashes_ok s ->
  exists d' o,
    serve (register env req) d s
    = (Ok (Redirect (UrlFor "login")), d',
       with_flash "success" "Registration successful! Please login." s)
    /\ owner_table d' = (owner_table d ++ [o])%list
    /\ Owner.username o = Some u
    /\ Owner.email o = Some e
    /\ Owner.password_hash o = Some (generate_password_hash env pw)
    /\ (forall o', In o' (owner_table d) -> Owner.id o' <> Owner.id o)
    /\ property_table d' = property_table d
    /\ tenant_table d' = tenant_table d
    /\ payment_table d' = payment_table d
    /\ expense_table d' = expense_table d
    /\ maintenance_request_table d' = maintenance_request_table d.
Proof.
  intros Hpost Hu He Hpw Hfresh Hufresh Hf.
  exists (with_owner (registered env req d u e pw) d), (registered env req d u e pw).
  split; [by apply register_run|].
  repeat (split; [reflexivity|]). split; [|by repeat split].
  intros o' Hin Heq. apply (next_rowid_fresh (map Owner.id (owner_table d))).
  cbn [registered Owner.id] in Heq. rewrite <- Heq. by apply in_map.
Qed.

Lemma register_creates_owner_witness :
  let req := Sample.post [("username", "cleo"); ("email", "cleo@example.com");
                          ("password", "pw"); ("phone", "555-0103")] in
  exists d' o,
    serve (register Sample.clock req) Sample.store ∅
    = (Ok (Redirect (UrlFor "login")), d',
       with_flash "success" "Registration successful! Please login." ∅)
    /\ owner_table d' = (owner_table Sample.store ++ [o])%list
    /\ Owner.username o = Some "cleo"
    /\ Owner.email o = Some "cleo@example.com"
    /\ Owner.password_hash o = Some (generate_password_hash Sample.clock "pw")
    /\ (forall o', In o' (owner_table Sample.store) -> Owner.id o' <> Owner.id o)
    /\ property_table d' = property_table Sample.store
    /\ tenant_table d' = tenant_table Sample.store
    /\ payment_table d' = payment_table Sample.store
    /\ expense_table d' = expense_table Sample.store
    /\ maintenance_request_table d' = maintenance_request_table Sample.store.
Proof.
  cbv zeta.
  apply (register_creates_owner Sample.clock
           (Sample.post [("username", "cleo"); ("email", "cleo@example.com");
                         ("password", "pw"); ("phone", "555-0103")])
           Sample.store ∅ "cleo" "cleo@example.com" "pw").
  - reflexivity.
  - vm_compute. reflexivity.
  - vm_compute. reflexivity.
  - vm_compute. reflexivity.
  - intros o [<-|[<-|[]]]; discriminate.
  - intros o [<-|[<-|[]]]; discriminate.
  - vm_compute. exact I.
Defined.

(** X5: a user name that is taken. [register] looks only for the email;
    with a new email and a user name some owner already has, the insert is
    refused by the [UNIQUE] constraint on [username]: the view ends in an
    unhandled [IntegrityError], flashes nothing and stores nothing. *)
Theorem register_taken_username (env : environ) (req : request) (d : database)
    (s : gmap string sval) (u e pw : string) (o : Owner.t) :
  method req = POST ->
  form req !! "username" = Some u ->
  form req !! "email" = Some e ->
  form req !! "password" = Some pw ->
  (forall o', In o' (owner_table d) -> Owner.email o' <> Some e) ->
  In o (owner_table d) ->
  Owner.username o = Some u ->
  serve (register env req) d s = (Raise IntegrityError, d, s).
Proof.
  intros Hpost Hu He Hpw Hfresh Hin Hou.
  by apply (register_username_taken env req d s u e pw o).
Qed.

Lemma register_taken_username_witness :
  serve (register Sample.clock
           (Sample.post [("username", "asha"); ("email", "asha2@example.com");
                         ("password", "pw")]))
        Sample.store ∅
  = (Raise IntegrityError, Sample.store, ∅).
Proof.
  apply (register_taken_username Sample.clock _ Sample.store ∅
           "asha" "asha2@example.com" "pw" Sample.asha).
  - reflexivity.
  - vm_compute. reflexivity.
  - vm_compute. reflexivity.
  - vm_compute. reflexivity.
  - intros o [<-|[<-|[]]]; discriminate.
  - left. reflexivity.
  - reflexivity.
Defined.

(** *** Login *)

(** X6: a login that succeeds. A POST to [/login] with the email of an
    owner (emails and ids being unique) and a password that
    [check_password_hash] accepts against the stored hash redirects to the
    dashboard, flashes the welcome and writes the owner's id, as text,
    into the session; on every later request that session authenticates
    this owner.  The store is not written. *)
Theorem login_starts_session (env : environ) (req : request) (d : database)
    (s : gmap string sval) (o : Owner.t) (e h : string) :
  method req = POST ->
  form req !! "email" = Some e ->
  In o (owner_table d) ->
  Owner.email o = Some e ->
  Owner.password_hash o = Some h ->
  check_password_hash env h (form req !! "password") = Ok true ->
  owner_email_unique d ->
  owner_pk d ->
  Sql.in_int64 (Owner.id o) = true ->
  flashes_ok s ->
  exists s',
    serve (login env req) d s = (Ok (Redirect (UrlFor "dashboard")), d, s')
    /\ s' !! "_user_id" = Some (SStr (str_of_int (Owner.id o)))
    /\ flashed s'
       = (flashed s
          ++ [("success",
               ("Welcome back, " ++ default "None" (Owner.username o) ++ "!")%string)])%list
    /\ (forall req', authenticated req' o d s').
Proof.
  intros Hpost He Hin Hoe Hh Hck Huniq Hpk H64 Hf.
  eexists. split; [by eapply login_run|].
  assert (Hid : with_flash "success"
                  ("Welcome back, " ++ default "None" (Owner.username o) ++ "!")
                  (logged_in req o s) !! "_user_id"
                = Some (SStr (str_of_int (Owner.id o)))).
  { rewrite with_flash_lookup_ne by done. unfold logged_in.
    by rewrite lookup_insert_ne, lookup_insert_ne, lookup_insert_eq. }
  split; [exact Hid|]. split.
  - unfold flashed at 1, with_flash. rewrite lookup_insert_eq.
    unfold flashed. by rewrite logged_in_lookup_ne.
  - intros req'. by apply user_id_authenticated.
Qed.

Lemma login_starts_session_witness :
  let req := Sample.post [("email", "asha@example.com"); ("password", "1")] in
  exists s',
    serve (login Sample.clock req) Sample.store ∅
    = (Ok (Redirect (UrlFor "dashboard")), Sample.store, s')
    /\ s' !! "_user_id" = Some (SStr (str_of_int (Owner.id Sample.asha)))
    /\ flashed s'
       = (flashed ∅
          ++ [("success",
               ("Welcome back, " ++ default "None" (Owner.username Sample.asha)
                ++ "!")%string)])%list
    /\ (forall req', authenticated req' Sample.asha Sample.store s').
Proof.
  cbv zeta.
  apply (login_starts_session Sample.clock
           (Sample.post [("email", "asha@example.com"); ("password", "1")])
           Sample.store ∅ Sample.asha "asha@example.com" "h$1").
  - reflexivity.
  - vm_compute. reflexivity.
  - left. reflexivity.
  - reflexivity.
  - reflexivity.
  - vm_compute. reflexivity.
  - unfold owner_email_unique. apply (bool_decide_unpack _). vm_compute. exact I.
  - unfold owner_pk. apply (bool_decide_unpack _). vm_compute. exact I.
  - reflexivity.
  - vm_compute. exact I.
Defined.

Lemma flashes_ok_with_flash c m s : flashes_ok (with_flash c m s).
Proof. unfold flashes_ok, with_flash. by rewrite lookup_insert_eq. Qed.

(** X7: a login that fails. A POST to [/login] with an email no owner has,
    or with the email of an owner whose stored hash
    [check_password_hash] does not accept for the submitted password,
    starts no session.  With a session that names no user, or names one
    by the text of a 64-bit id, the view flashes "Invalid email or
    password" and renders the login form again; rendering loads
    [current_user] for the template, so session protection applies to the
    session that now holds the flash.  The session the view leaves has
    the [_user_id] it found (none, if there was none), differs from the
    one it found in [_flashes] and [_fresh] at most, and [_fresh] is as
    it was or [False]; nothing in the store changes. *)
Theorem login_rejects_bad_credentials (env : environ) (req : request)
    (d : database) (s : gmap string sval) (e : string) (uid : option Z) :
  method req = POST ->
  form req !! "email" = Some e ->
  flashes_ok s ->
  s !! "_user_id" = option_map (fun z => SStr (str_of_int z)) uid ->
  (forall z, uid = Some z -> Sql.in_int64 z = true) ->
  (forall o, In o (owner_table d) -> Owner.email o <> Some e)
  \/ (exists o h, In o (owner_table d) /\ Owner.email o = Some e
                  /\ owner_email_unique d
                  /\ Owner.password_hash o = Some h
                  /\ check_password_hash env h (form req !! "password") = Ok false) ->
  exists dark s',
    serve (login env req) d s
    = (Ok (RenderTemplate "login.html" NoContext dark), d, s')
    /\ s' = protect req (with_flash "danger" "Invalid email or password" s)
    /\ flashed s' = (flashed s ++ [("danger", "Invalid email or password")])%list
    /\ s' !! "_user_id" = s !! "_user_id"
    /\ (forall k, k <> "_flashes" -> k <> "_fresh" -> s' !! k = s !! k)
    /\ (s' !! "_fresh" = s !! "_fresh" \/ s' !! "_fresh" = Some (SBool false)).
Proof.
  intros Hpost He Hf Hs Hz Hcase.
  set (s1 := with_flash "danger" "Invalid email or password" s).
  exists (default (SBool false) (s !! "dark_mode")), (protect req s1).
  assert (Hrender :
    render_template req None "login.html" NoContext (mk_state d [] s1)
    = (Ok (RenderTemplate "login.html" NoContext
             (default (SBool false) (s !! "dark_mode"))),
       mk_state d [] (protect req s1))).
  { rewrite (render_template_loads req d [] s1 uid);
      [|unfold s1; by rewrite with_flash_lookup_ne|done].
    unfold s1. by rewrite (with_flash_lookup_ne _ _ s "dark_mode"). }
  split.
  { unfold serve, login. rewrite Hpost. unfold bind at 1. unfold gets at 1.
    unfold form_text. rewrite He. cbn [db].
    destruct Hcase as [Hnone|(o & h & Hin & Hoe & Huniq & Hh & Hck)].
    - rewrite (proj1 (email_unknown _ _ Hnone)).
      unfold bind at 1. cbn [ret]. unfold bind at 1. rewrite flash_ok by done.
      fold s1. by rewrite Hrender.
    - rewrite (find_by_email _ o e Huniq Hin Hoe), Hh.
      unfold bind at 1. unfold bind at 1. unfold lift. rewrite Hck. cbn [ret].
      unfold bind at 1. rewrite flash_ok by done.
      fold s1. by rewrite Hrender. }
  split; [done|]. split.
  { unfold flashed at 1. rewrite protect_lookup_ne by done.
    by apply flashed_with_flash. }
  split.
  { rewrite protect_lookup_ne by done. by apply with_flash_lookup_ne. }
  split.
  { intros k Hk1 Hk2. rewrite protect_lookup_ne by done.
    by apply with_flash_lookup_ne. }
  destruct (protect_fresh req s1) as [H|H]; [left|by right].
  rewrite H. by apply with_flash_lookup_ne.
Qed.

Lemma login_rejects_bad_credentials_witness :
  let req := Sample.post [("email", "asha@example.com"); ("password", "guess")] in
  let s : gmap string sval := ∅ in
  exists dark s',
    serve (login Sample.clock req) Sample.store s
    = (Ok (RenderTemplate "login.html" NoContext dark), Sample.store, s')
    /\ s' = protect req (with_flash "danger" "Invalid email or password" s)
    /\ flashed s' = (flashed s ++ [("danger", "Invalid email or password")])%list
    /\ s' !! "_user_id" = s !! "_user_id"
    /\ (forall k, k <> "_flashes" -> k <> "_fresh" -> s' !! k = s !! k)
    /\ (s' !! "_fresh" = s !! "_fresh" \/ s' !! "_fresh" = Some (SBool false)).
Proof.
  cbv zeta.
  apply (login_rejects_bad_credentials Sample.clock
           (Sample.post [("email", "asha@example.com"); ("password", "guess")])
           Sample.store ∅ "asha@example.com" None).
  - reflexivity.
  - vm_compute. reflexivity.
  - vm_compute. exact I.
  - reflexivity.
  - intros z [=].
  - right. exists Sample.asha, "h$1".
    split; [by left|]. split; [reflexivity|]. split.
    { unfold owner_email_unique. apply (bool_decide_unpack _). vm_compute. exact I. }
    split; [reflexivity|]. vm_compute. reflexivity.
Defined.

(** On a session that was empty, the failed login leaves the flash and
    the mark of session protection. *)
Example sample_failed_login :
  let req := Sample.post [("email", "asha@example.com"); ("password", "guess")] in
  serve (login Sample.clock req) Sample.store ∅
  = (Ok (RenderTemplate "login.html" NoContext (SBool false)), Sample.store,
     <["_fresh" := SBool false]>
       (<["_flashes" := SFlashes [("danger", "Invalid email or password")]]> ∅)).
Proof. vm_compute. reflexivity. Qed.

(** X8: registering, then logging in. After a registration that succeeds,
    a login with the same email and password (the hash function and its
    check agreeing on that password) starts a session that authenticates
    the new owner. *)
Theorem register_then_login (env : environ) (req req2 : request) (d : database)
    (s : gmap string sval) (u e pw : string) :
  method req = POST ->
  form req !! "username" = Some u ->
  form req !! "email" = Some e ->
  form req !! "password" = Some pw ->
  (forall o, In o (owner_table d) -> Owner.email o <> Some e) ->
  (forall o, In o (owner_table d) -> Owner.username o <> Some u) ->
  flashes_ok s ->
  owner_pk d ->
  owner_email_unique d ->
  Sql.in_int64 (Sql.next_rowid (map Owner.id (owner_table d))) = true ->
  method req2 = POST ->
  form req2 !! "email" = Some e ->
  form req2 !! "password" = Some pw ->
  check_password_hash env (generate_password_hash env pw) (Some pw) = Ok true ->
  exists d1 s1 s2 o,
    serve (register env req) d s = (Ok (Redirect (UrlFor "login")), d1, s1)
    /\ serve (login env req2) d1 s1 = (Ok (Redirect (UrlFor "dashboard")), d1, s2)
    /\ In o (owner_table d1)
    /\ Owner.username o = Some u
    /\ Owner.email o = Some e
    /\ (forall req', authenticated req' o d1 s2).
Proof.
  intros Hpost Hu He Hpw Hfresh Hufresh Hf Hpk Huniq H64 Hpost2 He2 Hpw2 Hck.
  set (o := registered env req d u e pw).
  assert (Hin : In o (owner_table (with_owner o d))).
  { cbn [with_owner owner_table]. apply in_or_app. right. by left. }
  assert (Hpk1 : owner_pk (with_owner o d)).
  { unfold owner_pk. cbn [with_owner owner_table]. rewrite map_app.
    apply NoDup_snoc; [done|]. apply next_rowid_fresh. }
  assert (Huniq1 : owner_email_unique (with_owner o d)).
  { unfold owner_email_unique. cbn [with_owner owner_table]. rewrite map_app.
    apply NoDup_snoc; [done|]. apply (proj2 (email_unknown _ _ Hfresh)). }
  exists (with_owner o d),
    (with_flash "success" "Registration successful! Please login." s).
  eexists. exists o.
  split; [by apply register_run|]. split.
  { apply (login_run env req2 _ _ o e (generate_password_hash env pw));
      try done.
    - by rewrite Hpw2.
    - apply flashes_ok_with_flash. }
  split; [exact Hin|]. split; [reflexivity|]. split; [reflexivity|].
  intros req'. apply user_id_authenticated; try done.
  rewrite with_flash_lookup_ne by done. unfold logged_in.
  by rewrite lookup_insert_ne, lookup_insert_ne, lookup_insert_eq.
Qed.

Lemma register_then_login_witness :
  let req := Sample.post [("username", "cleo"); ("email", "cleo@example.com");
                          ("password", "pw"); ("phone", "555-0103")] in
  let req2 := Sample.post [("email", "cleo@example.com"); ("password", "pw")] in
  exists d1 s1 s2 o,
    serve (register Sample.clock req) Sample.store ∅
    = (Ok (Redirect (UrlFor "login")), d1, s1)
    /\ serve (login Sample.clock req2) d1 s1
       = (Ok (Redirect (UrlFor "dashboard")), d1, s2)
    /\ In o (owner_table d1)
    /\ Owner.username o = Some "cleo"
    /\ Owner.email o = Some "cleo@example.com"
    /\ (forall req', authenticated req' o d1 s2).
Proof.
  cbv zeta.
  apply (register_then_login Sample.clock
           (Sample.post [("username", "cleo"); ("email", "cleo@example.com");
                         ("password", "pw"); ("phone", "555-0103")])
           (Sample.post [("email", "cleo@example.com"); ("password", "pw")])
           Sample.store ∅ "cleo" "cleo@example.com" "pw").
  - reflexivity.
  - vm_compute. reflexivity.
  - vm_compute. reflexivity.
  - vm_compute. reflexivity.
  - intros o [<-|[<-|[]]]; discriminate.
  - intros o [<-|[<-|[]]]; discriminate.
  - vm_compute. exact I.
  - unfold owner_pk. apply (bool_decide_unpack _). vm_compute. exact I.
  - unfold owner_email_unique. apply (bool_decide_unpack _). vm_compute. exact I.
  - reflexivity.
  - reflexivity.
  - vm_compute. reflexivity.
  - vm_compute. reflexivity.
  - vm_compute. reflexivity.
Defined.

(** *** The store across views *)

Lemma insert_extends now e d d' : Store.insert now e d = Ok d' -> extends d d'.
Proof.
  unfold extends. destruct e as [o|p|t|p]; simpl.
  - unfold Store.insert_owner. destruct (_ || _); [discriminate|].
    intros [= <-]. cbn. repeat split; try done. by apply prefix_app_r.
  - unfold Store.insert_property.
    destruct (Sql.bind_int (Property.bedrooms p)); [|discriminate].
    destruct (Sql.bind_int (Property.bathrooms p)); [|discriminate].
    destruct (Sql.bind_int (Property.owner_id p)); [|discriminate]. cbn [rbind].
    destruct (Sql.is_null (Property.name p)); [discriminate|].
    intros [= <-]. cbn. repeat split; try done. by apply prefix_app_r.
  - unfold Store.insert_tenant.
    destruct (Sql.bind_int (Tenant.property_id t)); [|discriminate]. cbn [rbind].
    destruct (_ || _); [discriminate|].
    intros [= <-]. cbn. repeat split; try done. by apply prefix_app_r.
  - unfold Store.insert_payment.
    destruct (Sql.bind_int (Payment.property_id p)); [|discriminate].
    destruct (Sql.bind_int (Payment.tenant_id p)); [|discriminate]. cbn [rbind].
    destruct (Sql.is_null _); [discriminate|].
    intros [= <-]. cbn. repeat split; try done. by apply prefix_app_r.
Qed.

Lemma extends_trans d1 d2 d3 : extends d1 d2 -> extends d2 d3 -> extends d1 d3.
Proof.
  unfold extends. intros (?&?&?&?&?&?) (?&?&?&?&?&?).
  repeat split; by etrans.
Qed.

Lemma extends_refl d : extends d d.
Proof. unfold extends. repeat split; done. Qed.

Lemma insert_keeps_keys now e d d' :
  Store.insert now e d = Ok d' -> keys_ok d -> keys_ok d'.
Proof.
  unfold keys_ok, owner_pk, property_pk, owner_email_unique.
  intros Hins (Ho & Hp & Ht & Hpay & Hem & Hun).
  destruct e as [o|p|t|p]; simpl in Hins.
  - unfold Store.insert_owner in Hins.
    destruct (Owner.username o) as [u|]; [|discriminate].
    destruct (Owner.email o) as [m|]; [|discriminate]. cbn [Sql.is_null orb] in Hins.
    destruct (Sql.taken (map Owner.username (owner_table d)) (Some u)) eqn:Hu;
      [discriminate|].
    destruct (Sql.taken (map Owner.email (owner_table d)) (Some m)) eqn:Hm;
      [discriminate|].
    injection Hins as <-. cbn [owner_table property_table tenant_table payment_table].
    rewrite !map_app. repeat split; try done.
    + apply NoDup_snoc; [done|]. apply next_rowid_fresh.
    + apply NoDup_snoc; [done|]. by apply taken_false.
    + apply NoDup_snoc; [done|]. by apply taken_false.
  - unfold Store.insert_property in Hins.
    destruct (Sql.bind_int (Property.bedrooms p)); [|discriminate].
    destruct (Sql.bind_int (Property.bathrooms p)); [|discriminate].
    destruct (Sql.bind_int (Property.owner_id p)); [|discriminate].
    cbn [rbind] in Hins.
    destruct (Sql.is_null (Property.name p)); [discriminate|].
    injection Hins as <-. cbn [owner_table property_table tenant_table payment_table].
    rewrite !map_app. repeat split; try done.
    apply NoDup_snoc; [done|]. apply next_rowid_fresh.
  - unfold Store.insert_tenant in Hins.
    destruct (Sql.bind_int (Tenant.property_id t)); [|discriminate].
    cbn [rbind] in Hins. destruct (_ || _); [discriminate|].
    injection Hins as <-. cbn [owner_table property_table tenant_table payment_table].
    rewrite !map_app. repeat split; try done.
    apply NoDup_snoc; [done|]. apply next_rowid_fresh.
  - unfold Store.insert_payment in Hins.
    destruct (Sql.bind_int (Payment.property_id p)); [|discriminate].
    destruct (Sql.bind_int (Payment.tenant_id p)); [|discriminate].
    cbn [rbind] in Hins. destruct (Sql.is_null _); [discriminate|].
    injection Hins as <-. cbn [owner_table property_table tenant_table payment_table].
    rewrite !map_app. repeat split; try done.
    apply NoDup_snoc; [done|]. apply next_rowid_fresh.
Qed.

Lemma Forall_serve (P : database -> database -> Prop) (views : list (M response)) :
  (forall d, Forall (invariant (P d)) views) ->
  (forall d, P d d) ->
  Forall (fun view => forall d s r d' s', serve view d s = (r, d', s') -> P d d') views.
Proof.
  intros Hinv Hrefl. apply Forall_forall. intros view Hin d s r d' s' Hrun.
  apply (serve_invariant (P d) view d s r d' s'); [|done|done].
  by apply (proj1 (Forall_forall _ _) (Hinv d)).
Qed.

(** X9: the views that only read. Whatever the request, the store and the
    session, and whether they answer or raise, [index], [login], [logout],
    [dashboard], the four list views, [reports], the reminder stub and
    [toggle_dark_mode] return the store exactly as they found it. *)
Theorem read_views_leave_store (env : environ) (req : request) :
  Forall (fun view =>
            forall d s r d' s', serve view d s = (r, d', s') -> d' = d)
         (read_views env req).
Proof.
  apply (Forall_serve (fun d d' => d' = d)); [|done].
  intros d. apply read_views_invariant.
Qed.

(** X10: a GET writes nothing. On a GET request no view at all, the four
    creating views included, changes the store. *)
Theorem get_never_writes (env : environ) (req : request) :
  method req = GET ->
  Forall (fun view =>
            forall d s r d' s', serve view d s = (r, d', s') -> d' = d)
         (read_views env req ++ write_views env req).
Proof.
  intros Hget. apply (Forall_serve (fun d d' => d' = d)); [|done].
  intros d. apply Forall_app. split; [apply read_views_invariant|].
  unfold write_views.
  repeat (apply Forall_cons; split); try (by apply Forall_nil);
    unfold register, add_property, add_tenant, add_payment;
    rewrite Hget; repeat invariant_step fail.
Qed.

Lemma get_never_writes_witness :
  Forall (fun view =>
            forall d s r d' s', serve view d s = (r, d', s') -> d' = d)
         (read_views Sample.clock (Sample.get_ "/add_property")
          ++ write_views Sample.clock (Sample.get_ "/add_property")).
Proof.
  apply (get_never_writes Sample.clock (Sample.get_ "/add_property")).
  reflexivity.
Defined.

(** X11: the store only grows. Whatever the request, the store and the
    session, and whether the view answers or raises, every table the view
    leaves starts with the rows it found, unchanged and in the same order:
    no view updates or deletes a row. *)
Theorem views_only_append (env : environ) (req : request) :
  Forall (fun view =>
            forall d s r d' s', serve view d s = (r, d', s') -> extends d d')
         (read_views env req ++ write_views env req).
Proof.
  apply (Forall_serve extends); [|apply extends_refl].
  intros d. apply Forall_app. split; [apply read_views_invariant|].
  apply write_views_invariant. intros now e d1 d2 Hins Hext.
  eapply extends_trans; [exact Hext|]. by eapply insert_extends.
Qed.

(** X12: the keys stay unique. If the ids of owners, properties, tenants
    and payments and the emails and user names of owners are unique in the
    store a view finds, they are unique in the store it leaves, whatever
    the request and the session and whether the view answers or raises. *)
Theorem views_keep_keys (env : environ) (req : request) :
  Forall (fun view =>
            forall d s r d' s',
              serve view d s = (r, d', s') -> keys_ok d -> keys_ok d')
         (read_views env req ++ write_views env req).
Proof.
  assert (Hall : Forall (invariant keys_ok)
                   (read_views env req ++ write_views env req)).
  { apply Forall_app. split; [apply read_views_invariant|].
    apply write_views_invariant. intros now e d1 d2. apply insert_keeps_keys. }
  apply Forall_forall. intros view Hin d s r d' s' Hrun.
  apply (serve_invariant keys_ok view d s r d' s'); [|done].
  by apply (proj1 (Forall_forall _ _) Hall).
Qed.

Example sample_keys_ok : keys_ok Sample.store.
Proof.
  unfold keys_ok, owner_pk, property_pk, owner_email_unique.
  repeat split; apply (bool_decide_unpack _); vm_compute; exact I.
Qed.

Lemma views_keep_keys_witness :
  let req := Sample.post [("name", "Loft"); ("monthly_rent", "950.5")] in
  keys_ok
    (snd (fst (serve (add_property Sample.clock req) Sample.store
                 Sample.session))).
Proof.
  cbv zeta.
  destruct (serve (add_property Sample.clock
                     (Sample.post [("name", "Loft"); ("monthly_rent", "950.5")]))
              Sample.store Sample.session) as [[r d'] s'] eqn:E.
  cbn [fst snd].
  refine (proj1 (List.Forall_forall _ _)
            (views_keep_keys Sample.clock
               (Sample.post [("name", "Loft"); ("monthly_rent", "950.5")]))
            _ _ Sample.store Sample.session r d' s' E sample_keys_ok).
  apply in_or_app. right. right. left. reflexivity.
Defined.

(** *** Lists and the dashboard *)

Lemma owned_byb_spec d fk uid : owned_byb d fk uid = true <-> owned_by d fk uid.
Proof.
  unfold owned_byb, owned_by. rewrite existsb_exists. split.
  - intros (p & Hp & H). apply andb_true_iff in H as [H1 H2].
    apply eq_int_true in H1, H2. eauto.
  - intros (p & Hp & H1 & H2). exists p. split; [done|].
    apply andb_true_iff. split; by apply eq_int_true.
Qed.

(** Under the primary key a foreign key matches at most one property. *)
Lemma matching_property (props : list Property.t) fk :
  NoDup (map Property.id props) ->
  List.filter (fun p => Sql.eq_int fk (Property.id p)) props = []
  \/ exists p, List.filter (fun p => Sql.eq_int fk (Property.id p)) props = [p].
Proof.
  induction props as [|x props IH]; [by left|]. simpl.
  intros Hnd. apply NoDup_cons in Hnd as [Hx Hnd].
  destruct (Sql.eq_int fk (Property.id x)) eqn:E; [|by apply IH].
  right. exists x. f_equal. apply nil_of_no_member. intros y Hy.
  apply filter_In in Hy as [Hy Hfk]. apply eq_int_true in E, Hfk.
  apply Hx. assert (Property.id x = Property.id y) as -> by congruence.
  apply list_elem_of_In. by apply in_map.
Qed.

(** With unique property ids the join lists each row of the owner once, in
    table order. *)
Lemma join_owned_filter {X : Type} (fk : X -> option Z) extra uid rows d :
  property_pk d ->
  Sql.join_owned fk extra uid rows (property_table d)
  = List.filter (fun r => owned_byb d (fk r) uid && extra r) rows.
Proof.
  intros Hpk. unfold Sql.join_owned, Sql.join, owned_byb.
  induction rows as [|r rows IH]; [done|].
  cbn [flat_map List.filter]. rewrite List.filter_app, List.map_app, IH. clear IH.
  destruct (matching_property (property_table d) (fk r) Hpk) as [E|[p E]].
  - rewrite E. cbn [map List.filter app].
    replace (existsb _ (property_table d)) with false; [done|].
    symmetry. apply not_true_is_false. intros H.
    apply existsb_exists in H as (p & Hp & H). apply andb_true_iff in H as [H1 _].
    assert (Hin : In p (List.filter (fun p0 => Sql.eq_int (fk r) (Property.id p0))
                          (property_table d))) by by apply filter_In.
    by rewrite E in Hin.
  - rewrite E. cbn [map List.filter fst snd app].
    assert (Hp : In p (List.filter (fun p0 => Sql.eq_int (fk r) (Property.id p0))
                         (property_table d))) by (rewrite E; by left).
    apply filter_In in Hp as [Hp Hfk].
    destruct (Sql.eq_int (Property.owner_id p) uid) eqn:Ho.
    + replace (existsb _ (property_table d)) with true.
      * cbn [andb]. by destruct (extra r).
      * symmetry. apply existsb_exists. exists p. by rewrite Hfk, Ho.
    + replace (existsb _ (property_table d)) with false; [done|].
      symmetry. apply not_true_is_false. intros H.
      apply existsb_exists in H as (q & Hq & H). apply andb_true_iff in H as [H1 H2].
      assert (Hin : In q (List.filter (fun p0 => Sql.eq_int (fk r) (Property.id p0))
                            (property_table d))) by by apply filter_In.
      rewrite E in Hin. destruct Hin as [->|[]]. congruence.
Qed.

Lemma join_owned_extra {X : Type} (fk : X -> option Z) extra uid rows props :
  Sql.join_owned fk extra uid rows props
  = List.filter extra (Sql.join_owned fk (fun _ => true) uid rows props).
Proof.
  unfold Sql.join_owned. generalize (Sql.join fk rows props). intros J.
  induction J as [|[r p] J IH]; [done|]. cbn [List.filter fst snd].
  destruct (Sql.eq_int (Property.owner_id p) uid); cbn [andb]; [|done].
  destruct (extra r) eqn:E; cbn [map fst List.filter]; rewrite ?E; by rewrite IH.
Qed.

(** A guarded view that reads the store and renders. *)
Lemma render_under_login req name (ctx : Owner.t -> database -> context) d s A :
  authenticated req A d s ->
  serve (login_required req (fun u =>
           d0 <- gets db ;;
           render_template req (Some (Some u)) name (ctx u d0))) d s
  = (Ok (RenderTemplate name (ctx A d) (default (SBool false) (s !! "dark_mode"))),
     d, protect req s).
Proof.
  intros Hauth. unfold serve.
  rewrite (login_required_authenticated _ _ _ _ _ Hauth).
  unfold bind, gets, render_template, user_context_processor, inject_theme,
      session_get, bind, gets, ret.
  cbn [session db]. by rewrite protect_lookup_ne.
Qed.

(** X13: what the list views show, and in which order. With unique
    property ids, [/tenants] renders the tenants of the owner's properties
    once each and in table order; [/payments] and [/expenses] render the
    owner's payments and expenses once each (a permutation of the owner's
    rows of the table), latest date first. *)
Theorem list_views_order (req : request) (d : database)
    (s : gmap string sval) (A : Owner.t) :
  authenticated req A d s ->
  property_pk d ->
  exists ts pays exps dark,
    serve (tenants req) d s
    = (Ok (RenderTemplate "tenants.html" (WithTenants ts) dark), d, protect req s)
    /\ serve (payments req) d s
       = (Ok (RenderTemplate "payments.html" (WithPayments pays) dark), d, protect req s)
    /\ serve (expenses req) d s
       = (Ok (RenderTemplate "expenses.html" (WithExpenses exps) dark), d, protect req s)
    /\ ts = List.filter (fun t => owned_byb d (Tenant.property_id t) (Owner.id A))
              (tenant_table d)
    /\ Permutation pays
         (List.filter (fun p => owned_byb d (Payment.property_id p) (Owner.id A))
            (payment_table d))
    /\ StronglySorted
         (fun p q => Sql.null_date_leb (Payment.payment_date q) (Payment.payment_date p) = true)
         pays
    /\ Permutation exps
         (List.filter (fun e => owned_byb d (Expense.property_id e) (Owner.id A))
            (expense_table d))
    /\ StronglySorted
         (fun e f => Sql.null_date_leb (Expense.expense_date f) (Expense.expense_date e) = true)
         exps.
Proof.
  intros Hauth Hpk. do 4 eexists.
  split.
  { apply (render_under_login req "tenants.html" (fun u d0 =>
      WithTenants (Sql.join_owned Tenant.property_id (fun _ => true)
                     (Owner.id u) (tenant_table d0) (property_table d0)))).
    exact Hauth. }
  split.
  { apply (render_under_login req "payments.html" (fun u d0 =>
      WithPayments (Sql.order_by_desc Payment.payment_date
        (Sql.join_owned Payment.property_id (fun _ => true)
           (Owner.id u) (payment_table d0) (property_table d0))))).
    exact Hauth. }
  split.
  { apply (render_under_login req "expenses.html" (fun u d0 =>
      WithExpenses (Sql.order_by_desc Expense.expense_date
        (Sql.join_owned Expense.property_id (fun _ => true)
           (Owner.id u) (expense_table d0) (property_table d0))))).
    exact Hauth. }
  assert (Hsorted : forall (X : Type) (key : X -> option date) l,
    StronglySorted (Sql.desc key) l ->
    StronglySorted (fun x y => Sql.null_date_leb (key y) (key x) = true) l).
  { intros X key l Hs. induction Hs as [|x l Hs IH Hx]; constructor; [done|].
    eapply Forall_impl; [exact Hx|]. intros y Hy. by apply Is_true_true. }
  cbv beta. rewrite !join_owned_filter by done.
  split.
  { apply filter_ext. intros t. by rewrite andb_true_r. }
  split.
  { rewrite order_by_desc_Permutation.
    erewrite filter_ext; [reflexivity|]. intros p. by rewrite andb_true_r. }
  split; [apply Hsorted, order_by_desc_sorted|].
  split; [|apply Hsorted, order_by_desc_sorted].
  rewrite order_by_desc_Permutation.
  erewrite filter_ext; [reflexivity|]. intros p. by rewrite andb_true_r.
Qed.

Lemma list_views_order_witness :
  exists ts pays exps dark,
    serve (tenants (Sample.get_ "/tenants")) Sample.store Sample.session
    = (Ok (RenderTemplate "tenants.html" (WithTenants ts) dark),
       Sample.store, protect (Sample.get_ "/tenants") Sample.session)
    /\ serve (payments (Sample.get_ "/tenants")) Sample.store Sample.session
       = (Ok (RenderTemplate "payments.html" (WithPayments pays) dark),
          Sample.store, protect (Sample.get_ "/tenants") Sample.session)
    /\ serve (expenses (Sample.get_ "/tenants")) Sample.store Sample.session
       = (Ok (RenderTemplate "expenses.html" (WithExpenses exps) dark),
          Sample.store, protect (Sample.get_ "/tenants") Sample.session)
    /\ ts = List.filter
              (fun t => owned_byb Sample.store (Tenant.property_id t) (Owner.id Sample.asha))
              (tenant_table Sample.store)
    /\ Permutation pays
         (List.filter
            (fun p => owned_byb Sample.store (Payment.property_id p) (Owner.id Sample.asha))
            (payment_table Sample.store))
    /\ StronglySorted
         (fun p q => Sql.null_date_leb (Payment.payment_date q) (Payment.payment_date p) = true)
         pays
    /\ Permutation exps
         (List.filter
            (fun e => owned_byb Sample.store (Expense.property_id e) (Owner.id Sample.asha))
            (expense_table Sample.store))
    /\ StronglySorted
         (fun e f => Sql.null_date_leb (Expense.expense_date f) (Expense.expense_date e) = true)
         exps.
Proof.
  apply (list_views_order (Sample.get_ "/tenants") Sample.store Sample.session
           Sample.asha).
  - apply sample_authenticated.
  - apply sample_property_pk.
Defined.

(** X14: the dashboard agrees with the list views. For an authenticated
    owner, [total_properties] is the number of rows [/properties] shows,
    [active_tenants] the number of rows of [/tenants] whose [is_active] is
    true, and [recent_payments] the first five rows of [/payments]. *)
Theorem dashboard_agrees_with_lists (req : request) (d : database)
    (s : gmap string sval) (A : Owner.t) :
  authenticated req A d s ->
  exists st ps ts pays dark,
    serve (dashboard req) d s
    = (Ok (RenderTemplate "dashboard.html" (WithStats st) dark), d, protect req s)
    /\ serve (properties req) d s
       = (Ok (RenderTemplate "properties.html" (WithProperties ps) dark), d, protect req s)
    /\ serve (tenants req) d s
       = (Ok (RenderTemplate "tenants.html" (WithTenants ts) dark), d, protect req s)
    /\ serve (payments req) d s
       = (Ok (RenderTemplate "payments.html" (WithPayments pays) dark), d, protect req s)
    /\ total_properties st = length ps
    /\ active_tenants st
       = length (List.filter (fun t => Sql.eq_true (Tenant.is_active t)) ts)
    /\ recent_payments st = take 5 pays.
Proof.
  intros Hauth. do 5 eexists.
  split; [by apply dashboard_run|].
  split.
  { apply (render_under_login req "properties.html" (fun u d0 =>
      WithProperties (Sql.properties_of (Owner.id u) (property_table d0)))).
    exact Hauth. }
  split.
  { apply (render_under_login req "tenants.html" (fun u d0 =>
      WithTenants (Sql.join_owned Tenant.property_id (fun _ => true)
                     (Owner.id u) (tenant_table d0) (property_table d0)))).
    exact Hauth. }
  split.
  { apply (render_under_login req "payments.html" (fun u d0 =>
      WithPayments (Sql.order_by_desc Payment.payment_date
        (Sql.join_owned Payment.property_id (fun _ => true)
           (Owner.id u) (payment_table d0) (property_table d0))))).
    exact Hauth. }
  cbn [total_properties active_tenants recent_payments].
  split; [done|]. split; [|done].
  by rewrite (join_owned_extra _ (fun t => Sql.eq_true (Tenant.is_active t))).
Qed.

Lemma dashboard_agrees_with_lists_witness :
  exists st ps ts pays dark,
    serve (dashboard (Sample.get_ "/dashboard")) Sample.store Sample.session
    = (Ok (RenderTemplate "dashboard.html" (WithStats st) dark),
       Sample.store, protect (Sample.get_ "/dashboard") Sample.session)
    /\ serve (properties (Sample.get_ "/dashboard")) Sample.store Sample.session
       = (Ok (RenderTemplate "properties.html" (WithProperties ps) dark),
          Sample.store, protect (Sample.get_ "/dashboard") Sample.session)
    /\ serve (tenants (Sample.get_ "/dashboard")) Sample.store Sample.session
       = (Ok (RenderTemplate "tenants.html" (WithTenants ts) dark),
          Sample.store, protect (Sample.get_ "/dashboard") Sample.session)
    /\ serve (payments (Sample.get_ "/dashboard")) Sample.store Sample.session
       = (Ok (RenderTemplate "payments.html" (WithPayments pays) dark),
          Sample.store, protect (Sample.get_ "/dashboard") Sample.session)
    /\ total_properties st = length ps
    /\ active_tenants st
       = length (List.filter (fun t => Sql.eq_true (Tenant.is_active t)) ts)
    /\ recent_payments st = take 5 pays.
Proof.
  apply (dashboard_agrees_with_lists (Sample.get_ "/dashboard") Sample.store
           Sample.session Sample.asha).
  apply sample_authenticated.
Defined.

(** *** Creating rows *)

Lemma authenticated_same_owners req A d d' s :
  owner_table d' = owner_table d -> authenticated req A d s -> authenticated req A d' s.
Proof.
  intros Ho. unfold authenticated. rewrite !current_user_run.
  destruct (s !! "_user_id") as [v|]; [|done].
  unfold load_user, bind, lift, gets, owner_get. cbn [db].
  destruct (value_of_sval v) as [pv|]; [|discriminate].
  destruct (Py.int pv) as [pk|]; [|discriminate].
  destruct (Sql.bind_int (Some pk)); [|discriminate]. cbn [rbind].
  rewrite Ho. by intros [= ->].
Qed.

(** X15: a new property shows up in its owner's list only. After a POST to
    [/add_property] that succeeds for the owner [A], [/properties] shows
    [A] the rows of [A] that were in the table before, followed by the new
    row, and shows any other owner [B] exactly the rows of [B] that were
    in the table before. *)
Theorem add_property_then_listed (env : environ) (req : request)
    (d : database) (s : gmap string sval) (A : Owner.t) (n : string)
    (b ba : Z) (ar mr : float) :
  authenticated req A d s ->
  method req = POST ->
  flashes_ok s ->
  form req !! "name" = Some n ->
  int_field req "bedrooms" b -> Sql.in_int64 b = true ->
  int_field req "bathrooms" ba -> Sql.in_int64 ba = true ->
  float_field req "area_sqft" ar ->
  float_field req "monthly_rent" mr ->
  exists d' s' row,
    serve (add_property env req) d s = (Ok (Redirect (UrlFor "properties")), d', s')
    /\ Property.name row = Some n
    /\ Property.owner_id row = Some (Owner.id A)
    /\ (forall req1 s1,
          authenticated req1 A d s1 ->
          exists dark,
            serve (properties req1) d' s1
            = (Ok (RenderTemplate "properties.html"
                     (WithProperties
                        (Sql.properties_of (Owner.id A) (property_table d) ++ [row]))
                     dark), d', protect req1 s1))
    /\ (forall req1 s1 B,
          Owner.id B <> Owner.id A ->
          authenticated req1 B d s1 ->
          exists dark,
            serve (properties req1) d' s1
            = (Ok (RenderTemplate "properties.html"
                     (WithProperties (Sql.properties_of (Owner.id B) (property_table d)))
                     dark), d', protect req1 s1)).
Proof.
  intros Hauth Hpost Hf Hn Hb Hbr Hba Hbar Har Hmr.
  set (row := Property.mk (Sql.next_rowid (map Property.id (property_table d)))
                (Some n) (form req !! "address") (form req !! "property_type")
                (Some b) (Some ba) (Sql.bind_real (Some ar)) (Sql.bind_real (Some mr))
                (Some (Owner.id A)) (Some (utcnow env))).
  set (d' := mk_database (owner_table d) (property_table d ++ [row])
               (tenant_table d) (payment_table d) (expense_table d)
               (maintenance_request_table d)).
  exists d', (with_flash "success" "Property added successfully!" (protect req s)), row.
  split.
  { apply (add_property_run env req d s A n b ba ar mr); auto using
      int_field_run, float_field_run. }
  split; [reflexivity|]. split; [reflexivity|].
  assert (Hrun : forall req1 s1 B,
    authenticated req1 B d s1 ->
    serve (properties req1) d' s1
    = (Ok (RenderTemplate "properties.html"
             (WithProperties (Sql.properties_of (Owner.id B) (property_table d')))
             (default (SBool false) (s1 !! "dark_mode"))), d', protect req1 s1)).
  { intros req1 s1 B HB.
    apply (render_under_login req1 "properties.html" (fun u d0 =>
      WithProperties (Sql.properties_of (Owner.id u) (property_table d0)))).
    by apply (authenticated_same_owners _ _ d). }
  split.
  - intros req1 s1 HA. eexists. rewrite (Hrun _ _ _ HA).
    cbn [d' property_table]. unfold Sql.properties_of at 1.
    rewrite List.filter_app. cbn [List.filter row Property.owner_id Sql.eq_int].
    by rewrite Z.eqb_refl.
  - intros req1 s1 B HB HBauth. eexists. rewrite (Hrun _ _ _ HBauth).
    cbn [d' property_table]. unfold Sql.properties_of at 1.
    rewrite List.filter_app. cbn [List.filter row Property.owner_id Sql.eq_int].
    destruct (Z.eqb_spec (Owner.id A) (Owner.id B)) as [E|_]; [by destruct HB|].
    by rewrite app_nil_r.
Qed.

Lemma add_property_then_listed_witness :
  let req := Sample.post [("name", "Loft"); ("monthly_rent", "950.5")] in
  exists d' s' row,
    serve (add_property Sample.clock req) Sample.store Sample.session
    = (Ok (Redirect (UrlFor "properties")), d', s')
    /\ Property.name row = Some "Loft"
    /\ Property.owner_id row = Some (Owner.id Sample.asha)
    /\ (forall req1 s1,
          authenticated req1 Sample.asha Sample.store s1 ->
          exists dark,
            serve (properties req1) d' s1
            = (Ok (RenderTemplate "properties.html"
                     (WithProperties
                        (Sql.properties_of (Owner.id Sample.asha)
                           (property_table Sample.store) ++ [row]))
                     dark), d', protect req1 s1))
    /\ (forall req1 s1 B,
          Owner.id B <> Owner.id Sample.asha ->
          authenticated req1 B Sample.store s1 ->
          exists dark,
            serve (properties req1) d' s1
            = (Ok (RenderTemplate "properties.html"
                     (WithProperties
                        (Sql.properties_of (Owner.id B) (property_table Sample.store)))
                     dark), d', protect req1 s1)).
Proof.
  cbv zeta.
  apply (add_property_then_listed Sample.clock
           (Sample.post [("name", "Loft"); ("monthly_rent", "950.5")])
           Sample.store Sample.session Sample.asha "Loft" 0 0 0%float 950.5%float).
  - apply sample_authenticated.
  - reflexivity.
  - vm_compute. exact I.
  - vm_compute. reflexivity.
  - vm_compute. reflexivity.
  - reflexivity.
  - vm_compute. reflexivity.
  - reflexivity.
  - vm_compute. reflexivity.
  - vm_compute. reflexivity.
Defined.

(** X16: [add_payment] records what is submitted. For an authenticated
    owner, a POST to [/add_payment] whose [property_id] and [tenant_id]
    convert to integers within 64 bits, whose [amount] converts to a
    number that is not NaN and whose [payment_date] has the form
    YYYY-MM-DD appends one Payment row with those ids and that date, the
    amount as [float] read it, sign included (but 0.0 for -0.0, whose
    sign SQLite does not keep), and the status "completed"; it changes no
    other table.  Neither id is compared with the properties or tenants
    of the owner, or of anybody. *)
Theorem add_payment_records (env : environ) (req : request) (d : database)
    (s : gmap string sval) (A : Owner.t) (ptxt ttxt atxt : string)
    (P T : Z) (amount : float) (day : date) :
  authenticated req A d s ->
  method req = POST ->
  flashes_ok s ->
  form req !! "property_id" = Some ptxt -> Py.int_of_string ptxt = Some P ->
  Sql.in_int64 P = true ->
  form req !! "tenant_id" = Some ttxt -> Py.int_of_string ttxt = Some T ->
  Sql.in_int64 T = true ->
  form req !! "amount" = Some atxt -> Py.float_of_string atxt = Some amount ->
  is_nan amount = false ->
  Strptime.date_of (form_get req "payment_date") = Ok day ->
  exists d' row,
    serve (add_payment env req) d s
    = (Ok (Redirect (UrlFor "payments")), d',
       with_flash "success" "Payment recorded successfully!" (protect req s))
    /\ payment_table d' = (payment_table d ++ [row])%list
    /\ Payment.property_id row = Some P
    /\ Payment.tenant_id row = Some T
    /\ Payment.amount row = Some (if is_zero amount then 0%float else amount)
    /\ Payment.payment_date row = Some day
    /\ Payment.status row = Some "completed"
    /\ Payment.id row = Sql.next_rowid (map Payment.id (payment_table d))
    /\ owner_table d' = owner_table d
    /\ property_table d' = property_table d
    /\ tenant_table d' = tenant_table d
    /\ expense_table d' = expense_table d
    /\ maintenance_request_table d' = maintenance_request_table d.
Proof.
  intros Hauth Hpost Hf Hp HP HP64 Ht HT HT64 Ha HA Hnan Hday.
  exists (mk_database (owner_table d) (property_table d) (tenant_table d)
            (payment_table d ++
             [Payment.mk (Sql.next_rowid (map Payment.id (payment_table d)))
                (Some P) (Some T)
                (Some (if is_zero amount then 0%float else amount)) (Some day)
                (form req !! "payment_method") (form req !! "payment_type")
                (Some "completed") (form req !! "notes")])
            (expense_table d) (maintenance_request_table d)).
  eexists. split; [|cbn; repeat split; reflexivity].
  assert (Hreal : Sql.bind_real (Some amount)
                  = Some (if is_zero amount then 0%float else amount)).
  { cbn [Sql.bind_real]. rewrite Hnan. by destruct (is_zero amount). }
  unfold serve, add_payment.
  rewrite (login_required_authenticated _ _ _ _ _ Hauth), Hpost.
  rewrite (bind_lift_ok _ _ P).
  2:{ unfold form_get. rewrite Hp. simpl. by rewrite HP. }
  rewrite (bind_lift_ok _ _ T).
  2:{ unfold form_get. rewrite Ht. simpl. by rewrite HT. }
  rewrite (bind_lift_ok _ _ amount).
  2:{ unfold form_get. rewrite Ha. simpl. by rewrite HA. }
  rewrite (bind_lift_ok _ _ _ _ Hday).
  unfold bind, db_session_add, db_session_commit, modify, form_text.
  cbn [pending db session set_pending set_db app Store.flush Store.insert].
  unfold Store.insert_payment. cbn [Payment.property_id Payment.tenant_id
    Payment.amount Payment.payment_date Payment.payment_method
    Payment.payment_type Payment.status Payment.notes].
  rewrite (bind_int_ok _ HP64), (bind_int_ok _ HT64).
  rewrite Hreal. cbn [rbind Sql.is_null Sql.default]. unfold set_pending, set_db.
  cbn [pending db session]. by rewrite flash_ok by by apply protect_flashes_ok.
Qed.

Lemma add_payment_records_witness :
  let req := Sample.post [("property_id", "7"); ("tenant_id", "2");
                          ("amount", "-3500.50"); ("payment_date", "2024-06-01");
                          ("payment_method", "cash")] in
  exists d' row,
    serve (add_payment Sample.clock req) Sample.store Sample.session
    = (Ok (Redirect (UrlFor "payments")), d',
       with_flash "success" "Payment recorded successfully!" (protect req Sample.session))
    /\ payment_table d' = (payment_table Sample.store ++ [row])%list
    /\ Payment.property_id row = Some 7
    /\ Payment.tenant_id row = Some 2
    /\ Payment.amount row = Some (-3500.5)%float
    /\ Payment.payment_date row = Some (mk_date 2024 6 1)
    /\ Payment.status row = Some "completed"
    /\ Payment.id row = Sql.next_rowid (map Payment.id (payment_table Sample.store))
    /\ owner_table d' = owner_table Sample.store
    /\ property_table d' = property_table Sample.store
    /\ tenant_table d' = tenant_table Sample.store
    /\ expense_table d' = expense_table Sample.store
    /\ maintenance_request_table d' = maintenance_request_table Sample.store.
Proof.
  cbv zeta.
  apply (add_payment_records Sample.clock
           (Sample.post [("property_id", "7"); ("tenant_id", "2");
                         ("amount", "-3500.50"); ("payment_date", "2024-06-01");
                         ("payment_method", "cash")])
           Sample.store Sample.session Sample.asha "7" "2" "-3500.50" 7 2 (-3500.5)%float
           (mk_date 2024 6 1)).
  - apply sample_authenticated.
  - reflexivity.
  - vm_compute. exact I.
  - vm_compute. reflexivity.
  - vm_compute. reflexivity.
  - reflexivity.
  - vm_compute. reflexivity.
  - vm_compute. reflexivity.
  - reflexivity.
  - vm_compute. reflexivity.
  - vm_compute. reflexivity.
  - vm_compute. reflexivity.
  - vm_compute. reflexivity.
Defined.

(** Conversions of a field read without a default raise [TypeError] when
    the field is absent and nothing but [ValueError] otherwise. *)
Lemma int_required req key :
  (exists z, Py.int (form_get req key) = Ok z /\ form req !! key <> None)
  \/ (Py.int (form_get req key) = Raise ValueError /\ form req !! key <> None)
  \/ (Py.int (form_get req key) = Raise TypeError /\ form req !! key = None).
Proof.
  unfold form_get. destruct (form req !! key) as [txt|]; simpl; [|by auto].
  destruct (Py.int_of_string txt); [left|right; left]; eauto.
Qed.

Lemma float_required req key :
  (exists f, Py.float (form_get req key) = Ok f /\ form req !! key <> None)
  \/ (Py.float (form_get req key) = Raise ValueError /\ form req !! key <> None)
  \/ (Py.float (form_get req key) = Raise TypeError /\ form req !! key = None).
Proof.
  unfold form_get. destruct (form req !! key) as [txt|]; simpl; [|by auto].
  destruct (Py.float_of_string txt); [left|right; left]; eauto.
Qed.

Lemma date_required req key :
  (exists f, Strptime.date_of (form_get req key) = Ok f /\ form req !! key <> None)
  \/ (Strptime.date_of (form_get req key) = Raise ValueError /\ form req !! key <> None)
  \/ (Strptime.date_of (form_get req key) = Raise TypeError /\ form req !! key = None).
Proof.
  unfold form_get. destruct (form req !! key) as [txt|]; simpl; [|by auto].
  destruct (Strptime.matches _) as [|[[[y m] dd] [|c rest]] l];
    [by auto| |by auto].
  destruct (Strptime.valid_date y m dd); [left|right; left]; eauto.
Qed.

(** Steps over one required conversion: it succeeds, or the view ends in
    the goal's shape. *)
Ltac required_step H :=
  destruct H as [(? & H & ?)|[[H ?]|[H ?]]];
  [ rewrite (bind_lift_ok _ _ _ _ H)
  | rewrite (bind_lift_raise _ _ _ _ H); eauto
  | rewrite (bind_lift_raise _ _ _ _ H); eauto ].

(** X17: [add_payment] needs all four of its converted fields. For an
    authenticated owner, a POST to [/add_payment] that lacks [property_id],
    [tenant_id], [amount] or [payment_date] ends in an unhandled
    [TypeError] (or in the [ValueError] of a field converted before the
    missing one); no payment is stored and nothing is flashed.  Unlike the
    numeric fields of [/add_property], none of these has a default. *)
Theorem add_payment_missing_field (env : environ) (req : request)
    (d : database) (s : gmap string sval) (A : Owner.t) :
  authenticated req A d s ->
  method req = POST ->
  form req !! "property_id" = None \/ form req !! "tenant_id" = None
  \/ form req !! "amount" = None \/ form req !! "payment_date" = None ->
  exists e,
    serve (add_payment env req) d s = (Raise e, d, protect req s)
    /\ (e = TypeError \/ e = ValueError)
    /\ (form req !! "property_id" = None -> e = TypeError).
Proof.
  intros Hauth Hpost Hmiss. unfold serve, add_payment.
  rewrite (login_required_authenticated _ _ _ _ _ Hauth), Hpost.
  pose proof (int_required req "property_id") as H1.
  pose proof (int_required req "tenant_id") as H2.
  pose proof (float_required req "amount") as H3.
  pose proof (date_required req "payment_date") as H4.
  required_step H1; [|by eexists; split; [reflexivity|]; split; [auto|]..].
  required_step H2; [|by eexists; split; [reflexivity|]; split; [auto|]..].
  required_step H3; [|by eexists; split; [reflexivity|]; split; [auto|]..].
  required_step H4; [|by eexists; split; [reflexivity|]; split; [auto|]..].
  exfalso. intuition.
Qed.

Lemma add_payment_missing_field_witness :
  let req := Sample.post [("tenant_id", "1"); ("amount", "1200");
                          ("payment_date", "2024-06-01")] in
  exists e,
    serve (add_payment Sample.clock req) Sample.store Sample.session
    = (Raise e, Sample.store, protect req Sample.session)
    /\ (e = TypeError \/ e = ValueError)
    /\ (form req !! "property_id" = None -> e = TypeError).
Proof.
  cbv zeta.
  apply (add_payment_missing_field Sample.clock
           (Sample.post [("tenant_id", "1"); ("amount", "1200");
                         ("payment_date", "2024-06-01")])
           Sample.store Sample.session Sample.asha).
  - apply sample_authenticated.
  - reflexivity.
  - left. vm_compute. reflexivity.
Defined.

(** X18: [add_tenant] needs its lease dates and its property. For an
    authenticated owner, a POST to [/add_tenant] that lacks [lease_start],
    [lease_end] or [property_id] ends in an unhandled [TypeError] (or in
    the [ValueError] of a field converted before the missing one); no
    tenant is stored and nothing is flashed. *)
Theorem add_tenant_missing_field (env : environ) (req : request)
    (d : database) (s : gmap string sval) (A : Owner.t) :
  authenticated req A d s ->
  method req = POST ->
  form req !! "lease_start" = None \/ form req !! "lease_end" = None
  \/ form req !! "property_id" = None ->
  exists e,
    serve (add_tenant env req) d s = (Raise e, d, protect req s)
    /\ (e = TypeError \/ e = ValueError)
    /\ (form req !! "lease_start" = None -> e = TypeError).
Proof.
  intros Hauth Hpost Hmiss. unfold serve, add_tenant.
  rewrite (login_required_authenticated _ _ _ _ _ Hauth), Hpost.
  pose proof (date_required req "lease_start") as H1.
  pose proof (date_required req "lease_end") as H2.
  pose proof (int_required req "property_id") as H4.
  required_step H1; [|by eexists; split; [reflexivity|]; split; [auto|]..].
  required_step H2; [|by eexists; split; [reflexivity|]; split; [auto|]..].
  destruct (float_or_value_error req "security_deposit") as [[dep H3]|H3];
    [rewrite (bind_lift_ok _ _ _ _ H3)
    |rewrite (bind_lift_raise _ _ _ _ H3);
     eexists; split; [reflexivity|]; split; [auto|]; intros; congruence].
  required_step H4; [|by eexists; split; [reflexivity|]; split; [auto|]..].
  exfalso. intuition.
Qed.

Lemma add_tenant_missing_field_witness :
  let req := Sample.post [("name", "Nil"); ("phone", "555-0142");
                          ("lease_start", "2024-07-01"); ("lease_end", "2025-06-30")] in
  exists e,
    serve (add_tenant Sample.clock req) Sample.store Sample.session
    = (Raise e, Sample.store, protect req Sample.session)
    /\ (e = TypeError \/ e = ValueError)
    /\ (form req !! "lease_start" = None -> e = TypeError).
Proof.
  cbv zeta.
  apply (add_tenant_missing_field Sample.clock
           (Sample.post [("name", "Nil"); ("phone", "555-0142");
                         ("lease_start", "2024-07-01"); ("lease_end", "2025-06-30")])
           Sample.store Sample.session Sample.asha).
  - apply sample_authenticated.
  - reflexivity.
  - right. right. vm_compute. reflexivity.
Defined.

(** X19: the creation forms offer the caller's properties only. On a GET,
    [/add_tenant] and [/add_payment] render their form with exactly the
    properties whose [owner_id] is the authenticated owner's id, in table
    order, and write nothing. *)
Theorem creation_forms_offer_own_properties (env : environ) (req : request)
    (d : database) (s : gmap string sval) (A : Owner.t) :
  authenticated req A d s ->
  method req = GET ->
  exists ps dark,
    serve (add_tenant env req) d s
    = (Ok (RenderTemplate "add_tenant.html" (WithProperties ps) dark), d, protect req s)
    /\ serve (add_payment env req) d s
       = (Ok (RenderTemplate "add_payment.html" (WithProperties ps) dark), d, protect req s)
    /\ ps = List.filter (fun p => Sql.eq_int (Property.owner_id p) (Owner.id A))
              (property_table d)
    /\ (forall p, In p ps <->
          In p (property_table d) /\ Property.owner_id p = Some (Owner.id A)).
Proof.
  intros Hauth Hget.
  exists (Sql.properties_of (Owner.id A) (property_table d)),
    (default (SBool false) (s !! "dark_mode")).
  split.
  { unfold add_tenant. rewrite Hget.
    apply (render_under_login req "add_tenant.html" (fun u d0 =>
      WithProperties (Sql.properties_of (Owner.id u) (property_table d0)))).
    exact Hauth. }
  split.
  { unfold add_payment. rewrite Hget.
    apply (render_under_login req "add_payment.html" (fun u d0 =>
      WithProperties (Sql.properties_of (Owner.id u) (property_table d0)))).
    exact Hauth. }
  split; [reflexivity|]. intros p. apply in_properties_of.
Qed.

Lemma creation_forms_offer_own_properties_witness :
  exists ps dark,
    serve (add_tenant Sample.clock (Sample.get_ "/add_tenant")) Sample.store Sample.session
    = (Ok (RenderTemplate "add_tenant.html" (WithProperties ps) dark),
       Sample.store, protect (Sample.get_ "/add_tenant") Sample.session)
    /\ serve (add_payment Sample.clock (Sample.get_ "/add_tenant")) Sample.store
         Sample.session
       = (Ok (RenderTemplate "add_payment.html" (WithProperties ps) dark),
          Sample.store, protect (Sample.get_ "/add_tenant") Sample.session)
    /\ ps = List.filter
              (fun p => Sql.eq_int (Property.owner_id p) (Owner.id Sample.asha))
              (property_table Sample.store)
    /\ (forall p, In p ps <->
          In p (property_table Sample.store)
          /\ Property.owner_id p = Some (Owner.id Sample.asha)).
Proof.
  apply (creation_forms_offer_own_properties Sample.clock (Sample.get_ "/add_tenant")
           Sample.store Sample.session Sample.asha).
  - apply sample_authenticated.
  - reflexivity.
Defined.

(** *** The landing page and the theme *)

Lemma find_existsb {X : Type} (f : X -> bool) l :
  existsb f l = match List.find f l with Some _ => true | None => false end.
Proof.
  induction l as [|x l IH]; [done|]. cbn [existsb List.find].
  by destruct (f x).
Qed.

(** X20: [index] sends a logged-in owner to the dashboard and shows the
    landing page to anybody else. A session without [_user_id], and a
    session whose [_user_id] is the text of an id that no owner row has,
    both get the landing page, drawn with the session's theme; a session
    whose [_user_id] is the id of an owner row gets the redirect.  The
    store is never written. *)
Theorem index_dispatch (req : request) (d : database) (s : gmap string sval)
    (uid : option Z) :
  s !! "_user_id" = option_map (fun z => SStr (str_of_int z)) uid ->
  (forall z, uid = Some z -> Sql.in_int64 z = true) ->
  serve (index req) d s
  = (Ok (if match uid with
            | Some z => existsb (fun o => Owner.id o =? z) (owner_table d)
            | None => false
            end
         then Redirect (UrlFor "dashboard")
         else RenderTemplate "index.html" NoContext
                (default (SBool false) (s !! "dark_mode"))),
     d, protect req s).
Proof.
  intros Hs Hz. unfold serve, index, bind. rewrite current_user_run, Hs.
  assert (Hrender :
    render_template req (Some None) "index.html" NoContext
      (mk_state d [] (protect req s))
    = (Ok (RenderTemplate "index.html" NoContext
             (default (SBool false) (s !! "dark_mode"))),
       mk_state d [] (protect req s))).
  { unfold render_template, user_context_processor, inject_theme, session_get,
      bind, gets, ret.
    cbn [session]. by rewrite protect_lookup_ne. }
  destruct uid as [z|]; cbn [option_map].
  - rewrite (load_user_run z d [] (protect req s) (Hz z eq_refl)).
    rewrite find_existsb.
    destruct (List.find (fun o => Owner.id o =? z) (owner_table d)); [done|].
    by rewrite Hrender.
  - by rewrite Hrender.
Qed.

Lemma index_dispatch_witness :
  serve (index (Sample.get_ "/")) Sample.store Sample.session
  = (Ok (Redirect (UrlFor "dashboard")), Sample.store,
     protect (Sample.get_ "/") Sample.session)
  /\ serve (index (Sample.get_ "/")) Sample.store (Sample.session_of "99")
     = (Ok (RenderTemplate "index.html" NoContext (SBool false)),
        Sample.store, protect (Sample.get_ "/") (Sample.session_of "99")).
Proof.
  split.
  - apply (index_dispatch (Sample.get_ "/") Sample.store Sample.session (Some 1)).
    + reflexivity.
    + intros z [= <-]. reflexivity.
  - apply (index_dispatch (Sample.get_ "/") Sample.store (Sample.session_of "99")
             (Some 99)).
    + reflexivity.
    + intros z [= <-]. reflexivity.
Defined.

(** X21: the theme a template receives is the one last toggled. After
    [toggle_dark_mode], a view that renders (here the registration form,
    on a session that names no user or names one by the text of a 64-bit
    id) hands its template the negation of the flag the session had
    before; [inject_theme] reads what the toggle wrote.  Rendering loads
    [current_user] for the template, so the session the form leaves is
    the toggled one as session protection makes it. *)
Theorem toggle_then_render (env : environ) (req req' : request) (d : database)
    (s : gmap string sval) (uid : option Z) :
  method req' = GET ->
  s !! "_user_id" = option_map (fun z => SStr (str_of_int z)) uid ->
  (forall z, uid = Some z -> Sql.in_int64 z = true) ->
  exists to s1,
    serve (toggle_dark_mode req) d s = (Ok (Redirect to), d, s1)
    /\ inject_theme (mk_state d [] s1)
       = (Ok (SBool (negb (dark_flag s))), mk_state d [] s1)
    /\ serve (register env req') d s1
       = (Ok (RenderTemplate "register.html" NoContext (SBool (negb (dark_flag s)))),
          d, protect req' s1).
Proof.
  intros Hget Hs Hz. do 2 eexists. split; [apply toggle_dark_mode_run|].
  split.
  - unfold inject_theme, session_get, gets. cbn [session].
    by rewrite lookup_insert_eq.
  - unfold serve, register. rewrite Hget.
    rewrite (render_template_loads req' d [] _ uid);
      [|by rewrite lookup_insert_ne|done].
    by rewrite lookup_insert_eq.
Qed.

Lemma toggle_then_render_witness :
  exists to s1,
    serve (toggle_dark_mode (Sample.get_ "/toggle_dark_mode")) Sample.store ∅
    = (Ok (Redirect to), Sample.store, s1)
    /\ inject_theme (mk_state Sample.store [] s1)
       = (Ok (SBool (negb (dark_flag ∅))), mk_state Sample.store [] s1)
    /\ serve (register Sample.clock (Sample.get_ "/register")) Sample.store s1
       = (Ok (RenderTemplate "register.html" NoContext (SBool (negb (dark_flag ∅)))),
          Sample.store, protect (Sample.get_ "/register") s1).
Proof.
  apply (toggle_then_render Sample.clock (Sample.get_ "/toggle_dark_mode")
           (Sample.get_ "/register") Sample.store ∅ None).
  - reflexivity.
  - reflexivity.
  - intros z [=].
Defined.

(** The registration form on a session that holds the theme alone, and
    on one whose [_user_id] is no number: the first is marked as not
    fresh, and loading the user for the template of the second raises. *)
Example sample_register_form :
  serve (register Sample.clock (Sample.get_ "/register")) Sample.store
    (<["dark_mode" := SBool true]> ∅)
  = (Ok (RenderTemplate "register.html" NoContext (SBool true)), Sample.store,
     <["_fresh" := SBool false]> (<["dark_mode" := SBool true]> ∅))
  /\ serve (register Sample.clock (Sample.get_ "/register")) Sample.store
       (Sample.session_of "asha")
     = (Raise ValueError, Sample.store, Sample.session_of "asha").
Proof. split; vm_compute; reflexivity. Qed.

(** *** More on logout and the dashboard *)

(** X22: logout touches only the login entries. The session [/logout]
    leaves agrees with the one it found on every key other than
    [_user_id], [_fresh], [_id] and the two remember-me keys; in
    particular the dark-mode preference and the flashed messages survive
    the logout. *)
Theorem logout_keeps_other_entries (req : request) (d : database)
    (s : gmap string sval) (A : Owner.t) :
  authenticated req A d s ->
  exists s1,
    serve (logout req) d s = (Ok (Redirect (UrlFor "index")), d, s1)
    /\ (forall k, k <> "_user_id" -> k <> "_fresh" -> k <> "_id" ->
                  k <> "_remember" -> k <> "_remember_seconds" ->
                  s1 !! k = s !! k)
    /\ dark_flag s1 = dark_flag s
    /\ flashed s1 = flashed s.
Proof.
  intros Hauth. exists (logged_out req (protect req s)).
  assert (Hk : forall k, k <> "_user_id" -> k <> "_fresh" -> k <> "_id" ->
                 k <> "_remember" -> k <> "_remember_seconds" ->
                 logged_out req (protect req s) !! k = s !! k).
  { intros k H1 H2 H3 H4 H5. rewrite logged_out_lookup.
    destruct (remember_cookie req); repeat case_decide;
      first [ by apply protect_lookup_ne | exfalso; tauto | intuition congruence ]. }
  split.
  { unfold serve, logout. rewrite (login_required_authenticated _ _ _ _ _ Hauth).
    unfold bind. by rewrite logout_user_run. }
  split; [exact Hk|]. split.
  - unfold dark_flag. by rewrite Hk.
  - unfold flashed. by rewrite Hk.
Qed.

Lemma logout_keeps_other_entries_witness :
  let s := <["dark_mode" := SBool true]> Sample.session in
  exists s1,
    serve (logout (Sample.get_ "/logout")) Sample.store s
    = (Ok (Redirect (UrlFor "index")), Sample.store, s1)
    /\ (forall k, k <> "_user_id" -> k <> "_fresh" -> k <> "_id" ->
                  k <> "_remember" -> k <> "_remember_seconds" ->
                  s1 !! k = s !! k)
    /\ dark_flag s1 = dark_flag s
    /\ flashed s1 = flashed s.
Proof.
  cbv zeta.
  apply (logout_keeps_other_entries (Sample.get_ "/logout") Sample.store
           (<["dark_mode" := SBool true]> Sample.session) Sample.asha).
  unfold authenticated. rewrite current_user_run. reflexivity.
Defined.

(** X23: what the dashboard counts. With unique property ids, the
    dashboard of an authenticated owner counts each row once:
    [total_properties] the properties of the owner, [active_tenants] the
    tenants of those properties whose [is_active] is true, and
    [pending_maintenance] the maintenance requests of those properties
    whose status is set and is not "completed". *)
Theorem dashboard_counts (req : request) (d : database)
    (s : gmap string sval) (A : Owner.t) :
  authenticated req A d s ->
  property_pk d ->
  exists st dark,
    serve (dashboard req) d s
    = (Ok (RenderTemplate "dashboard.html" (WithStats st) dark), d, protect req s)
    /\ total_properties st
       = length (List.filter (fun p => Sql.eq_int (Property.owner_id p) (Owner.id A))
                   (property_table d))
    /\ active_tenants st
       = length (List.filter
                   (fun t => owned_byb d (Tenant.property_id t) (Owner.id A)
                             && Sql.eq_true (Tenant.is_active t))
                   (tenant_table d))
    /\ pending_maintenance st
       = length (List.filter
                   (fun m => owned_byb d (MaintenanceRequest.property_id m) (Owner.id A)
                             && Sql.ne_str (MaintenanceRequest.status m) "completed")
                   (maintenance_request_table d))
    /\ (forall m, MaintenanceRequest.status m = Some "completed"
                  \/ MaintenanceRequest.status m = None ->
                  Sql.ne_str (MaintenanceRequest.status m) "completed" = false).
Proof.
  intros Hauth Hpk. do 2 eexists. split; [by apply dashboard_run|].
  cbn [total_properties active_tenants pending_maintenance].
  rewrite !join_owned_filter by done.
  repeat (split; [reflexivity|]).
  intros m [->| ->]; reflexivity.
Qed.

Lemma dashboard_counts_witness :
  exists st dark,
    serve (dashboard (Sample.get_ "/dashboard")) Sample.store Sample.session
    = (Ok (RenderTemplate "dashboard.html" (WithStats st) dark),
       Sample.store, protect (Sample.get_ "/dashboard") Sample.session)
    /\ total_properties st
       = length (List.filter
                   (fun p => Sql.eq_int (Property.owner_id p) (Owner.id Sample.asha))
                   (property_table Sample.store))
    /\ active_tenants st
       = length (List.filter
                   (fun t => owned_byb Sample.store (Tenant.property_id t)
                               (Owner.id Sample.asha)
                             && Sql.eq_true (Tenant.is_active t))
                   (tenant_table Sample.store))
    /\ pending_maintenance st
       = length (List.filter
                   (fun m => owned_byb Sample.store (MaintenanceRequest.property_id m)
                               (Owner.id Sample.asha)
                             && Sql.ne_str (MaintenanceRequest.status m) "completed")
                   (maintenance_request_table Sample.store))
    /\ (forall m, MaintenanceRequest.status m = Some "completed"
                  \/ MaintenanceRequest.status m = None ->
                  Sql.ne_str (MaintenanceRequest.status m) "completed" = false).
Proof.
  apply (dashboard_counts (Sample.get_ "/dashboard") Sample.store Sample.session
           Sample.asha).
  - apply sample_authenticated.
  - apply sample_property_pk.
Defined.
